(** * quip_python: content addressing and structured edits

    A shallow embedding of [quip_python/quip_python.py].  Python values are
    embedded as follows.

    - [str] is [string], read as the UTF-8 encoding of the Python string;
      case mapping and digit tests are the ASCII ones.
    - Exceptions are values of [Py.exn]; each constructor that stands for an
      exception raised by a language primitive carries the source line of
      the expression that raises it.
    - A Python [dict] is an association list in insertion order with unique
      keys; a dictionary that is shared with the caller lives in an object
      store and is passed by reference.
    - The parsed markup is a rose tree with the accessors of
      [lxml.etree] that the source uses.
    - The remote service, the markup parser and the other third-party
      libraries are parameters of the development.
    - Methods are computations over the service, the caller's
      dictionaries and the thread object; the loops that follow a cursor
      of the service are bounded, and a run that exceeds the bound has no
      result. *)

From Stdlib Require Import ZArith Ascii String DecimalString.
From Stdlib Require DecimalNat DecimalPos.
From stdpp Require Import gmap strings list fin_maps.

Set Warnings "-register-all".

(** ** Python primitives *)

Module Py.

Inductive exn : Type :=
| IndexError (line : nat)
| KeyError (line : nat)
| AttributeError (line : nat)
| TypeError (line : nat)
| ValueError (line : nat)
| HTTPError (code : Z)
| QuipError (code : Z) (message : string)
| TimeoutError
| URLError
| Exception (message : string).

Inductive result (A : Type) : Type :=
| Ok (a : A)
| Raise (e : exn).
Arguments Ok {A} a.
Arguments Raise {A} e.

#[global] Instance result_ret : MRet result := fun A a => Ok a.
#[global] Instance result_bind : MBind result := fun A B f r =>
  match r with
  | Ok a => f a
  | Raise e => Raise e
  end.

#[global] Instance result_fmap : FMap result := fun A B f r =>
  match r with
  | Ok a => Ok (f a)
  | Raise e => Raise e
  end.

(** *** [str] *)

Definition ord (c : ascii) : nat := nat_of_ascii c.

Definition char_isupper (c : ascii) : bool :=
  (ord "A" <=? ord c)%nat && (ord c <=? ord "Z")%nat.
Definition char_islower (c : ascii) : bool :=
  (ord "a" <=? ord c)%nat && (ord c <=? ord "z")%nat.
Definition char_isdigit (c : ascii) : bool :=
  (ord "0" <=? ord c)%nat && (ord c <=? ord "9")%nat.

Definition char_lower (c : ascii) : ascii :=
  if char_isupper c then ascii_of_nat (ord c + 32) else c.
Definition char_upper (c : ascii) : ascii :=
  if char_islower c then ascii_of_nat (ord c - 32) else c.

Fixpoint str_map (f : ascii -> ascii) (s : string) : string :=
  match s with
  | EmptyString => EmptyString
  | String c s' => String (f c) (str_map f s')
  end.

Fixpoint str_all (p : ascii -> bool) (s : string) : bool :=
  match s with
  | EmptyString => true
  | String c s' => p c && str_all p s'
  end.

(** [s.lower()], [s.upper()] *)
Definition lower : string -> string := str_map char_lower.
Definition upper : string -> string := str_map char_upper.

(** [bool(s)] *)
Definition str_truthy (s : string) : bool :=
  match s with EmptyString => false | _ => true end.

(** [s.isdigit()]: at least one character, all of them digits. *)
Definition isdigit (s : string) : bool := str_truthy s && str_all char_isdigit s.

(** [int(s)] for a string of decimal digits. *)
Fixpoint int_acc (acc : nat) (s : string) : nat :=
  match s with
  | EmptyString => acc
  | String c s' => int_acc (10 * acc + (ord c - ord "0")) s'
  end.
Definition int (s : string) : nat := int_acc 0 s.

(** [s.replace(old, new)] for one-character [old] and [new]. *)
Definition replace (old new : ascii) : string -> string :=
  str_map (fun c => if Ascii.eqb c old then new else c).

(** [old in s] for a one-character [old]. *)
Fixpoint contains_char (c : ascii) (s : string) : bool :=
  match s with
  | EmptyString => false
  | String d s' => Ascii.eqb d c || contains_char c s'
  end.

(** [sub in s] *)
Fixpoint contains (sub s : string) : bool :=
  String.prefix sub s ||
  match s with
  | EmptyString => false
  | String _ s' => contains sub s'
  end.

(** [s.replace("\u200b", "")]: the zero-width space is the three bytes
    226, 128, 139. *)
Fixpoint strip_zwsp (s : string) : string :=
  match s with
  | String a (String b (String c s3) as s1) =>
      if Ascii.eqb a (ascii_of_nat 226) && Ascii.eqb b (ascii_of_nat 128)
         && Ascii.eqb c (ascii_of_nat 139)
      then strip_zwsp s3
      else String a (strip_zwsp s1)
  | _ => s
  end.

(** [str(z)] for an [int]. *)
Definition str_of_int (z : Z) : string := NilZero.string_of_int (Z.to_int z).

(** [str(h)] where [h] is a [str] or [None]. *)
Definition str_of_opt (h : option string) : string :=
  match h with Some s => s | None => "None" end.

(** [s.split(sep)] for a one-character [sep]. *)
Fixpoint split (sep : ascii) (s : string) : list string :=
  match s with
  | EmptyString => [EmptyString]
  | String c s' =>
      if Ascii.eqb c sep then EmptyString :: split sep s'
      else
        match split sep s' with
        | part :: parts => String c part :: parts
        | [] => [String c EmptyString]
        end
  end.

(** The white space that [int] strips, within ASCII. *)
Definition char_isspace (c : ascii) : bool :=
  ((9 <=? ord c)%nat && (ord c <=? 13)%nat)
  || ((28 <=? ord c)%nat && (ord c <=? 32)%nat).

Fixpoint lstrip (s : string) : string :=
  match s with
  | String c s' => if char_isspace c then lstrip s' else s
  | EmptyString => EmptyString
  end.

Fixpoint rstrip (s : string) : string :=
  match s with
  | EmptyString => EmptyString
  | String c s' =>
      match rstrip s' with
      | EmptyString => if char_isspace c then EmptyString else String c EmptyString
      | r => String c r
      end
  end.

(** Decimal digits, single underscores allowed between two digits. *)
Fixpoint int_digits (acc : nat) (after_digit : bool) (s : string) : option nat :=
  match s with
  | EmptyString => if after_digit then Some acc else None
  | String c s' =>
      if char_isdigit c then int_digits (10 * acc + (ord c - ord "0")) true s'
      else if Ascii.eqb c "_" && after_digit then int_digits acc false s'
      else None
  end.

(** [int(s)] for a [str]: white space around, a sign, decimal digits;
    the white space and the digits are the ASCII ones.  [None] stands for
    the [ValueError] that the caller raises with its own line. *)
Definition int_of_str (s : string) : option Z :=
  match rstrip (lstrip s) with
  | String "+" digits => Z.of_nat <$> int_digits 0 false digits
  | String "-" digits => (fun n => - Z.of_nat n)%Z <$> int_digits 0 false digits
  | digits => Z.of_nat <$> int_digits 0 false digits
  end.

(** *** Sequences *)

(** [l[i]] with Python's negative indexing; [None] stands for the
    [IndexError] that the caller raises with its own line. *)
Definition getitem {A} (l : list A) (i : Z) : option A :=
  if (0 <=? i)%Z then l !! Z.to_nat i
  else if (- Z.of_nat (length l) <=? i)%Z then l !! Z.to_nat (Z.of_nat (length l) + i)
  else None.

(** [l.index(x)], when [x in l]. *)
Fixpoint index {A} `{EqDecision A} (x : A) (l : list A) : option nat :=
  match l with
  | [] => None
  | y :: l' => if decide (y = x) then Some 0%nat else S <$> index x l'
  end.

(** *** Dictionaries *)

(** Keys of the caller's mappings: header names or column numbers. *)
Inductive key : Type :=
| KStr (s : string)
| KInt (z : Z).

#[global] Instance key_eq_dec : EqDecision key.
Proof. solve_decision. Defined.

Definition key_truthy (k : key) : bool :=
  match k with
  | KStr s => str_truthy s
  | KInt z => negb (z =? 0)%Z
  end.

Definition str (k : key) : string :=
  match k with
  | KStr s => s
  | KInt z => str_of_int z
  end.

Section Dict.
Context {K V : Type} `{EqDecision K}.

Fixpoint dict_get (k : K) (d : list (K * V)) : option V :=
  match d with
  | [] => None
  | (k', v) :: d' => if decide (k' = k) then Some v else dict_get k d'
  end.

(** [d[k] = v]: an existing key keeps its place, a new key goes last. *)
Fixpoint dict_set (k : K) (v : V) (d : list (K * V)) : list (K * V) :=
  match d with
  | [] => [(k, v)]
  | (k', v') :: d' =>
      if decide (k' = k) then (k', v) :: d' else (k', v') :: dict_set k v d'
  end.

Definition keys (d : list (K * V)) : list K := d.*1.
Definition values (d : list (K * V)) : list V := d.*2.
End Dict.

End Py.

Import Py.


(** ** JSON documents and other plain Python values

    What [json.loads] returns and what the source puts into request
    dictionaries: [None], booleans, integers, strings, lists and
    dictionaries with string keys. *)

Module Json.

Inductive json : Type :=
| JNull
| JBool (b : bool)
| JInt (z : Z)
| JStr (s : string)
| JList (l : list json)
| JDict (d : list (string * json)).

(** [bool(j)] *)
Definition truthy (j : json) : bool :=
  match j with
  | JNull => false
  | JBool b => b
  | JInt z => negb (z =? 0)%Z
  | JStr s => str_truthy s
  | JList l => match l with [] => false | _ => true end
  | JDict d => match d with [] => false | _ => true end
  end.

(** [isinstance(j, int)]; [bool] is a subclass of [int]. *)
Definition isinstance_int (j : json) : bool :=
  match j with JInt _ | JBool _ => true | _ => false end.

(** [isinstance(j, dict)] *)
Definition isinstance_dict (j : json) : bool :=
  match j with JDict _ => true | _ => false end.

(** [j.get(k)] evaluated at source line [line]. *)
Definition get (line : nat) (j : json) (k : string) : result json :=
  match j with
  | JDict d => Ok (default JNull (dict_get k d))
  | _ => Raise (AttributeError line)
  end.

(** [j[k]] for a string [k], evaluated at source line [line]. *)
Definition getitem (line : nat) (j : json) (k : string) : result json :=
  match j with
  | JDict d =>
      match dict_get k d with
      | Some v => Ok v
      | None => Raise (KeyError line)
      end
  | _ => Raise (TypeError line)
  end.

(** [a + b] where [a] is a [str], evaluated at source line [line]. *)
Definition concat (line : nat) (a : string) (b : json) : result string :=
  match b with
  | JStr s => Ok (a +:+ s)
  | _ => Raise (TypeError line)
  end.

Definition of_opt (o : option string) : json :=
  match o with Some s => JStr s | None => JNull end.

End Json.

Import Json.

(** ** The element tree of [lxml.etree] *)

Module etree.

(** An element: tag, attribute map, the text node before the first child,
    the children, and the text node that follows the element. *)
Inductive Element : Type :=
  Node { tag : string;
         attrib : gmap string string;
         text : option string;
         children : list Element;
         tail : option string }.

(** [e.iter()]: the element and its descendants in document order. *)
Fixpoint iter_all (e : Element) : list Element :=
  match e with
  | Node _ _ _ cs _ => e :: flat_map iter_all cs
  end.

(** [e.iter(t)] *)
Definition iter (t : string) (e : Element) : list Element :=
  filter (fun x => tag x = t) (iter_all e).

(** [e.iterfind(".//*")]: the proper descendants in document order. *)
Definition descendants (e : Element) : list Element :=
  flat_map iter_all (children e).

(** [e.iterfind(".//" + t)] *)
Definition iterfind_tag (t : string) (e : Element) : list Element :=
  filter (fun x => tag x = t) (descendants e).

(** [e.iterfind(".//*[@a='v']")]; the embedding covers values [v] without
    a quote character. *)
Definition iterfind_attr (a v : string) (e : Element) : list Element :=
  filter (fun x => attrib x !! a = Some v) (descendants e).

(** [e.itertext()]: the text nodes inside the element in document order;
    the tail of a child belongs to the parent's content. *)
Fixpoint itertext (e : Element) : list string :=
  match e with
  | Node _ _ tx cs _ =>
      option_list tx ++ flat_map (fun c => itertext c ++ option_list (tail c)) cs
  end.

(** [len(e)] and [bool(e)]: an element without children is false. *)
Definition len (e : Element) : nat := length (children e).
Definition truthy (e : Element) : bool :=
  match children e with [] => false | _ => true end.

(** [items[idx].attrib["id"] if items else None], evaluated at [line]. *)
Definition item_id (line : nat) (items : list Element) (idx : Z)
    : result (option string) :=
  match items with
  | [] => Ok None
  | _ =>
      match Py.getitem items idx with
      | None => Raise (IndexError line)
      | Some item =>
          match attrib item !! "id" with
          | Some i => Ok (Some i)
          | None => Raise (KeyError line)
          end
      end
  end.

End etree.

Import etree.

(** ** class Quip: requests to the service *)

Module Quip.

(** What [urlopen] is given: the URL up to the query, the query fields and
    the form fields as [urlencode] receives them, and the bearer token. *)
Record Request : Type := {
  url : string;
  query : list (string * string);
  data : option (list (string * string));
  authorization : option string }.

(** What one [urlopen] followed by [json.loads] comes to: a decoded reply,
    a reply whose body is not JSON, an [HTTPError] (with the
    [error_description] of its body when the body has one), a timeout, or
    an unreachable host. *)
Inductive reply : Type :=
| Replied (status : Z) (body : json)
| Garbled
| Failed (code : Z) (error_description : option string)
| TimedOut
| Unreachable.

(** The collaborators outside the repository. [parse] is
    [etree.parse(StringIO(html), etree.HTMLParser())], [table_titles] the
    [title] attributes that BeautifulSoup selects with [table[title]],
    [to_html] and [read_html] are those of pandas and [repr] prints lists and
    dictionaries inside an f-string. *)
Class Externals : Type := {
  World : Type;
  urlopen : World -> Request -> World * reply;
  getenv_token : option string;
  parse : json -> result Element;
  markdownify : json -> result string;
  DataFrame : Type;
  to_html : DataFrame -> string;
  read_html : json -> result (list DataFrame);
  table_titles : json -> result (list string);
  repr : json -> string }.

Definition QUIP_BASE_URL : string := "https://platform.quip-amazon.com".

(** [str(v)] as an f-string computes it. *)
Definition format `{Externals} (v : json) : string :=
  match v with
  | JNull => "None"
  | JBool true => "True"
  | JBool false => "False"
  | JInt z => str_of_int z
  | JStr s => s
  | _ => repr v
  end.

(** One cell of a parsed sheet, one row and one sheet, as
    [parse_sheet_contents] builds them. *)
Record Cell : Type := {
  cell_id : option string;
  cell_content : option string;
  cell_color : option string }.

Record Row : Type := {
  row_id : option string;
  row_cells : list (option string * Cell) }.

Record Sheet : Type := {
  sheet_id : option string;
  sheet_headers : list (option string);
  sheet_rows : list Row }.

(** An instance attribute that no class body declares exists only once it
    has been assigned. *)
Inductive attr (A : Type) : Type :=
| Unassigned
| Assigned (a : A).
Arguments Unassigned {A}.
Arguments Assigned {A} a.

(** The attributes of a thread object ([id] and [type] of the source are
    [id_] and [type_] here). *)
Record Thread `{Externals} : Type := {
  access_token : option string;
  base_url : string;
  id_ : json;
  title : json;
  type_ : json;
  link : json;
  secret_path : json;
  author_id : json;
  created_usec : json;
  updated_usec : json;
  metadata : json;
  content_html : json;
  content_tree : attr (option Element);
  folder_ids : attr (option (list json));
  content_markdown : option string;
  content_sheet_json : option (list (string * Sheet));
  content_sheet_dataframes : option (list (string * DataFrame));
  sheet_names : option (list string) }.

(** The object before [__init__] runs: the class attributes. *)
Definition blank `{Externals} : Thread := {|
  access_token := None; base_url := "";
  id_ := JNull; title := JNull; type_ := JNull; link := JNull;
  secret_path := JNull; author_id := JNull; created_usec := JNull;
  updated_usec := JNull; metadata := JNull; content_html := JNull;
  content_tree := Unassigned; folder_ids := Unassigned;
  content_markdown := None; content_sheet_json := None;
  content_sheet_dataframes := None; sheet_names := None |}.

(** The machine state: the service, the dictionaries that the caller
    shares with the library, and the thread object. *)
Record state `{Externals} : Type := {
  world : World;
  objects : gmap nat (list (key * string));
  self : Thread }.

(** Computations: state passing with exceptions; [None] means that a loop
    ran past its bound. *)
Definition M `{Externals} (A : Type) : Type := state -> option (state * result A).

#[global] Instance M_ret `{Externals} : MRet M := fun A a s => Some (s, Ok a).
#[global] Instance M_bind `{Externals} : MBind M := fun A B f m s =>
  match m s with
  | Some (s', Ok a) => f a s'
  | Some (s', Raise e) => Some (s', Raise e)
  | None => None
  end.

Section Monad.
Context `{Externals}.

Definition lift {A} (r : result A) : M A := fun s => Some (s, r).
Definition raise {A} (e : exn) : M A := lift (Raise e).
Definition overrun {A} : M A := fun _ => None.
Definition put (s : state) (t : Thread) : state :=
  {| world := world s; objects := objects s; self := t |}.
Definition get_self : M Thread := fun s => Some (s, Ok (self s)).
Definition set_self (t : Thread) : M unit := fun s => Some (put s t, Ok tt).
Definition get_object (l : nat) : M (list (key * string)) := fun s =>
  Some (s, Ok (objects s !!! l)).
Definition set_object (l : nat) (d : list (key * string)) : M unit := fun s =>
  Some ({| world := world s; objects := <[l:=d]> (objects s); self := self s |}, Ok tt).

End Monad.

Section Quip.
Context `{Externals}.

(** [Quip.__init__] *)
Definition __init__ (access_token : option string) (base_url : option string) : M unit :=
  t ← get_self;
  set_self {|
    access_token :=
      match access_token with
      | Some a => if str_truthy a then Some a else getenv_token
      | None => getenv_token
      end;
    base_url :=
      match base_url with
      | Some b => if str_truthy b then b else QUIP_BASE_URL
      | None => QUIP_BASE_URL
      end;
    id_ := id_ t; title := title t; type_ := type_ t; link := link t;
    secret_path := secret_path t; author_id := author_id t;
    created_usec := created_usec t; updated_usec := updated_usec t;
    metadata := metadata t; content_html := content_html t;
    content_tree := content_tree t; folder_ids := folder_ids t;
    content_markdown := content_markdown t;
    content_sheet_json := content_sheet_json t;
    content_sheet_dataframes := content_sheet_dataframes t;
    sheet_names := sheet_names t |}.

(** The test [v or isinstance(v, int)]. *)
Definition kept (kv : string * json) : bool :=
  Json.truthy kv.2 || isinstance_int kv.2.

(** [str(v) if isinstance(v, int) else v.encode("utf-8")] *)
Definition encode (kv : string * json) : result (string * string) :=
  match kv.2 with
  | JInt z => Ok (kv.1, str_of_int z)
  | JBool true => Ok (kv.1, "True")
  | JBool false => Ok (kv.1, "False")
  | JStr s => Ok (kv.1, s)
  | _ => Raise (AttributeError 114)
  end.

Definition _clean (args : list (string * json)) : result (list (string * string)) :=
  mapM encode (List.filter kept args).

(** [_url] and the request that [_fetch_json] hands to [urlopen]. *)
Definition request (t : Thread) (api_version : Z) (path : string)
    (post_data : option (list (string * json))) (args : list (string * json))
    : result Request :=
  q ← _clean args;
  d ← match post_data with
      | None | Some [] => Ok None
      | Some pd => Some <$> _clean (List.filter kept pd)
      end;
  Ok {| url := base_url t +:+ "/" +:+ str_of_int api_version +:+ "/" +:+ path;
        query := q;
        data := d;
        authorization :=
          match access_token t with
          | Some a => if str_truthy a then Some ("Bearer " +:+ a) else None
          | None => None
          end |}.

(** The body of [_fetch_json], one attempt. *)
Definition _fetch_json_once (api_version : Z) (path : string)
    (post_data : option (list (string * json))) (args : list (string * json))
    : M (Z * json) := fun s =>
  match request (self s) api_version path post_data args with
  | Raise e => Some (s, Raise e)
  | Ok req =>
      let '(w, r) := urlopen (world s) req in
      Some ({| world := w; objects := objects s; self := self s |},
            match r with
            | Replied status body => Ok (status, body)
            | Garbled => Raise (ValueError 103)
            | Failed code (Some message) => Raise (QuipError code message)
            | Failed code None => Raise (HTTPError code)
            | TimedOut => Raise TimeoutError
            | Unreachable => Raise URLError
            end)
  end.

(** [@retry(TimeoutError, tries=...)]: a call that times out is made
    again while tries are left; [more] is the number of tries after the
    first. *)
Fixpoint retry {A} (more : nat) (f : M A) : M A := fun s =>
  match f s with
  | Some (s', Raise TimeoutError) =>
      match more with
      | O => Some (s', Raise TimeoutError)
      | S more' => retry more' f s'
      end
  | r => r
  end.

Definition _fetch_json (api_version : Z) (path : string)
    (post_data : option (list (string * json))) (args : list (string * json))
    : M (Z * json) :=
  retry 2 (_fetch_json_once api_version path post_data args).

End Quip.

End Quip.

Import Quip.

(** ** class QuipThread *)

Module QuipThread.

(** Edit locations *)
Definition AFTER_SECTION : Z := 2.
Definition BEFORE_SECTION : Z := 3.
Definition REPLACE_SECTION : Z := 4.
Definition DELETE_SECTION : Z := 5.

Section QuipThread.
Context `{Externals}.

(** The loops that follow a cursor run at most [fuel] times. *)
Variable fuel : nat.

(** *** Assignments to the attributes of [self] *)

Definition with_identity (i ti ty li sp au cr up md : json) (t : Thread) : Thread :=
  {|
    access_token := access_token t; base_url := base_url t;
    id_ := i; title := ti; type_ := ty; link := li; secret_path := sp;
    author_id := au; created_usec := cr; updated_usec := up; metadata := md;
    content_html := content_html t; content_tree := content_tree t;
    folder_ids := folder_ids t; content_markdown := content_markdown t;
    content_sheet_json := content_sheet_json t;
    content_sheet_dataframes := content_sheet_dataframes t;
    sheet_names := sheet_names t |}.

Definition set_identity (i ti ty li sp au cr up md : json) : M unit :=
  t ← get_self; set_self (with_identity i ti ty li sp au cr up md t).

Definition with_content_html (v : json) (t : Thread) : Thread :=
  {|
    access_token := access_token t; base_url := base_url t;
    id_ := id_ t; title := title t; type_ := type_ t; link := link t;
    secret_path := secret_path t; author_id := author_id t;
    created_usec := created_usec t; updated_usec := updated_usec t;
    metadata := metadata t;
    content_html := v; content_tree := content_tree t;
    folder_ids := folder_ids t; content_markdown := content_markdown t;
    content_sheet_json := content_sheet_json t;
    content_sheet_dataframes := content_sheet_dataframes t;
    sheet_names := sheet_names t |}.

Definition set_content_html (v : json) : M unit :=
  t ← get_self; set_self (with_content_html v t).

Definition with_content_tree (v : option Element) (t : Thread) : Thread :=
  {|
    access_token := access_token t; base_url := base_url t;
    id_ := id_ t; title := title t; type_ := type_ t; link := link t;
    secret_path := secret_path t; author_id := author_id t;
    created_usec := created_usec t; updated_usec := updated_usec t;
    metadata := metadata t;
    content_html := content_html t; content_tree := Assigned v;
    folder_ids := folder_ids t; content_markdown := content_markdown t;
    content_sheet_json := content_sheet_json t;
    content_sheet_dataframes := content_sheet_dataframes t;
    sheet_names := sheet_names t |}.

Definition set_content_tree (v : option Element) : M unit :=
  t ← get_self; set_self (with_content_tree v t).

Definition with_folder_ids (v : option (list json)) (t : Thread) : Thread :=
  {|
    access_token := access_token t; base_url := base_url t;
    id_ := id_ t; title := title t; type_ := type_ t; link := link t;
    secret_path := secret_path t; author_id := author_id t;
    created_usec := created_usec t; updated_usec := updated_usec t;
    metadata := metadata t;
    content_html := content_html t; content_tree := content_tree t;
    folder_ids := Assigned v; content_markdown := content_markdown t;
    content_sheet_json := content_sheet_json t;
    content_sheet_dataframes := content_sheet_dataframes t;
    sheet_names := sheet_names t |}.

Definition set_folder_ids (v : option (list json)) : M unit :=
  t ← get_self; set_self (with_folder_ids v t).

(** [self.content_tree], an attribute that may not exist or may be [None];
    [line] is where the caller then calls a method on it. *)
Definition the_tree (self : Thread) (line : nat) : result Element :=
  match content_tree self with
  | Assigned (Some tree) => Ok tree
  | _ => Raise (AttributeError line)
  end.

(** *** [_get_thread_html] *)

Definition is_empty_str (j : json) : bool :=
  match j with JStr EmptyString => true | _ => false end.

Fixpoint _get_thread_html_loop (n : nat) (html_content : string) (next_cursor : json)
    : M json :=
  if is_empty_str next_cursor then
    mret (if (0 <? String.length html_content)%nat
          then JStr ("<html>" +:+ html_content +:+ "</html>") else JNull)
  else
    match n with
    | O => overrun
    | S n' =>
        t ← get_self;
        '(response_status, response_json) ←
          _fetch_json 2 ("threads/" +:+ format (id_ t) +:+ "/html") None
            [("cursor", next_cursor)];
        fragment ← lift (Json.get 344 response_json "html");
        html_content ← lift (Json.concat 344 html_content fragment);
        metadata ← lift (Json.getitem 345 response_json "response_metadata");
        next_cursor ← lift (Json.get 345 metadata "next_cursor");
        _get_thread_html_loop n' html_content next_cursor
    end.

Definition _get_thread_html : M json := _get_thread_html_loop fuel "" JNull.

(** *** [_get_folder_ids] *)

(** [for folder in folders: folder_ids.append(folder.get('folder_id'))] *)
Definition folder_id_list (folders : json) : result (list json) :=
  match folders with
  | JList l => mapM (fun folder => Json.get 357 folder "folder_id") l
  | JDict [] | JStr EmptyString => Ok []
  | JDict _ | JStr _ => Raise (AttributeError 357)
  | _ => Raise (TypeError 356)
  end.

Fixpoint _get_folder_ids_loop (n : nat) (folder_ids : list json) (next_cursor : json)
    : M (list json) :=
  if is_empty_str next_cursor then
    set_folder_ids (match folder_ids with [] => None | _ => Some folder_ids end);;
    mret folder_ids
  else
    match n with
    | O => overrun
    | S n' =>
        t ← get_self;
        '(response_status, response_json) ←
          _fetch_json 2 ("threads/" +:+ format (id_ t) +:+ "/folders") None
            [("cursor", next_cursor)];
        folders ← lift (Json.get 356 response_json "folders");
        more ← lift (folder_id_list folders);
        metadata ← lift (Json.getitem 358 response_json "response_metadata");
        next_cursor ← lift (Json.get 358 metadata "next_cursor");
        _get_folder_ids_loop n' (folder_ids ++ more) next_cursor
    end.

Definition _get_folder_ids : M (list json) := _get_folder_ids_loop fuel [] JNull.

(** *** [__init__] *)

(** Lines 302 to 328 of [__init__]: the thread is created or fetched and
    its description is stored. *)
Definition load (client : option (option string * string))
    (access_token base_url : option string) (thread_id : json)
    (format title content : json) (member_ids : list string) (doc_type : json)
    : M unit :=
  match client with
  | Some (a, b) => Quip.__init__ a (Some b)
  | None => Quip.__init__ access_token base_url
  end;;
  '(response_status, response_json) ←
    match thread_id with
    | JNull =>
        _fetch_json 1 "threads/new-document"
          (Some [("content", content); ("format", format); ("title", title);
                 ("member_ids", JStr (String.concat "," member_ids));
                 ("type", doc_type)]) []
    | _ => _fetch_json 2 ("threads/" +:+ Quip.format thread_id) None []
    end;
  thread_json ← lift (Json.get 319 response_json "thread");
  i ← lift (Json.get 320 thread_json "id");
  ti ← lift (Json.get 321 thread_json "title");
  ty ← lift (Json.get 322 thread_json "type");
  li ← lift (Json.get 323 thread_json "link");
  sp ← lift (Json.get 324 thread_json "secret_path");
  au ← lift (Json.get 325 thread_json "author_id");
  cr ← lift (Json.get 326 thread_json "created_usec");
  up ← lift (Json.get 327 thread_json "updated_usec");
  set_identity i ti ty li sp au cr up response_json.

Definition __init__ (client : option (option string * string))
    (access_token base_url : option string) (thread_id : json)
    (format title content : json) (member_ids : list string) (doc_type : json)
    : M unit :=
  load client access_token base_url thread_id format title content member_ids
    doc_type;;
  html ← _get_thread_html;
  set_content_html html;;
  match parse html with
  | Ok tree => set_content_tree (Some tree)
  | Raise _ => mret tt
  end;;
  folder_ids ← _get_folder_ids;
  set_folder_ids (Some folder_ids).

(** *** [edit_thread] *)

(** [None if not section_id else section_id.replace(";", "_")] *)
Definition sanitize (section_id : option string) : json :=
  match section_id with
  | None => JNull
  | Some s => if str_truthy s then JStr (replace ";" "_" s) else JNull
  end.

(** The dictionary [args] of [edit_thread]. *)
Definition edit_thread_args (self : Thread) (content location format : json)
    (section_id : option string) : list (string * json) :=
  let section_id := sanitize section_id in
  [("thread_id", id_ self); ("content", content); ("location", location);
   ("format", format); ("section_id", section_id)].

Definition edit_thread (content location format : json) (section_id : option string)
    : M (Z * json) :=
  t ← get_self;
  _fetch_json 1 "threads/edit-document"
    (Some (edit_thread_args t content location format section_id)) [].

(** *** [_copy] *)

(** The dictionary [args] of [_copy]; an absent list is the empty list. *)
Definition copy_args (self : Thread) (folder_ids member_ids : list string)
    (title : option string) (copy_annotations : bool) : result (list (string * json)) :=
  let args := [("thread_id", id_ self)] in
  let args := match folder_ids with
              | [] => args
              | _ => dict_set "folder_ids" (JStr (String.concat "," folder_ids)) args
              end in
  let args := match member_ids with
              | [] => args
              | _ => dict_set "member_ids" (JStr (String.concat "," member_ids)) args
              end in
  args ← match title with
         | Some (String _ _) => Ok args
         | _ =>
             match Quip.title self with
             | JStr own => Ok (dict_set "title" (JStr (own +:+ " (Copy)")) args)
             | _ => Raise (TypeError 383)
             end
         end;
  Ok (dict_set "copy_annotations" (JBool copy_annotations) args).

End QuipThread.

End QuipThread.

Import QuipThread.

(** ** class QuipDocument *)

Module QuipDocument.

(** Edit locations *)
Definition AFTER_DOC : Z := 0.
Definition BEFORE_DOC : Z := 1.
Definition AFTER_RANGE : Z := 6.
Definition BEFORE_RANGE : Z := 7.
Definition REPLACE_RANGE : Z := 8.
Definition DELETE_RANGE : Z := 9.

Section QuipDocument.
Context `{Externals}.
Variable fuel : nat.

Definition with_content_markdown (v : string) (t : Thread) : Thread :=
  {|
    access_token := access_token t; base_url := base_url t;
    id_ := id_ t; title := title t; type_ := type_ t; link := link t;
    secret_path := secret_path t; author_id := author_id t;
    created_usec := created_usec t; updated_usec := updated_usec t;
    metadata := metadata t;
    content_html := content_html t; content_tree := content_tree t;
    folder_ids := folder_ids t; content_markdown := Some v;
    content_sheet_json := content_sheet_json t;
    content_sheet_dataframes := content_sheet_dataframes t;
    sheet_names := sheet_names t |}.

Definition set_content_markdown (v : string) : M unit :=
  t ← get_self; set_self (with_content_markdown v t).

Definition __init__ (client : option (option string * string))
    (access_token base_url : option string) (thread_id : json)
    (format title content : json) (member_ids : list string) : M unit :=
  QuipThread.__init__ fuel client access_token base_url thread_id format title
    content member_ids (JStr "document");;
  t ← get_self;
  md ← lift (markdownify (content_html t));
  set_content_markdown md.

(** The dictionary [args] of [edit_range]. *)
Definition edit_range_args (self : Thread) (content location format : json)
    (document_range : option string) : list (string * json) :=
  let document_range := sanitize document_range in
  [("thread_id", id_ self); ("content", content); ("location", location);
   ("format", format); ("document_range", document_range)].

Definition edit_range (content location format : json) (document_range : option string)
    : M (Z * json) :=
  t ← get_self;
  _fetch_json 1 "threads/edit-document"
    (Some (edit_range_args t content location format document_range)) [].

(** *** Resolution of anchors in the tree *)

Definition _get_section_elementTree (self : Thread) (section_id : string)
    : result (option Element) :=
  tree ← the_tree self 546;
  Ok (head (iterfind_attr "id" section_id tree)).

Definition _get_list_item_section_ids (self : Thread) (section_id : string)
    : result (list Element) :=
  list_tree ← _get_section_elementTree self section_id;
  match list_tree with
  | Some list_tree => Ok (iter "li" list_tree)
  | None => Raise (AttributeError 554)
  end.

Definition _get_first_list_item_section_id (self : Thread) (section_id : string)
    : result (option string) :=
  items ← _get_list_item_section_ids self section_id;
  item_id 558 items 0.

Definition _get_last_list_item_section_id (self : Thread) (section_id : string)
    : result (option string) :=
  items ← _get_list_item_section_ids self section_id;
  item_id 563 items (-1).

Definition _get_nth_list_item_section_id (self : Thread) (list_section_id : string)
    (idx : Z) : result (option string) :=
  items ← _get_list_item_section_ids self list_section_id;
  item_id 567 items idx.

(** *** Reloading and editing *)

Definition reload_content (html : json) : M unit :=
  (if Json.truthy html then set_content_html html
   else h ← _get_thread_html fuel; set_content_html h);;
  t ← get_self;
  match parse (content_html t) with
  | Ok tree => set_content_tree (Some tree)
  | Raise _ => set_content_tree None
  end;;
  t ← get_self;
  md ← lift (markdownify (content_html t));
  set_content_markdown md.

Definition doc_edit_content (content location format : json)
    (section_id : option string) : M Z :=
  '(response_status, response_content) ←
    edit_thread content location format section_id;
  (if isinstance_dict response_content
   then h ← lift (Json.get 664 response_content "html"); reload_content h
   else mret tt);;
  mret response_status.

(** *** The public editing methods; [JNull] and [None] are Python's [None]. *)

Definition is_none (j : json) : bool :=
  match j with JNull => true | _ => false end.

Definition content_add_after_document (content format : json) : M Z :=
  if is_none content
  then raise (Exception "content is required for content_add_after_document")
  else doc_edit_content content (JInt AFTER_DOC) format None.

Definition content_add_before_document (content format : json) : M Z :=
  if is_none content
  then raise (Exception "content is required for content_add_before_document")
  else doc_edit_content content (JInt BEFORE_DOC) format None.

Definition content_add_after_section (content format : json)
    (section_id : option string) : M Z :=
  if is_none content || bool_decide (section_id = None)
  then raise (Exception
    "content and section_id are required for content_add_after_section")
  else doc_edit_content content (JInt AFTER_SECTION) format section_id.

Definition content_add_before_section (content format : json)
    (section_id : option string) : M Z :=
  if is_none content || bool_decide (section_id = None)
  then raise (Exception
    "content and section_id are required for content_add_before_section")
  else doc_edit_content content (JInt BEFORE_SECTION) format section_id.

Definition content_replace_section (content format : json)
    (section_id : option string) : M Z :=
  if is_none content || bool_decide (section_id = None)
  then raise (Exception
    "content and section_id are required for content_replace_section")
  else doc_edit_content content (JInt REPLACE_SECTION) format section_id.

Definition content_delete_section (section_id : option string) : M Z :=
  if bool_decide (section_id = None)
  then raise (Exception "section_id is required for delete_section")
  else doc_edit_content (JStr " ") (JInt DELETE_SECTION) (JStr "markdown") section_id.

Definition content_add_after_list (content format : json)
    (list_section_id : option string) : M Z :=
  match list_section_id with
  | Some l =>
      if is_none content
      then raise (Exception
        "content and list section_id are required for content_add_after_section")
      else
        t ← get_self;
        section_id ← lift (_get_last_list_item_section_id t l);
        doc_edit_content content (JInt AFTER_SECTION) format section_id
  | None => raise (Exception
      "content and list section_id are required for content_add_after_section")
  end.

Definition content_add_before_list (content format : json)
    (list_section_id : option string) : M Z :=
  match list_section_id with
  | Some l =>
      if is_none content
      then raise (Exception
        "content and list section_id are required for content_add_after_section")
      else
        t ← get_self;
        section_id ← lift (_get_first_list_item_section_id t l);
        doc_edit_content content (JInt BEFORE_SECTION) format section_id
  | None => raise (Exception
      "content and list section_id are required for content_add_after_section")
  end.

Definition content_insert_after_list_item (content format : json)
    (list_section_id : option string) (item_idx : option Z) : M Z :=
  match list_section_id, item_idx with
  | Some l, Some idx =>
      if is_none content
      then raise (Exception
        "content, list section_id and item_idx are required for content_insert_after_list_item")
      else
        t ← get_self;
        section_id ← lift (_get_nth_list_item_section_id t l idx);
        doc_edit_content content (JInt AFTER_SECTION) format section_id
  | _, _ => raise (Exception
      "content, list section_id and item_idx are required for content_insert_after_list_item")
  end.

Definition content_replace_list_item (content format : json)
    (list_section_id : option string) (item_idx : option Z) : M Z :=
  match list_section_id, item_idx with
  | Some l, Some idx =>
      if is_none content
      then raise (Exception
        "content, list section_id and item_idx are required for content_replace_list_item")
      else
        t ← get_self;
        section_id ← lift (_get_nth_list_item_section_id t l idx);
        doc_edit_content content (JInt REPLACE_SECTION) format section_id
  | _, _ => raise (Exception
      "content, list section_id and item_idx are required for content_replace_list_item")
  end.

(** *** The edits of a range; they return what [edit_range] returns. *)

Definition content_add_after_range (content format : json) (header : option string)
    : M (Z * json) :=
  if is_none content || bool_decide (header = None)
  then raise (Exception "content and header are required for content_add_after_range")
  else edit_range content (JInt AFTER_RANGE) format header.

Definition content_add_before_range (content format : json) (header : option string)
    : M (Z * json) :=
  if is_none content || bool_decide (header = None)
  then raise (Exception "content and header are required for content_add_before_range")
  else edit_range content (JInt BEFORE_RANGE) format header.

Definition content_replace_range (content format : json) (header : option string)
    : M (Z * json) :=
  if is_none content || bool_decide (header = None)
  then raise (Exception
    "content and header_section_id are required for content_replace_range")
  else edit_range content (JInt REPLACE_RANGE) format header.

Definition content_delete_range (header : option string) : M (Z * json) :=
  if bool_decide (header = None)
  then raise (Exception "<header> string is required for content_delete_range")
  else edit_range (JStr " ") (JInt DELETE_RANGE) (JStr "markdown") header.

End QuipDocument.

End QuipDocument.

(** ** class QuipSpreadSheet *)

Module QuipSpreadSheet.

Section QuipSpreadSheet.
Context `{Externals}.
Variable fuel : nat.

Definition with_sheets (names : option (list string))
    (dataframes : option (list (string * DataFrame)))
    (sheets : option (list (string * Sheet))) (t : Thread) : Thread :=
  {|
    access_token := access_token t; base_url := base_url t;
    id_ := id_ t; title := title t; type_ := type_ t; link := link t;
    secret_path := secret_path t; author_id := author_id t;
    created_usec := created_usec t; updated_usec := updated_usec t;
    metadata := metadata t;
    content_html := content_html t; content_tree := content_tree t;
    folder_ids := folder_ids t; content_markdown := content_markdown t;
    content_sheet_json := sheets;
    content_sheet_dataframes := dataframes;
    sheet_names := names |}.

Definition set_sheets (names : option (list string))
    (dataframes : option (list (string * DataFrame)))
    (sheets : option (list (string * Sheet))) : M unit :=
  t ← get_self; set_self (with_sheets names dataframes sheets t).

(** *** Reading the tree *)

Definition _sheet_name_to_tree (self : Thread) (sheet_name : option string)
    : result (option Element) :=
  match sheet_name with
  | Some (String _ _ as name) =>
      tree ← the_tree self 730;
      Ok (head (iterfind_attr "title" name tree))
  | _ =>
      tree ← the_tree self 735;
      Ok (head (iter "table" tree))
  end.

(** [(list(x.itertext()) or [None])[0] for x in row_tree] *)
Definition _get_row_tree_values (row_tree : Element) : list (option string) :=
  (fun x => head (itertext x)) <$> children row_tree.

Definition _get_sheet_tree_col_names (sheet_tree : option Element)
    : result (list (option string)) :=
  match sheet_tree with
  | None => Raise (AttributeError 838)
  | Some sheet_tree =>
      match iterfind_tag "tr" sheet_tree with
      | [] => Raise (IndexError 838)
      | row :: _ => Ok (_get_row_tree_values row)
      end
  end.

(** [[str(h).lower() for h in header_items]] *)
Definition lower_headers (header_items : list (option string)) : list string :=
  (fun h => lower (str_of_opt h)) <$> header_items.

Definition _get_col_name_index (header_items : list (option string)) (header : key)
    (default : option nat) : option nat :=
  if key_truthy header then
    let header := str header in
    let lower_headers := lower_headers header_items in
    if bool_decide (Some header ∈ header_items) then
      index (Some header) header_items
    else if bool_decide (lower header ∈ lower_headers) then
      index (lower header) lower_headers
    else if isdigit header then
      Some (int header)
    else
      match upper header with
      | String char EmptyString =>
          if (ord "A" <? ord char)%nat && (ord char <? ord "Z")%nat
          then Some (ord char - ord "A" + 1)%nat
          else default
      | _ => default
      end
  else default.

Definition _get_row_section_ids (row_tree : Element) : list string :=
  (fun x => default "" (attrib x !! "id")) <$> children row_tree.

Definition _get_nth_row_section_id (sheet_tree : option Element) (idx : Z)
    : result (option string) :=
  match sheet_tree with
  | None => Raise (AttributeError 771)
  | Some sheet_tree => item_id 772 (iter "tr" sheet_tree) idx
  end.

(** The loop of [_find_row_tree] over the rows that are left. *)
Fixpoint find_row (index : nat) (value : string) (rows : list Element)
    : result (option Element) :=
  match rows with
  | [] => Ok None
  | row :: rows' =>
      if (len row <=? index)%nat then find_row index value rows'
      else
        match children row !! index with
        | None => Raise (IndexError 866)
        | Some cell =>
            if negb (bool_decide (tag cell = "td")) then find_row index value rows'
            else
              match itertext cell with
              | [] => Raise (IndexError 869)
              | first :: _ =>
                  if bool_decide (lower first = lower value) then Ok (Some row)
                  else find_row index value rows'
              end
        end
  end.

Definition _find_row_tree (sheet_tree : option Element) (header : key) (value : string)
    : result (option Element) :=
  headers ← _get_sheet_tree_col_names sheet_tree;
  match _get_col_name_index headers header (Some 0%nat), sheet_tree with
  | Some index, Some sheet_tree => find_row index value (iterfind_tag "tr" sheet_tree)
  | None, _ => Raise (TypeError 864)
  | _, None => Raise (AttributeError 863)
  end.

(** *** Building a row *)

Definition td (cell : string) : string := "<td>" +:+ cell +:+ "</td>".
Definition tr (row : list string) : string :=
  "<tr>" +:+ String.concat "" (td <$> row) +:+ "</tr>".

Definition _list_to_html (rows : list (list string)) : string :=
  String.concat "" (tr <$> rows).

(** The first loop of [_dict_to_html], one item of the mapping. *)
Definition place (headers : list (option string))
    (acc : gmap nat string * list string) (item : key * string)
    : gmap nat string * list string :=
  let '(indexed_items, extra_items) := acc in
  match _get_col_name_index headers item.1 None with
  | None => (indexed_items, extra_items ++ [item.2])
  | Some index =>
      if bool_decide (is_Some (indexed_items !! index))
      then (indexed_items, extra_items ++ [item.2])
      else (<[index:=item.2]> indexed_items, extra_items)
  end.

(** The second loop of [_dict_to_html], one index of the range. *)
Definition fill (indexed_items : gmap nat string)
    (acc : list string * list string) (i : nat) : list string * list string :=
  let '(cells, extra_items) := acc in
  match indexed_items !! i with
  | Some v => (cells ++ [v], extra_items)
  | None =>
      match extra_items with
      | e :: extra_items' => (cells ++ [e], extra_items')
      | [] => (cells ++ [""], [])
      end
  end.

(** [max(indexed_items.keys())] *)
Definition max_key (indexed_items : gmap nat string) : nat :=
  max_list (map_to_list indexed_items).*1.

(** The cells that [_dict_to_html] renders. *)
Definition dict_cells (headers : list (option string)) (updates_dct : list (key * string))
    : list string :=
  let '(indexed_items, extra_items) := foldl (place headers) (∅, []) updates_dct in
  let '(cells, extra_items) :=
    if bool_decide (indexed_items = ∅) then ([], extra_items)
    else foldl (fill indexed_items) ([], extra_items)
           (seq 0 (max_key indexed_items + 1)) in
  cells ++ extra_items.

Definition _dict_to_html (self : Thread) (updates_dct : list (key * string))
    (sheet_name : option string) : result string :=
  sheet_tree ← _sheet_name_to_tree self sheet_name;
  names ← _get_sheet_tree_col_names sheet_tree;
  let headers := drop 1 names in
  Ok (tr (dict_cells headers updates_dct)).

(** *** [parse_sheet_contents] *)

(** The colour of a cell: the six characters after the first [#] of a
    style that declares a background colour. *)
Definition color (style : option string) : option string :=
  match style with
  | Some style =>
      if str_truthy style && contains "background-color:#" style then
        sharp ← String.index 0 "#" style;
        Some (substring (sharp + 1) 6 style)
      else None
  | None => None
  end.

Definition cell_data (cell : Element) : result Cell :=
  content ← match iter "img" cell with
            | image :: _ => Ok (attrib image !! "src")
            | [] =>
                match itertext cell with
                | [] => Raise (IndexError 956)
                | first :: _ => Ok (Some (strip_zwsp first))
                end
            end;
  Ok {| cell_id := attrib cell !! "id";
        cell_content := content;
        cell_color := color (attrib cell !! "style") |}.

(** [for i, cell in enumerate(row)], from position [i] on. *)
Fixpoint cells_of (headers : list (option string)) (i : nat) (row : list Element)
    (cells : list (option string * Cell)) : result (list (option string * Cell)) :=
  match row with
  | [] => Ok cells
  | cell :: row' =>
      if negb (bool_decide (tag cell = "td")) then cells_of headers (S i) row' cells
      else
        data ← cell_data cell;
        match headers !! i with
        | None => Raise (IndexError 962)
        | Some header => cells_of headers (S i) row' (dict_set header data cells)
        end
  end.

Fixpoint rows_of (headers : list (option string)) (rows : list Element)
    : result (list Row) :=
  match rows with
  | [] => Ok []
  | row :: rows' =>
      cells ← cells_of headers 0 (children row) [];
      more ← rows_of headers rows';
      Ok (match cells with
          | [] => more
          | _ => {| row_id := attrib row !! "id"; row_cells := cells |} :: more
          end)
  end.

Definition parse_sheet_contents (self : Thread) (sheet_name : option string)
    : result Sheet :=
  sheet_tree ← _sheet_name_to_tree self sheet_name;
  match sheet_tree with
  | None => Raise (AttributeError 937)
  | Some tree =>
      headers ← _get_sheet_tree_col_names sheet_tree;
      rows ← rows_of headers (iterfind_tag "tr" tree);
      Ok {| sheet_id := attrib tree !! "id";
            sheet_headers := headers;
            sheet_rows := rows |}
  end.

(** *** The state derived from the markup *)

Definition _get_sheets_as_dataframes (self : Thread)
    : result (list (string * DataFrame)) :=
  table_names_lst ← table_titles (content_html self);
  df_lst ← read_html (content_html self);
  Ok (foldl (fun d nd => dict_set nd.1 nd.2 d) [] (zip table_names_lst df_lst)).

Fixpoint sheets_of (self : Thread) (names : list string)
    (spreadsheet_dct : list (string * Sheet)) : result (list (string * Sheet)) :=
  match names with
  | [] => Ok spreadsheet_dct
  | name :: names' =>
      sheet ← parse_sheet_contents self (Some name);
      sheets_of self names' (dict_set name sheet spreadsheet_dct)
  end.

Definition _get_sheets_as_json (self : Thread) : result (list (string * Sheet)) :=
  table_names_lst ← table_titles (content_html self);
  sheets_of self table_names_lst [].

Definition reload_content (html : json) : M unit :=
  (if Json.truthy html then set_content_html html
   else h ← _get_thread_html fuel; set_content_html h);;
  t ← get_self;
  match parse (content_html t) with
  | Ok tree => set_content_tree (Some tree)
  | Raise _ => set_content_tree None
  end;;
  t ← get_self;
  names ← lift (match content_sheet_dataframes t with
                | Some d => Ok (keys d)
                | None => Raise (AttributeError 993)
                end);
  set_sheets (Some names) (content_sheet_dataframes t) (content_sheet_json t);;
  t ← get_self;
  dataframes ← lift (_get_sheets_as_dataframes t);
  set_sheets (sheet_names t) (Some dataframes) (content_sheet_json t);;
  t ← get_self;
  sheets ← lift (_get_sheets_as_json t);
  set_sheets (sheet_names t) (content_sheet_dataframes t) (Some sheets).

Definition sheet_edit_content (content location format : json)
    (section_id : option string) : M Z :=
  '(response_status, response_content) ←
    edit_thread content location format section_id;
  (if isinstance_dict response_content
   then h ← lift (Json.get 977 response_content "html"); reload_content h
   else mret tt);;
  mret response_status.

Definition __init__ (client : option (option string * string))
    (access_token base_url : option string) (thread_id : json)
    (title : json) (content : option DataFrame) (member_ids : list string)
    : M unit :=
  let content_html := of_opt (to_html <$> content) in
  QuipThread.__init__ fuel client access_token base_url thread_id (JStr "html")
    title content_html member_ids (JStr "spreadsheet");;
  t ← get_self;
  dataframes ← lift (_get_sheets_as_dataframes t);
  set_sheets (sheet_names t) (Some dataframes) (content_sheet_json t);;
  set_sheets (Some (keys dataframes)) (Some dataframes) (content_sheet_json t);;
  t ← get_self;
  sheets ← lift (_get_sheets_as_json t);
  set_sheets (sheet_names t) (content_sheet_dataframes t) (Some sheets).

(** *** Adding rows and updating cells *)

(** A row is given as a list of cells or as a dictionary of the caller. *)
Inductive row_update : Type :=
| RowList (cells : list string)
| RowDict (ref : nat).

Definition _sheet_add_row (row_update : row_update) (sheet_name : option string)
    (row_idx : option Z) (location : option Z) : M Z :=
  t ← get_self;
  sheet_tree ← lift (_sheet_name_to_tree t sheet_name);
  '(section_id, location) ← lift (
    match row_idx with
    | None =>
        if bool_decide (location = Some BEFORE_SECTION) then
          section_id ← _get_nth_row_section_id sheet_tree 1;
          Ok (section_id, BEFORE_SECTION)
        else
          section_id ← _get_nth_row_section_id sheet_tree (-1);
          Ok (section_id, AFTER_SECTION)
    | Some row_idx =>
        section_id ← _get_nth_row_section_id sheet_tree row_idx;
        Ok (section_id, default AFTER_SECTION location)
    end);
  content ← match row_update with
            | RowList row => mret (_list_to_html [row])
            | RowDict ref =>
                updates_dct ← get_object ref;
                lift (_dict_to_html t updates_dct None)
            end;
  sheet_edit_content (JStr content) (JInt location) (JStr "html") section_id.

Definition sheet_row_prepend (row : row_update) (sheet_name : option string) : M Z :=
  _sheet_add_row row sheet_name None (Some BEFORE_SECTION).

Definition sheet_row_append (row : row_update) (sheet_name : option string) : M Z :=
  _sheet_add_row row sheet_name None (Some AFTER_SECTION).

Definition sheet_row_insert_before (row : row_update) (sheet_name : option string)
    (row_idx : option Z) : M Z :=
  _sheet_add_row row sheet_name row_idx (Some BEFORE_SECTION).

Definition sheet_row_insert_after (row : row_update) (sheet_name : option string)
    (row_idx : option Z) : M Z :=
  _sheet_add_row row sheet_name row_idx (Some AFTER_SECTION).

(** The loop of [sheet_search_update_cells] over the updates that are
    left; [response] is the status of the last edit made so far. *)
Fixpoint update_cells (headers : list (option string)) (section_ids : list string)
    (updates : list (key * string)) (response : option Z) : M (option Z) :=
  match updates with
  | [] => mret response
  | (head, val) :: updates' =>
      match _get_col_name_index headers head (Some 0%nat) with
      | Some (S _ as index) =>
          match section_ids !! index with
          | Some (String _ _ as section_id) =>
              status ← sheet_edit_content (JStr val) (JInt REPLACE_SECTION)
                         (JStr "markdown") (Some section_id);
              update_cells headers section_ids updates' (Some status)
          | _ => update_cells headers section_ids updates' response
          end
      | _ => update_cells headers section_ids updates' response
      end
  end.

Definition sheet_search_update_cells (sheet_name : option string)
    (search_dct updates_dct : nat) : M (option Z) :=
  search ← get_object search_dct;
  match search with
  | [] => raise (IndexError 884)
  | (header, value) :: _ =>
      t ← get_self;
      sheet_tree ← lift (_sheet_name_to_tree t sheet_name);
      headers ← lift (_get_sheet_tree_col_names sheet_tree);
      row_tree ← lift (_find_row_tree sheet_tree header value);
      let found :=
        match row_tree with
        | Some row_tree => if etree.truthy row_tree then Some row_tree else None
        | None => None
        end in
      match found with
      | Some row_tree =>
          let section_ids := _get_row_section_ids row_tree in
          updates ← get_object updates_dct;
          update_cells headers section_ids updates None
      | None =>
          updates ← get_object updates_dct;
          set_object updates_dct (dict_set header value updates);;
          status ← _sheet_add_row (RowDict updates_dct) sheet_name None None;
          mret (Some status)
      end
  end.

(** *** [sheet_update_cells] *)

(** The anchor of the cell that [sheet_update_cells] addresses. *)
Definition addressed_cell (self : Thread) (sheet_name : option string)
    (col_name : string) (row_idx : Z) : result (option string) :=
  sheets ← match content_sheet_json self with
           | Some sheets => Ok sheets
           | None => Raise (TypeError 914)
           end;
  sheet ← match sheet_name ≫= fun name => dict_get name sheets with
          | Some sheet => Ok sheet
          | None => Raise (KeyError 914)
          end;
  row ← match Py.getitem (sheet_rows sheet) (row_idx - 1) with
        | Some row => Ok row
        | None => Raise (IndexError 914)
        end;
  cell ← match dict_get (Some col_name) (row_cells row) with
         | Some cell => Ok cell
         | None => Raise (KeyError 914)
         end;
  Ok (cell_id cell).

Definition sheet_update_cells (sheet_name : option string)
    (col_name_row_idx : option string) (update_val : json) : M Z :=
  match col_name_row_idx with
  | None => raise (TypeError 911)
  | Some address =>
      match split ":" address with
      | [] => raise (IndexError 912)
      | [col_name] => raise (IndexError 913)
      | col_name :: row :: _ =>
          match int_of_str row with
          | None => raise (ValueError 913)
          | Some row_idx =>
              t ← get_self;
              section_id ← lift (addressed_cell t sheet_name col_name row_idx);
              sheet_edit_content update_val (JInt REPLACE_SECTION)
                (JStr "markdown") section_id
          end
      end
  end.

End QuipSpreadSheet.

End QuipSpreadSheet.

Import QuipDocument QuipSpreadSheet.

(** ** Concrete documents and a scripted service *)

Module Fixtures.

Definition el (tag : string) (attrs : list (string * string)) (text : option string)
    (children : list Element) : Element :=
  Node tag (list_to_map attrs) text children None.

(** A bulleted list with two items. *)
Definition two_items : Element :=
  el "html" [] None [
    el "body" [] None [
      el "ul" [("id", "L")] None [
        el "li" [("id", "a")] (Some "milk") [];
        el "li" [("id", "b")] (Some "eggs") [] ] ] ].

(** A list without items. *)
Definition no_items : Element :=
  el "html" [] None [ el "body" [] None [ el "ul" [("id", "L")] None [] ] ].

(** A sheet with a header row and one data row. *)
Definition bolt_row : Element :=
  el "tr" [("id", "r1")] None [
    el "td" [("id", "r1c0")] (Some "1") [];
    el "td" [("id", "r1c1")] (Some "Bolt") [];
    el "td" [("id", "r1c2")] (Some "1/1/2015") [] ].

Definition customers : Element :=
  el "html" [] None [
    el "table" [("id", "t1"); ("title", "Sheet1")] None [
      el "tr" [("id", "r0")] None [
        el "td" [("id", "r0c0")] (Some "#") [];
        el "td" [("id", "r0c1")] (Some "customer") [];
        el "td" [("id", "r0c2")] (Some "Billed") [] ];
      bolt_row ] ].

(** The same sheet where the customer of the data row is a picture. *)
Definition pictures : Element :=
  el "html" [] None [
    el "table" [("id", "t1"); ("title", "Sheet1")] None [
      el "tr" [("id", "r0")] None [
        el "td" [("id", "r0c0")] (Some "#") [];
        el "td" [("id", "r0c1")] (Some "customer") [] ];
      el "tr" [("id", "r1")] None [
        el "td" [("id", "r1c0")] (Some "1") [];
        el "td" [("id", "r1c1")] None [ el "img" [("src", "/blob/logo")] None [] ] ] ] ].

(** The same sheet where the customer of the data row is an empty cell. *)
Definition hollow : Element :=
  el "html" [] None [
    el "table" [("id", "t1"); ("title", "Sheet1")] None [
      el "tr" [("id", "r0")] None [
        el "td" [("id", "r0c0")] (Some "#") [];
        el "td" [("id", "r0c1")] (Some "customer") [] ];
      el "tr" [("id", "r1")] None [
        el "td" [("id", "r1c0")] (Some "1") [];
        el "td" [("id", "r1c1")] None [] ] ] ].

(** The first table of a document. *)
Definition table_of (document : Element) : Element :=
  default document (head (iter "table" document)).

(** A service that answers from a script, and a parser that knows the
    markup of the documents in [known] and rejects any other. *)
Definition scripted (known : list (string * Element)) : Externals := {|
  World := list reply;
  urlopen := fun w _ =>
    match w with
    | r :: w' => (w', r)
    | [] => ([], Unreachable)
    end;
  getenv_token := Some "token";
  parse := fun j =>
    match j with
    | JStr s =>
        match dict_get s known with
        | Some tree => Ok tree
        | None => Raise (Exception "XMLSyntaxError")
        end
    | _ => Raise (TypeError 0)
    end;
  markdownify := fun _ => Ok "";
  DataFrame := unit;
  to_html := fun _ => "";
  read_html := fun _ => Ok [];
  table_titles := fun _ => Ok [];
  repr := fun _ => "" |}.

(** A thread object whose tree is [tree]. *)
Definition holding `{Externals} (tree : attr (option Element)) : Thread := {|
  access_token := Some "token"; base_url := QUIP_BASE_URL;
  id_ := JStr "T1"; title := JStr "Customers"; type_ := JStr "spreadsheet";
  link := JNull; secret_path := JNull; author_id := JNull;
  created_usec := JInt 1; updated_usec := JInt 2; metadata := JNull;
  content_html := JStr "<html></html>"; content_tree := tree;
  folder_ids := Assigned None; content_markdown := None;
  content_sheet_json := Some []; content_sheet_dataframes := Some [];
  sheet_names := Some [] |}.

(** Markup that the parser of the scripted service accepts, and its
    tree. *)
Definition blank_page : string := "<html><p></p></html>".
Definition blank_page_tree : Element :=
  Node "html" ∅ None [Node "p" ∅ None [] None] None.

(** The replies to the requests of [__init__] for a thread whose markup
    is cut short, followed by the reply to one edit, which carries markup
    that parses. *)
Definition cut_short : list reply := [
  Replied 200 (JDict [("thread", JDict [("id", JStr "T1"); ("title", JStr "Groceries");
                                        ("created_usec", JInt 1);
                                        ("updated_usec", JInt 2)])]);
  Replied 200 (JDict [("html", JStr "<ul id='L'><li");
                      ("response_metadata", JDict [("next_cursor", JStr "")])]);
  Replied 200 (JDict [("folders", JList [JDict [("folder_id", JStr "F1")]]);
                      ("response_metadata", JDict [("next_cursor", JStr "")])]);
  Replied 200 (JDict [("html", JStr blank_page)]) ].

(** The document object that [__init__] leaves behind after the first
    three replies of [cut_short], and the object after the edit. *)
Definition unparsed `{Externals} : Thread := {|
  access_token := Some "token"; base_url := QUIP_BASE_URL;
  id_ := JStr "T1"; title := JStr "Groceries"; type_ := JNull;
  link := JNull; secret_path := JNull; author_id := JNull;
  created_usec := JInt 1; updated_usec := JInt 2;
  metadata :=
    JDict [("thread", JDict [("id", JStr "T1"); ("title", JStr "Groceries");
                             ("created_usec", JInt 1); ("updated_usec", JInt 2)])];
  content_html := JStr "<html><ul id='L'><li</html>";
  content_tree := Unassigned;
  folder_ids := Assigned (Some [JStr "F1"]); content_markdown := Some "";
  content_sheet_json := None; content_sheet_dataframes := None;
  sheet_names := None |}.

Definition repaired `{Externals} : Thread :=
  with_content_tree (Some blank_page_tree)
    (with_content_html (JStr blank_page) unparsed).

(** A page of markup as the service returns it. *)
Definition page (fragment next_cursor : string) : reply :=
  Replied 200 (JDict [("html", JStr fragment);
                      ("response_metadata", JDict [("next_cursor", JStr next_cursor)])]).

(** The state of a run against the scripted service. *)
Definition against (known : list (string * Element)) (script : list reply)
    (objects : gmap nat (list (key * string))) (self : Thread (H:=scripted known))
    : state (H:=scripted known) :=
  {| world := script : World (Externals:=scripted known);
     objects := objects; self := self |}.

(** A search for the customer Acme in the sheet of [customers], with one
    update, against a service that answers the edit with markup. *)
Definition acme_search : state (H:=scripted [(blank_page, blank_page_tree)]) :=
  against [(blank_page, blank_page_tree)]
    [Replied 200 (JDict [("html", JStr blank_page)])]
    (<[0:=[(KStr "customer", "Acme")]]> (<[1:=[(KStr "Billed", "6/24/2015")]]> ∅))
    (holding (Assigned (Some customers))).

(** A service that answers every request with a page of markup that
    names no next page. *)
Definition endless : Externals := {|
  World := unit;
  urlopen := fun w _ =>
    (w, Replied 200 (JDict [("html", JStr "<p></p>");
                            ("response_metadata", JDict [])]));
  getenv_token := None;
  parse := fun _ => Raise (Exception "XMLSyntaxError");
  markdownify := fun _ => Ok "";
  DataFrame := unit;
  to_html := fun _ => "";
  read_html := fun _ => Ok [];
  table_titles := fun _ => Ok [];
  repr := fun _ => "" |}.

(** A scripted service whose markup holds one titled table that pandas
    reads, and whose parser rejects every markup. *)
Definition tabular : Externals := {|
  World := list reply;
  urlopen := fun w _ =>
    match w with
    | r :: w' => (w', r)
    | [] => ([], Unreachable)
    end;
  getenv_token := Some "token";
  parse := fun _ => Raise (Exception "XMLSyntaxError");
  markdownify := fun _ => Ok "";
  DataFrame := unit;
  to_html := fun _ => "";
  read_html := fun _ => Ok [tt];
  table_titles := fun _ => Ok ["Sheet2"];
  repr := fun _ => "" |}.

(** The sheet that [parse_sheet_contents] derives from [customers]; its
    cells hold text and no colour. *)
Definition plain (id content : string) : Cell :=
  {| cell_id := Some id; cell_content := Some content; cell_color := None |}.

Definition customers_sheet : Sheet := {|
  sheet_id := Some "t1";
  sheet_headers := [Some "#"; Some "customer"; Some "Billed"];
  sheet_rows := [
    {| row_id := Some "r0";
       row_cells := [(Some "#", plain "r0c0" "#");
                     (Some "customer", plain "r0c1" "customer");
                     (Some "Billed", plain "r0c2" "Billed")] |};
    {| row_id := Some "r1";
       row_cells := [(Some "#", plain "r1c0" "1");
                     (Some "customer", plain "r1c1" "Bolt");
                     (Some "Billed", plain "r1c2" "1/1/2015")] |} ] |}.

(** A spreadsheet object that holds [customers] and its parsed sheet. *)
Definition loaded `{Externals} : Thread :=
  with_sheets (Some ["Sheet1"]) (Some []) (Some [("Sheet1", customers_sheet)])
    (holding (Assigned (Some customers))).

(** A document with two sheets whose columns differ. *)
Definition two_sheets : Element :=
  el "html" [] None [
    el "table" [("id", "t1"); ("title", "Orders")] None [
      el "tr" [("id", "a0")] None [
        el "td" [("id", "a0c0")] (Some "#") [];
        el "td" [("id", "a0c1")] (Some "item") [];
        el "td" [("id", "a0c2")] (Some "price") [] ] ];
    el "table" [("id", "t2"); ("title", "Stock")] None [
      el "tr" [("id", "b0")] None [
        el "td" [("id", "b0c0")] (Some "#") [];
        el "td" [("id", "b0c1")] (Some "price") [];
        el "td" [("id", "b0c2")] (Some "item") [] ] ] ].

End Fixtures.

Import Fixtures.

(** * Vocabulary of the statements *)

Section Vocabulary.
Context `{Externals}.

(** The value that [encode] gives to a kept value. *)
Definition encoded (v : json) : option string :=
  match v with
  | JInt z => Some (str_of_int z)
  | JBool true => Some "True"
  | JBool false => Some "False"
  | JStr s => Some s
  | _ => None
  end.

(** The anchor as the request carries it. *)
Definition transmitted (anchor : option string) : option string :=
  match anchor with
  | Some (String _ _ as s) => Some (replace ";" "_" s)
  | _ => None
  end.

(** A computation that leaves the thread object and the caller's
    dictionaries as they are. *)
Definition reads_only {A} (m : M A) : Prop :=
  forall s s' r, m s = Some (s', r) -> self s' = self s /\ objects s' = objects s.

(** Every run of [m] relates the state before to the state after. *)
Definition keeps {A} (R : state -> state -> Prop) (m : M A) : Prop :=
  forall s s' r, m s = Some (s', r) -> R s s'.

(** [body] is a page of markup: a fragment and the cursor of the next
    page. *)
Definition is_page (body : json) (fragment next_cursor : string) : Prop :=
  Json.get 344 body "html" = Ok (JStr fragment)
  /\ exists metadata,
       Json.getitem 345 body "response_metadata" = Ok metadata
       /\ Json.get 345 metadata "next_cursor" = Ok (JStr next_cursor).

(** From state [s] on, the service answers the requests for the markup
    of the thread, the first of them made with [cursor], with the pages
    that hold [fragments], the last page with the empty cursor, and leaves
    the state [s']. *)
Inductive serves : state -> json -> list string -> state -> Prop :=
| serves_last s s' cursor status body fragment :
    _fetch_json 2 ("threads/" +:+ format (id_ (self s)) +:+ "/html") None
      [("cursor", cursor)] s = Some (s', Ok (status, body)) ->
    is_page body fragment "" ->
    serves s cursor [fragment] s'
| serves_more s s' s'' cursor status body fragment next fragments :
    _fetch_json 2 ("threads/" +:+ format (id_ (self s)) +:+ "/html") None
      [("cursor", cursor)] s = Some (s', Ok (status, body)) ->
    is_page body fragment next ->
    next ≠ "" ->
    serves s' (JStr next) fragments s'' ->
    serves s cursor (fragment :: fragments) s''.

(** The markup of a thread made of [fragments]: absent when every
    fragment is empty. *)
Definition document (fragments : list string) : json :=
  if bool_decide (Exists (fun fragment => fragment ≠ "") fragments)
  then JStr ("<html>" +:+ String.concat "" fragments +:+ "</html>")
  else JNull.

(** The fields that identify a thread. *)
Definition identity (t : Thread) : list json :=
  [id_ t; title t; type_ t; link t; secret_path t; author_id t;
   created_usec t; updated_usec t; metadata t].

(** The tree of the thread is absent: the attribute was never assigned,
    or it holds [None]. *)
Definition degraded (t : Thread) : Prop :=
  content_tree t = Unassigned \/ content_tree t = Assigned None.

(** The tree of the thread is the same in both states. *)
Definition same_tree (s s' : state) : Prop :=
  content_tree (self s') = content_tree (self s).

(** The dictionaries of the caller are the same in both states. *)
Definition same_objects (s s' : state) : Prop := objects s' = objects s.

(** The result is an [AttributeError]. *)
Definition attribute_error {A} (r : result A) : Prop :=
  exists line, r = Raise (AttributeError line).

(** What one attempt of [_fetch_json] makes of a reply. *)
Definition outcome (r : reply) : result (Z * json) :=
  match r with
  | Replied status body => Ok (status, body)
  | Garbled => Raise (ValueError 103)
  | Failed code (Some message) => Raise (QuipError code message)
  | Failed code None => Raise (HTTPError code)
  | TimedOut => Raise TimeoutError
  | Unreachable => Raise URLError
  end.

Definition timed_out (r : reply) : bool :=
  match r with TimedOut => true | _ => false end.

(** The state [s] once the service has moved on to [w]. *)
Definition moved_to (s : state) (w : World) : state :=
  {| world := w; objects := objects s; self := self s |}.

(** A kept value that [encode] rejects: a list or a dictionary that is
    not empty. *)
Definition unencodable (kv : string * json) : Prop :=
  kept kv = true /\ encoded kv.2 = None.

(** A cursor that makes the loops ask for one more page: anything but
    the empty string; the service sends a string or nothing. *)
Definition asks_again (cursor : json) : Prop :=
  cursor = JNull \/ exists c, cursor = JStr c /\ c ≠ "".

(** From a world that satisfies [Inv] on, the service answers every
    request with a page of markup whose cursor is not the empty string. *)
Definition never_ends (Inv : World -> Prop) : Prop :=
  forall w req, Inv w ->
    exists w' status body fragment metadata cursor,
      urlopen w req = (w', Replied status body)
      /\ Inv w'
      /\ Json.get 344 body "html" = Ok (JStr fragment)
      /\ Json.getitem 345 body "response_metadata" = Ok metadata
      /\ Json.get 345 metadata "next_cursor" = Ok cursor
      /\ asks_again cursor.

(** The tree that a reload assigns for [markup]. *)
Definition tree_of (markup : json) : option Element :=
  match parse markup with Ok tree => Some tree | Raise _ => None end.

(** The document [t] once a reload has taken [markup] in. *)
Definition refreshed (markup : json) (md : string) (t : Thread) : Thread :=
  with_content_markdown md
    (with_content_tree (tree_of markup) (with_content_html markup t)).

End Vocabulary.

(** The cells of a sheet that [parse_sheet_contents] and [_find_row_tree]
    look at: the [td] children of its rows. *)
Definition td_cells (sheet_tree : Element) : list Element :=
  filter (fun cell => tag cell = "td")
    (flat_map children (iterfind_tag "tr" sheet_tree)).

Definition has_text (cell : Element) : Prop := itertext cell ≠ [].
Definition has_image (cell : Element) : Prop := iter "img" cell ≠ [].

(** The values that the first loop of [_dict_to_html] assigns to a column
    and the values that it queues. *)
Definition placed (headers : list (option string)) (updates_dct : list (key * string))
    : gmap nat string :=
  (foldl (place headers) (∅, []) updates_dct).1.

Definition queued (headers : list (option string)) (updates_dct : list (key * string))
    : list string :=
  (foldl (place headers) (∅, []) updates_dct).2.

(** The cells that stand at the positions, counted from [i], to which
    [indexed_items] assigns nothing. *)
Fixpoint unplaced (indexed_items : gmap nat string) (i : nat) (cells : list string)
    : list string :=
  match cells with
  | [] => []
  | cell :: cells' =>
      match indexed_items !! i with
      | Some _ => unplaced indexed_items (S i) cells'
      | None => cell :: unplaced indexed_items (S i) cells'
      end
  end.

(** The second loop of [_dict_to_html] from index [i] on, [n] times, as
    a recursion that builds the cells front to back. *)
Fixpoint fill_from (indexed_items : gmap nat string) (i n : nat)
    (extra_items : list string) : list string * list string :=
  match n with
  | O => ([], extra_items)
  | S n' =>
      match indexed_items !! i, extra_items with
      | Some v, _ =>
          let '(cells, rest) := fill_from indexed_items (S i) n' extra_items in
          (v :: cells, rest)
      | None, e :: extra_items' =>
          let '(cells, rest) := fill_from indexed_items (S i) n' extra_items' in
          (e :: cells, rest)
      | None, [] =>
          let '(cells, rest) := fill_from indexed_items (S i) n' [] in
          ("" :: cells, rest)
      end
  end.

(** The cell of [row] in column [index] is a [td] whose first text is
    [value], whatever the case. *)
Definition matches (index : nat) (value : string) (row : Element) : Prop :=
  exists cell first texts,
    children row !! index = Some cell
    /\ tag cell = "td"
    /\ itertext cell = first :: texts
    /\ lower first = lower value.

(** An update that [sheet_search_update_cells] passes over: its header
    resolves to the first column, or to a column that the row does not
    have, or to a cell without anchor. *)
Definition skipped (headers : list (option string)) (section_ids : list string)
    (head : key) : Prop :=
  forall index, _get_col_name_index headers head (Some 0) = Some index ->
    index = 0 \/ default "" (section_ids !! index) = "".

(** * Properties *)

(** ** Column-name resolution *)

Section ColumnNames.

Implicit Types (header_items : list (option string)) (default : option nat).

Lemma col_exact header_items (header : string) default :
  str_truthy header = true ->
  Some header ∈ header_items ->
  _get_col_name_index header_items (KStr header) default
  = index (Some header) header_items.
Proof.
  intros Ht Hin. unfold _get_col_name_index. cbn [key_truthy str].
  rewrite Ht. by rewrite bool_decide_eq_true_2.
Qed.

Lemma col_caseless header_items (header : string) default :
  str_truthy header = true ->
  Some header ∉ header_items ->
  lower header ∈ lower_headers header_items ->
  _get_col_name_index header_items (KStr header) default
  = index (lower header) (lower_headers header_items).
Proof.
  intros Ht Hex Hin. unfold _get_col_name_index. cbn [key_truthy str].
  rewrite Ht. rewrite bool_decide_eq_false_2 by done.
  by rewrite bool_decide_eq_true_2.
Qed.

Lemma col_numeric header_items (header : string) default :
  Some header ∉ header_items ->
  lower header ∉ lower_headers header_items ->
  isdigit header = true ->
  _get_col_name_index header_items (KStr header) default = Some (int header).
Proof.
  intros Hex Hlow Hd. unfold _get_col_name_index. cbn [key_truthy str].
  assert (str_truthy header = true) as ->.
  { unfold isdigit in Hd. by apply andb_true_iff in Hd as [? _]. }
  rewrite !bool_decide_eq_false_2 by done. by rewrite Hd.
Qed.

(** A single letter other than the first and the last of the alphabet. *)
Lemma col_letter header_items (c : ascii) default :
  Some (String c "") ∉ header_items ->
  lower (String c "") ∉ lower_headers header_items ->
  (ord "A" < ord (char_upper c) < ord "Z")%nat ->
  _get_col_name_index header_items (KStr (String c "")) default
  = Some (ord (char_upper c) - ord "A" + 1)%nat.
Proof.
  intros Hex Hlow [Hlo Hhi]. unfold _get_col_name_index. cbn [key_truthy str str_truthy].
  rewrite !bool_decide_eq_false_2 by done.
  assert (char_isdigit c = false) as Hd.
  { destruct (char_isdigit c) eqn:Hd; [|done]. exfalso.
    unfold char_isdigit in Hd. apply andb_true_iff in Hd as [H0 H9].
    apply Nat.leb_le in H0, H9.
    unfold char_upper, char_islower in Hlo.
    change (ord "0") with 48%nat in *. change (ord "9") with 57%nat in *.
    change (ord "a") with 97%nat in *. change (ord "A") with 65%nat in *.
    destruct (97 <=? ord c)%nat eqn:Ha; cbn in Hlo; [|lia].
    apply Nat.leb_le in Ha. lia. }
  unfold isdigit. cbn [str_truthy str_all]. rewrite Hd. cbn [andb].
  cbn [upper str_map].
  apply Nat.ltb_lt in Hlo, Hhi. by rewrite Hlo, Hhi.
Qed.

(** C1 (the code departs from the claim): when no header matches it as
    text, the key "A" resolves to the caller's default, not to index 1:
    the guard [ord('A') < char < ord('Z')] leaves out the first letter of
    the alphabet (and the last). *)
Theorem col_letter_A_is_default header_items default :
  Some "A" ∉ header_items ->
  "a" ∉ lower_headers header_items ->
  _get_col_name_index header_items (KStr "A") default = default.
Proof.
  intros Hex Hlow. unfold _get_col_name_index. cbn [key_truthy str str_truthy].
  rewrite bool_decide_eq_false_2 by done.
  change (lower "A") with "a".
  by rewrite bool_decide_eq_false_2.
Qed.

Lemma col_letter_A_is_default_witness :
  _get_col_name_index [Some "Date"; Some "Amount"] (KStr "A") (Some 0%nat) = Some 0%nat
  /\ _get_col_name_index [Some "Date"; Some "Amount"] (KStr "B") (Some 0%nat) = Some 2%nat.
Proof.
  split; [|reflexivity].
  apply (col_letter_A_is_default [Some "Date"; Some "Amount"] (Some 0%nat));
    compute_done.
Defined.

End ColumnNames.

(** ** List items *)

Section ListItems.
Context `{Externals}.

Lemma getitem_out_of_range {A} (l : list A) (i : Z) :
  (i < - Z.of_nat (length l) \/ Z.of_nat (length l) <= i)%Z ->
  Py.getitem l i = None.
Proof.
  intros Hi. unfold Py.getitem.
  destruct (0 <=? i)%Z eqn:E0.
  - apply Z.leb_le in E0. apply lookup_ge_None. lia.
  - apply Z.leb_gt in E0.
    destruct (- Z.of_nat (length l) <=? i)%Z eqn:E1; [|done].
    apply Z.leb_le in E1. lia.
Qed.

Lemma getitem_in_range {A} (l : list A) (i : Z) :
  (- Z.of_nat (length l) <= i < Z.of_nat (length l))%Z ->
  is_Some (Py.getitem l i).
Proof.
  intros Hi. unfold Py.getitem.
  destruct (0 <=? i)%Z eqn:E0.
  - apply Z.leb_le in E0. apply lookup_lt_is_Some. lia.
  - apply Z.leb_gt in E0.
    destruct (- Z.of_nat (length l) <=? i)%Z eqn:E1.
    + apply lookup_lt_is_Some. lia.
    + apply Z.leb_gt in E1. lia.
Qed.

(** Without items every position resolves to no anchor. *)
Lemma item_id_empty line idx : item_id line [] idx = Ok None.
Proof. reflexivity. Qed.

(** The first and the last position never leave a list that has items. *)
Lemma item_id_first line (items : list Element) :
  item_id line items 0
  = match items with
    | [] => Ok None
    | item :: _ =>
        match attrib item !! "id" with
        | Some i => Ok (Some i)
        | None => Raise (KeyError line)
        end
    end.
Proof. by destruct items. Qed.

Lemma item_id_last line (items : list Element) :
  item_id line items (-1)
  = match last items with
    | None => Ok None
    | Some item =>
        match attrib item !! "id" with
        | Some i => Ok (Some i)
        | None => Raise (KeyError line)
        end
    end.
Proof.
  destruct items as [|i items]; [done|].
  unfold item_id, Py.getitem.
  replace (0 <=? -1)%Z with false by done.
  replace (- Z.of_nat (length (i :: items)) <=? -1)%Z with true
    by (symmetry; apply Z.leb_le; cbn [length]; lia).
  replace (Z.to_nat (Z.of_nat (length (i :: items)) + -1))
    with (length items) by (cbn [length]; lia).
  rewrite last_lookup. cbn [length Nat.pred].
  destruct (lookup_lt_is_Some_2 (i :: items) (length items)) as [x ->]; [|done].
  cbn [length]. lia.
Qed.

(** C2 (the code departs from the claim): on a list that has items, a
    position outside the list makes [_get_nth_list_item_section_id] raise
    [IndexError]; it does not return the null anchor. *)
Theorem nth_list_item_out_of_range (self : Thread) (list_section_id : string)
    (items : list Element) (idx : Z) :
  _get_list_item_section_ids self list_section_id = Ok items ->
  items ≠ [] ->
  (idx < - Z.of_nat (length items) \/ Z.of_nat (length items) <= idx)%Z ->
  _get_nth_list_item_section_id self list_section_id idx = Raise (IndexError 567).
Proof.
  intros Hitems Hne Hidx. unfold _get_nth_list_item_section_id.
  rewrite Hitems. cbn. unfold item_id.
  destruct items as [|i items]; [done|].
  by rewrite getitem_out_of_range.
Qed.

End ListItems.

Lemma nth_list_item_out_of_range_witness :
  _get_nth_list_item_section_id (H:=scripted [])
    (holding (Assigned (Some two_items))) "L" 5 = Raise (IndexError 567).
Proof.
  apply (nth_list_item_out_of_range (H:=scripted []) _ "L"
           (iter "li" (el "ul" [("id", "L")] None [
              el "li" [("id", "a")] (Some "milk") [];
              el "li" [("id", "b")] (Some "eggs") [] ])) 5).
  - vm_compute. reflexivity.
  - discriminate.
  - vm_compute. right. discriminate.
Defined.

(** ** What an edit transmits *)

Section Transmission.
Context `{Externals}.

Lemma mapM_encode_cons kv l :
  mapM encode (kv :: l)
  = match encode kv with
    | Ok y => match mapM encode l with Ok k => Ok (y :: k) | Raise e => Raise e end
    | Raise e => Raise e
    end.
Proof. cbn. by destruct (encode kv). Qed.

Lemma dict_get_clean (k : string) (l : list (string * json)) l' :
  _clean l = Ok l' ->
  k ∉ (List.filter kept l).*1 -> dict_get k l' = None.
Proof.
  unfold _clean. generalize (List.filter kept l). clear l.
  intros l. revert l'. induction l as [|[k0 v0] l IH]; intros l' Hm Hk.
  - by injection Hm as <-.
  - rewrite mapM_encode_cons in Hm.
    destruct (encode (k0, v0)) as [[k1 s1]|] eqn:He; [|done].
    destruct (mapM encode l) as [l1|] eqn:Hl; [|done].
    injection Hm as <-.
    assert (k1 = k0) as ->.
    { unfold encode in He. cbn in He.
      destruct v0 as [|[]| | | |]; congruence. }
    cbn in Hk. apply not_elem_of_cons in Hk as [Hne Hk].
    cbn. rewrite decide_False by done. by apply IH.
Qed.

Lemma dict_get_clean_last (k : string) (v : json) (l : list (string * json)) l' :
  _clean (l ++ [(k, v)]) = Ok l' ->
  k ∉ l.*1 ->
  dict_get k l' = (if kept (k, v) then encoded v else None).
Proof.
  unfold _clean. revert l'. induction l as [|[k0 v0] l IH]; intros l' Hm Hk.
  - cbn [app List.filter] in Hm. destruct (kept (k, v)) eqn:Hkept.
    + rewrite mapM_encode_cons in Hm.
      destruct (encode (k, v)) as [[k1 s1]|] eqn:He; [|done].
      cbn in Hm. injection Hm as <-.
      unfold encode in He. cbn in He.
      destruct v as [|[]| | | |]; try done; injection He as <- <-;
        cbn; by rewrite decide_True.
    + by injection Hm as <-.
  - cbn in Hk. apply not_elem_of_cons in Hk as [Hne Hk].
    cbn [app List.filter] in Hm. destruct (kept (k0, v0)).
    + rewrite mapM_encode_cons in Hm.
      destruct (encode (k0, v0)) as [[k1 s1]|] eqn:He; [|done].
      destruct (mapM encode _) as [l1|] eqn:Hl; [|done].
      injection Hm as <-.
      assert (k1 = k0) as ->.
      { unfold encode in He. cbn in He.
        destruct v0 as [|[]| | | |]; congruence. }
      cbn. rewrite decide_False by done. by apply IH.
    + by apply IH.
Qed.

Lemma filter_kept_idemp (l : list (string * json)) :
  List.filter kept (List.filter kept l) = List.filter kept l.
Proof.
  induction l as [|kv l IH]; [done|]. cbn.
  destruct (kept kv) eqn:E; [|done]. cbn. by rewrite E, IH.
Qed.

(** The form fields of a request whose dictionary ends with key [k]. *)
Lemma request_last_field (t : Thread) api path (l : list (string * json))
    (k : string) (v : json) args req :
  request t api path (Some (l ++ [(k, v)])) args = Ok req ->
  k ∉ l.*1 ->
  dict_get k (default [] (data req)) = (if kept (k, v) then encoded v else None).
Proof.
  intros Hreq Hk. unfold request in Hreq.
  destruct (_clean args) as [q|]; [|done]. cbn in Hreq.
  destruct (l ++ [(k, v)]) as [|kv pd] eqn:Hpd.
  { by destruct l. }
  rewrite <- Hpd in Hreq. clear Hpd.
  unfold _clean in Hreq at 1. rewrite filter_kept_idemp in Hreq.
  destruct (mapM encode (List.filter kept (l ++ [(k, v)]))) as [l'|] eqn:Hl; [|done].
  cbn in Hreq. injection Hreq as <-. cbn.
  by apply (dict_get_clean_last k v l).
Qed.

Lemma replace_length old new s :
  String.length (replace old new s) = String.length s.
Proof. induction s; cbn; [done|]. by f_equal. Qed.

Lemma replace_get old new s i :
  String.get i (replace old new s)
  = (fun c => if Ascii.eqb c old then new else c) <$> String.get i s.
Proof.
  revert i. induction s as [|c s IH]; intros i; [done|].
  destruct i; cbn; [done|]. apply IH.
Qed.

Lemma replace_absent old new s :
  contains_char old s = false -> replace old new s = s.
Proof.
  induction s as [|c s IH]; cbn; [done|].
  intros Hc. apply orb_false_iff in Hc as [Hc Hs].
  rewrite Hc. f_equal. by apply IH.
Qed.

Lemma replace_removes old new s :
  new ≠ old -> contains_char old (replace old new s) = false.
Proof.
  intros Hne. induction s as [|c s IH]; cbn; [done|].
  rewrite IH. destruct (Ascii.eqb c old) eqn:E; rewrite orb_false_r.
  - by apply Ascii.eqb_neq.
  - done.
Qed.

(** What [edit_thread] hands over to the transport. *)
Lemma edit_thread_sends content location format section_id (s : state) :
  edit_thread content location format section_id s
  = _fetch_json 1 "threads/edit-document"
      (Some (edit_thread_args (self s) content location format section_id)) [] s.
Proof. reflexivity. Qed.

Lemma edit_range_sends content location format document_range (s : state) :
  edit_range content location format document_range s
  = _fetch_json 1 "threads/edit-document"
      (Some (edit_range_args (self s) content location format document_range)) [] s.
Proof. reflexivity. Qed.


End Transmission.


(** ** Running computations *)

Section Running.
Context `{Externals}.

Lemma bind_run {A B} (m : M A) (f : A -> M B) (s : state) :
  (m ≫= f) s
  = match m s with
    | Some (s', Ok a) => f a s'
    | Some (s', Raise e) => Some (s', Raise e)
    | None => None
    end.
Proof. reflexivity. Qed.

Lemma bind_ok {A B} (m : M A) (f : A -> M B) (s s' : state) a :
  m s = Some (s', Ok a) -> (m ≫= f) s = f a s'.
Proof. intros Hm. by rewrite bind_run, Hm. Qed.

Lemma bind_raise {A B} (m : M A) (f : A -> M B) (s s' : state) e :
  m s = Some (s', Raise e) -> (m ≫= f) s = Some (s', Raise e).
Proof. intros Hm. by rewrite bind_run, Hm. Qed.

Lemma fetch_once_reads_only api path post_data args :
  reads_only (_fetch_json_once api path post_data args).
Proof.
  intros s s' r. unfold _fetch_json_once.
  destruct (request _ _ _ _ _); [|by intros [= <- <-]].
  destruct (urlopen _ _). by intros [= <- <-].
Qed.

Lemma retry_reads_only {A} more (f : M A) :
  reads_only f -> reads_only (retry more f).
Proof.
  intros Hf. induction more as [|more IH]; intros s s' r; cbn.
  - destruct (f s) as [[s1 [a|e]]|] eqn:Hfs; [| |done].
    + intros [= <- <-]. by apply Hf in Hfs.
    + destruct e; intros [= <- <-]; by apply Hf in Hfs.
  - destruct (f s) as [[s1 [a|e]]|] eqn:Hfs; [| |done].
    + intros [= <- <-]. by apply Hf in Hfs.
    + apply Hf in Hfs as [Hs Ho].
      destruct e; try (intros [= <- <-]; done).
      intros Hr. apply IH in Hr as [? ?]. split; congruence.
Qed.

Lemma fetch_reads_only api path post_data args :
  reads_only (_fetch_json api path post_data args).
Proof. apply retry_reads_only, fetch_once_reads_only. Qed.

Lemma edit_thread_reads_only content location format section_id :
  reads_only (edit_thread content location format section_id).
Proof.
  intros s s' r. rewrite edit_thread_sends. apply fetch_reads_only.
Qed.

Section Keeps.
Context {R : state -> state -> Prop} `{!Reflexive R, !Transitive R}.

Lemma keeps_bind {A B} (m : M A) (f : A -> M B) :
  keeps R m -> (forall a, keeps R (f a)) -> keeps R (m ≫= f).
Proof.
  intros Hm Hf s s' r. rewrite bind_run.
  destruct (m s) as [[s1 [a|e]]|] eqn:Hms; [| |done].
  - intros Hfa. etrans; [by eapply Hm|by eapply Hf].
  - intros [= <- <-]. by eapply Hm.
Qed.

Lemma keeps_ret {A} (a : A) : keeps R (mret a).
Proof. by intros s s' r [= <- <-]. Qed.

Lemma keeps_lift {A} (r : result A) : keeps R (lift r).
Proof. by intros s s' r' [= <- <-]. Qed.

Lemma keeps_raise {A} e : keeps R (raise (A:=A) e).
Proof. apply keeps_lift. Qed.

Lemma keeps_overrun {A} : keeps R (overrun (A:=A)).
Proof. by intros s s' r. Qed.

Lemma keeps_get_self : keeps R get_self.
Proof. by intros s s' r [= <- <-]. Qed.

Lemma keeps_get_object l : keeps R (get_object l).
Proof. by intros s s' r [= <- <-]. Qed.

Lemma keeps_reads_only {A} (m : M A) :
  (forall s s', self s' = self s -> objects s' = objects s -> R s s') ->
  reads_only m -> keeps R m.
Proof. intros HR Hm s s' r Hms. apply Hm in Hms as [? ?]. by apply HR. Qed.

End Keeps.

End Running.

(** Goals [keeps R m] by the structure of [m]. *)
Ltac keeps_step :=
  match goal with
  | |- keeps _ (mbind _ _) => apply keeps_bind; [|intros ?]
  | |- keeps _ (mret _) => apply keeps_ret
  | |- keeps _ (lift _) => apply keeps_lift
  | |- keeps _ (raise _) => apply keeps_raise
  | |- keeps _ overrun => apply keeps_overrun
  | |- keeps _ get_self => apply keeps_get_self
  | |- keeps _ (get_object _) => apply keeps_get_object
  | |- keeps _ (set_self _) => by intros ? ? ? [= <- <-]
  | |- keeps _ (match ?x with _ => _ end) => destruct x
  | |- keeps _ (if ?x then _ else _) => destruct x
  | |- keeps _ (let '(_, _) := ?x in _) => destruct x
  end.

(** ** Fetching the markup *)

Section Markup.
Context `{Externals}.

Lemma append_nil_l (a : string) : "" +:+ a = a.
Proof. reflexivity. Qed.

Lemma append_cons (x : ascii) (a b : string) : String x a +:+ b = String x (a +:+ b).
Proof. reflexivity. Qed.

Lemma append_assoc (a b c : string) : (a +:+ b) +:+ c = a +:+ (b +:+ c).
Proof. induction a as [|x a IH]; [done|]. by rewrite !append_cons, IH. Qed.

Lemma append_nil_r (a : string) : a +:+ "" = a.
Proof. induction a as [|x a IH]; [done|]. by rewrite append_cons, IH. Qed.

Lemma append_length (a b : string) :
  String.length (a +:+ b) = (String.length a + String.length b)%nat.
Proof. induction a as [|x a IH]; [done|]. rewrite append_cons. cbn. by rewrite IH. Qed.

Lemma concat_empty (fragments : list string) :
  String.length (String.concat "" fragments) = 0%nat
  <-> Forall (fun fragment => fragment = "") fragments.
Proof.
  induction fragments as [|f fs IH]; [by split|].
  assert (String.concat "" (f :: fs) = f +:+ String.concat "" fs) as ->.
  { destruct fs; [by rewrite append_nil_r|done]. }
  rewrite append_length, Forall_cons, <- IH.
  destruct f; cbn; [tauto|]. split; [done|]. by intros [? _].
Qed.

(** The result of the loop once the cursor is empty. *)
Lemma finish_document (fragments : list string) :
  (if (0 <? String.length (String.concat "" fragments))%nat
   then JStr ("<html>" +:+ String.concat "" fragments +:+ "</html>") else JNull)
  = document fragments.
Proof.
  unfold document.
  destruct (0 <? _)%nat eqn:E.
  - apply Nat.ltb_lt in E. rewrite bool_decide_eq_true_2; [done|].
    destruct (decide (Exists (fun f : string => f ≠ "") fragments)) as [|Hno]; [done|].
    apply not_Exists_Forall in Hno; [|apply _].
    apply Forall_impl with (Q := fun f => f = "") in Hno;
      [|intros f Hf; by apply dec_stable].
    apply concat_empty in Hno. lia.
  - apply Nat.ltb_ge in E. rewrite bool_decide_eq_false_2; [done|].
    intros HE. apply Exists_exists in HE as (f & Hf & Hne).
    assert (String.length (String.concat "" fragments) = 0%nat) as H0 by lia.
    apply concat_empty in H0. rewrite Forall_forall in H0. by apply Hne, H0.
Qed.

Lemma thread_html_loop (s s' : state) cursor fragments :
  serves s cursor fragments s' ->
  forall n html_content,
    is_empty_str cursor = false ->
    length fragments <= n ->
    _get_thread_html_loop n html_content cursor s
    = Some (s', Ok (if (0 <? String.length
                                (html_content +:+ String.concat "" fragments))%nat
                    then JStr ("<html>" +:+ (html_content +:+ String.concat "" fragments)
                               +:+ "</html>")
                    else JNull)).
Proof.
  induction 1 as [s s' cursor status body fragment Hfetch (Hhtml & md & Hmd & Hnext)
                 |s s' s'' cursor status body fragment next fragments Hfetch
                    (Hhtml & md & Hmd & Hnext) Hne Hrest IH];
    intros n html_content Hcursor Hn.
  - destruct n as [|n]; [cbn in Hn; lia|].
    cbn [_get_thread_html_loop]. rewrite Hcursor.
    rewrite bind_run. cbn [get_self].
    rewrite bind_run, Hfetch.
    rewrite bind_run. cbn [lift]. rewrite Hhtml.
    rewrite bind_run. cbn [lift Json.concat].
    rewrite bind_run. cbn [lift]. rewrite Hmd.
    rewrite bind_run. cbn [lift]. rewrite Hnext.
    by destruct n.
  - destruct n as [|n]; [cbn in Hn; lia|].
    cbn [_get_thread_html_loop]. rewrite Hcursor.
    rewrite bind_run. cbn [get_self].
    rewrite bind_run, Hfetch.
    rewrite bind_run. cbn [lift]. rewrite Hhtml.
    rewrite bind_run. cbn [lift Json.concat].
    rewrite bind_run. cbn [lift]. rewrite Hmd.
    rewrite bind_run. cbn [lift]. rewrite Hnext.
    rewrite IH.
    + assert (String.concat "" (fragment :: fragments)
              = fragment +:+ String.concat "" fragments) as ->.
      { inversion Hrest; done. }
      by rewrite !append_assoc.
    + by destruct next.
    + cbn in Hn. lia.
Qed.

(** C7: when the service answers the requests for the markup with pages
    whose last cursor, and no earlier one, is the empty string, and the
    loop bound admits that many requests, [_get_thread_html] makes one
    request per page, each with the cursor of the page before, and returns
    the fragments concatenated in the order received inside an [html]
    element, or [None] when every fragment is empty. *)
Theorem thread_html_concatenates (fuel : nat) (s s' : state) (fragments : list string) :
  serves s JNull fragments s' ->
  length fragments <= fuel ->
  _get_thread_html fuel s = Some (s', Ok (document fragments)).
Proof.
  intros Hserves Hfuel. unfold _get_thread_html.
  rewrite (thread_html_loop s s' JNull fragments Hserves) by done.
  rewrite append_nil_l. by rewrite finish_document.
Qed.

End Markup.

Lemma thread_html_concatenates_witness :
  _get_thread_html 2
    (against [] [page "<p>a</p>" "c1"; page "<p>b</p>" ""] ∅ (holding Unassigned))
  = Some (against [] [] ∅ (holding Unassigned),
          Ok (JStr "<html><p>a</p><p>b</p></html>")).
Proof.
  apply (thread_html_concatenates (H:=scripted []) 2 _ _ ["<p>a</p>"; "<p>b</p>"]);
    [|cbn; lia].
  eapply (serves_more (H:=scripted []) _
            (against [] [page "<p>b</p>" ""] ∅ (holding Unassigned)) _ _ 200 _
            "<p>a</p>" "c1").
  - reflexivity.
  - split; [reflexivity|]. eexists. split; reflexivity.
  - discriminate.
  - eapply (serves_last (H:=scripted [])).
    + reflexivity.
    + split; [reflexivity|]. eexists. split; reflexivity.
Defined.

(** ** Edits that fail *)

Section FailedEdits.
Context `{Externals}.

Lemma thread_html_loop_reads_only n html_content next_cursor :
  reads_only (_get_thread_html_loop n html_content next_cursor).
Proof.
  revert html_content next_cursor.
  induction n as [|n IH]; intros html_content next_cursor s s' r;
    cbn [_get_thread_html_loop].
  - destruct (is_empty_str next_cursor); [by intros [= <- <-]|done].
  - destruct (is_empty_str next_cursor); [by intros [= <- <-]|].
    rewrite bind_run. cbn [get_self]. rewrite bind_run.
    destruct (_fetch_json _ _ _ _ s) as [[s1 [[status body]|e]]|] eqn:Hf; [| |done].
    2:{ intros [= <- <-]. by apply fetch_reads_only in Hf. }
    apply fetch_reads_only in Hf as [Hs Ho].
    rewrite bind_run. cbn [lift].
    destruct (Json.get 344 body "html") as [fragment|]; [|by intros [= <- <-]].
    rewrite bind_run. cbn [lift].
    destruct (Json.concat 344 html_content fragment) as [html|]; [|by intros [= <- <-]].
    rewrite bind_run. cbn [lift].
    destruct (Json.getitem 345 body "response_metadata") as [md|]; [|by intros [= <- <-]].
    rewrite bind_run. cbn [lift].
    destruct (Json.get 345 md "next_cursor") as [next|]; [|by intros [= <- <-]].
    intros Hr. apply IH in Hr as [? ?]. split; congruence.
Qed.

(** A reply that reports an error, and a host that cannot be reached,
    make the request raise at once. *)
Lemma failed_reply_raises api path post_data args (s : state) req w reply :
  request (self s) api path post_data args = Ok req ->
  urlopen (world s) req = (w, reply) ->
  match reply with Failed _ _ | Unreachable => True | _ => False end ->
  exists e,
    _fetch_json api path post_data args s
    = Some ({| world := w; objects := objects s; self := self s |}, Raise e)
    /\ e = match reply with
           | Failed code (Some message) => QuipError code message
           | Failed code None => HTTPError code
           | _ => URLError
           end.
Proof.
  intros Hreq Hopen Hreply. unfold _fetch_json. cbn [retry].
  unfold _fetch_json_once at 1. rewrite Hreq, Hopen.
  destruct reply as [| | code [message|] | |]; try done; by eexists.
Qed.

(** A request that times out is made three times. *)
Lemma timed_out_thrice api path post_data args (s : state) req w1 w2 w3 :
  request (self s) api path post_data args = Ok req ->
  urlopen (world s) req = (w1, TimedOut) ->
  urlopen w1 req = (w2, TimedOut) ->
  urlopen w2 req = (w3, TimedOut) ->
  _fetch_json api path post_data args s
  = Some ({| world := w3; objects := objects s; self := self s |}, Raise TimeoutError).
Proof.
  intros Hreq H1 H2 H3. unfold _fetch_json. cbn [retry].
  unfold _fetch_json_once at 1. rewrite Hreq, H1.
  unfold _fetch_json_once at 1. cbn [self world]. rewrite Hreq, H2.
  unfold _fetch_json_once at 1. cbn [self world]. rewrite Hreq, H3.
  reflexivity.
Qed.

(** C5: when the request of an edit fails, [doc_edit_content] and
    [sheet_edit_content] raise what the request raised and the thread
    object (the markup, the tree, the sheets derived from it) is what it
    was before the call, and so are the dictionaries of the caller. *)
Theorem failed_edit_changes_nothing (fuel : nat) (content location format : json)
    (section_id : option string) (s s' : state) (e : exn) :
  edit_thread content location format section_id s = Some (s', Raise e) ->
  doc_edit_content fuel content location format section_id s = Some (s', Raise e)
  /\ sheet_edit_content fuel content location format section_id s = Some (s', Raise e)
  /\ self s' = self s
  /\ objects s' = objects s.
Proof.
  intros Hedit. split; [|split].
  - unfold doc_edit_content. by rewrite (bind_raise _ _ _ _ _ Hedit).
  - unfold sheet_edit_content. by rewrite (bind_raise _ _ _ _ _ Hedit).
  - by apply edit_thread_reads_only in Hedit.
Qed.

(** The same holds when the edit went through, its reply carries no
    markup, and a request of the reload fails. *)
Lemma failed_reload_changes_nothing (fuel : nat) (content location format : json)
    (section_id : option string) (s s1 s2 : state) status d (e : exn) :
  edit_thread content location format section_id s = Some (s1, Ok (status, JDict d)) ->
  Json.truthy (default JNull (dict_get "html" d)) = false ->
  _get_thread_html fuel s1 = Some (s2, Raise e) ->
  doc_edit_content fuel content location format section_id s = Some (s2, Raise e)
  /\ sheet_edit_content fuel content location format section_id s = Some (s2, Raise e)
  /\ self s2 = self s.
Proof.
  intros Hedit Hhtml Hfetch.
  pose proof (edit_thread_reads_only _ _ _ _ _ _ _ Hedit) as [Hs1 _].
  pose proof (thread_html_loop_reads_only _ _ _ _ _ _ Hfetch) as [Hs2 _].
  split; [|split; [|congruence]].
  - unfold doc_edit_content. rewrite (bind_ok _ _ _ _ _ Hedit).
    cbn [isinstance_dict]. rewrite bind_run, bind_run. cbn [lift Json.get].
    unfold QuipDocument.reload_content. rewrite Hhtml.
    rewrite bind_run, bind_run, Hfetch. done.
  - unfold sheet_edit_content. rewrite (bind_ok _ _ _ _ _ Hedit).
    cbn [isinstance_dict]. rewrite bind_run, bind_run. cbn [lift Json.get].
    unfold QuipSpreadSheet.reload_content. rewrite Hhtml.
    rewrite bind_run, bind_run, Hfetch. done.
Qed.

End FailedEdits.

Lemma failed_edit_changes_nothing_witness :
  doc_edit_content 1 (JStr "x") (JInt REPLACE_SECTION) (JStr "markdown") (Some "a")
    (against [] [Failed 400 (Some "Bad request")] ∅ (holding (Assigned (Some two_items))))
  = Some (against [] [] ∅ (holding (Assigned (Some two_items))),
          Raise (QuipError 400 "Bad request")).
Proof.
  apply (failed_edit_changes_nothing (H:=scripted []) 1 (JStr "x")
           (JInt REPLACE_SECTION) (JStr "markdown") (Some "a")).
  reflexivity.
Defined.

(** ** A thread whose markup does not parse *)

Section Degraded.
Context `{Externals}.

Lemma folder_ids_loop_frame n folder_ids next_cursor (s s' : state) r :
  _get_folder_ids_loop n folder_ids next_cursor s = Some (s', r) ->
  identity (self s') = identity (self s)
  /\ content_html (self s') = content_html (self s)
  /\ content_tree (self s') = content_tree (self s).
Proof.
  revert folder_ids next_cursor s.
  induction n as [|n IH]; intros folder_ids next_cursor s;
    cbn [_get_folder_ids_loop].
  - destruct (is_empty_str next_cursor); [by intros [= <- <-]|done].
  - destruct (is_empty_str next_cursor); [by intros [= <- <-]|].
    rewrite bind_run. cbn [get_self]. rewrite bind_run.
    destruct (_fetch_json _ _ _ _ s) as [[s1 [[status body]|e]]|] eqn:Hf; [| |done].
    2:{ intros [= <- <-]. apply fetch_reads_only in Hf as [-> _]. done. }
    apply fetch_reads_only in Hf as [Hs Ho].
    rewrite bind_run. cbn [lift].
    destruct (Json.get 356 body "folders") as [folders|];
      [|intros [= <- <-]; by rewrite Hs].
    rewrite bind_run. cbn [lift].
    destruct (folder_id_list folders) as [more|];
      [|intros [= <- <-]; by rewrite Hs].
    rewrite bind_run. cbn [lift].
    destruct (Json.getitem 358 body "response_metadata") as [md|];
      [|intros [= <- <-]; by rewrite Hs].
    rewrite bind_run. cbn [lift].
    destruct (Json.get 358 md "next_cursor") as [next|];
      [|intros [= <- <-]; by rewrite Hs].
    intros Hr. apply IH in Hr. by rewrite Hs in Hr.
Qed.

#[local] Instance same_tree_refl : Reflexive same_tree.
Proof. by intros s. Qed.
#[local] Instance same_tree_trans : Transitive same_tree.
Proof. unfold same_tree. intros s1 s2 s3 H12 H23. congruence. Qed.

Lemma fetch_same_tree api path post_data args :
  keeps same_tree (_fetch_json api path post_data args).
Proof.
  apply keeps_reads_only; [|apply fetch_reads_only].
  unfold same_tree. by intros s s' ->.
Qed.

Lemma load_tree client access_token base_url thread_id format title content
    member_ids doc_type :
  keeps same_tree
    (load client access_token base_url thread_id format title content member_ids
       doc_type).
Proof.
  unfold load.
  repeat first
    [ apply fetch_same_tree
    | by intros ? ? ? [= <- <-]
    | keeps_step ].
Qed.

(** What the methods that walk the tree return on such a thread. *)
Lemma the_tree_degraded (t : Thread) line :
  degraded t -> the_tree t line = Raise (AttributeError line).
Proof. unfold the_tree. by intros [-> | ->]. Qed.


End Degraded.



(** ** Rows built from a dictionary *)

Section DictRows.

Implicit Types (headers : list (option string)) (m : gmap nat string).
Implicit Types (updates : list (key * string)) (extras cells : list string).

(** *** The first loop *)

Lemma place_grows headers m extras item :
  m ⊆ (place headers (m, extras) item).1.
Proof.
  unfold place. destruct (_get_col_name_index _ _ _) as [i|]; [|done].
  case_bool_decide as Hi; [done|]. cbn.
  apply insert_subseteq. destruct (m !! i) eqn:E; [|done].
  exfalso. apply Hi. by eexists.
Qed.

Lemma foldl_place_grows headers updates m extras :
  m ⊆ (foldl (place headers) (m, extras) updates).1.
Proof.
  revert m extras. induction updates as [|item updates IH]; intros m extras; [done|].
  cbn [foldl]. destruct (place headers (m, extras) item) as [m' extras'] eqn:E.
  etrans; [|apply IH].
  change m' with (m', extras').1. rewrite <- E. apply place_grows.
Qed.

Lemma foldl_place_perm headers updates m extras :
  let r := foldl (place headers) (m, extras) updates in
  (map_to_list r.1).*2 ++ r.2 ≡ₚ (map_to_list m).*2 ++ extras ++ values updates.
Proof.
  revert m extras. induction updates as [|[h v] updates IH]; intros m extras; cbn zeta.
  - cbn. by rewrite app_nil_r.
  - cbn [foldl]. unfold values in *. cbn [fmap list_fmap snd].
    destruct (place headers (m, extras) (h, v)) as [m' extras'] eqn:E.
    cbn zeta in IH. rewrite IH. unfold place in E. cbn [fst snd] in E.
    destruct (_get_col_name_index headers h None) as [i|].
    + case_bool_decide as Hi.
      * injection E as <- <-. rewrite <- !(assoc_L (++)). cbn. done.
      * injection E as <- <-.
        assert (m !! i = None) as Hnone.
        { destruct (m !! i) eqn:E; [|done]. exfalso. apply Hi. by eexists. }
        rewrite (map_to_list_insert m i v Hnone). cbn.
        rewrite <- !Permutation_middle. done.
    + injection E as <- <-. rewrite <- !(assoc_L (++)). cbn. done.
Qed.

Lemma foldl_place_sublist headers updates m extras :
  exists more,
    (foldl (place headers) (m, extras) updates).2 = extras ++ more
    /\ more `sublist_of` values updates.
Proof.
  revert m extras. induction updates as [|[h v] updates IH]; intros m extras.
  - exists []. split; [by rewrite app_nil_r|done].
  - cbn [foldl]. unfold values in *. cbn [fmap list_fmap snd].
    destruct (place headers (m, extras) (h, v)) as [m' extras'] eqn:E.
    destruct (IH m' extras') as (more & Heq & Hsub). rewrite Heq.
    unfold place in E. cbn [fst snd] in E.
    destruct (_get_col_name_index headers h None) as [i|];
      [case_bool_decide|]; injection E as <- <-.
    + exists (v :: more). split; [by rewrite <- (assoc_L (++))|by constructor].
    + exists more. split; [done|by constructor].
    + exists (v :: more). split; [by rewrite <- (assoc_L (++))|by constructor].
Qed.

(** The first item that resolves to an index holds it. *)
Lemma foldl_place_first headers pre h v post i m extras :
  _get_col_name_index headers h None = Some i ->
  m !! i = None ->
  (forall h' v', (h', v') ∈ pre -> _get_col_name_index headers h' None ≠ Some i) ->
  (foldl (place headers) (m, extras) (pre ++ (h, v) :: post)).1 !! i = Some v.
Proof.
  intros Hi. revert m extras.
  induction pre as [|[h0 v0] pre IH]; intros m extras Hm Hpre.
  - cbn [app foldl]. unfold place at 2. cbn [fst snd]. rewrite Hi.
    rewrite bool_decide_eq_false_2 by (rewrite Hm; by intros [? ?]).
    eapply lookup_weaken; [|apply foldl_place_grows]. by rewrite lookup_insert_eq.
  - cbn [app foldl].
    destruct (place headers (m, extras) (h0, v0)) as [m' extras'] eqn:E.
    apply IH.
    + unfold place in E. cbn [fst snd] in E.
      destruct (_get_col_name_index headers h0 None) as [j|] eqn:Hj;
        [case_bool_decide|]; injection E as <- <-; try done.
      rewrite lookup_insert_ne; [done|].
      intros ->. eapply Hpre; [by left|done].
    + intros h' v' Hin. eapply Hpre. by right.
Qed.

(** *** The second loop *)

Lemma foldl_fill m cells extras i n :
  foldl (fill m) (cells, extras) (seq i n)
  = (cells ++ (fill_from m i n extras).1, (fill_from m i n extras).2).
Proof.
  revert cells extras i. induction n as [|n IH]; intros cells extras i.
  - cbn. by rewrite app_nil_r.
  - cbn [seq foldl fill_from]. unfold fill at 2.
    destruct (m !! i) as [v|].
    + rewrite IH. destruct (fill_from m (S i) n extras) as [cs rest]. cbn.
      by rewrite <- (assoc_L (++)).
    + destruct extras as [|e extras].
      * rewrite IH. destruct (fill_from m (S i) n []) as [cs rest]. cbn.
        by rewrite <- (assoc_L (++)).
      * rewrite IH. destruct (fill_from m (S i) n extras) as [cs rest]. cbn.
        by rewrite <- (assoc_L (++)).
Qed.

Lemma fill_from_length m i n extras :
  length (fill_from m i n extras).1 = n.
Proof.
  revert i extras. induction n as [|n IH]; intros i extras; [done|].
  cbn [fill_from]. destruct (m !! i) as [v|]; [|destruct extras as [|e extras]].
  - specialize (IH (S i) extras). destruct (fill_from m (S i) n extras). cbn in *. lia.
  - specialize (IH (S i) []). destruct (fill_from m (S i) n []). cbn in *. lia.
  - specialize (IH (S i) extras). destruct (fill_from m (S i) n extras). cbn in *. lia.
Qed.

Lemma fill_from_placed m i n extras j v :
  j < n -> m !! (i + j) = Some v -> (fill_from m i n extras).1 !! j = Some v.
Proof.
  revert i extras j. induction n as [|n IH]; intros i extras j Hj Hm; [lia|].
  cbn [fill_from].
  destruct j as [|j].
  - rewrite Nat.add_0_r in Hm. rewrite Hm.
    by destruct (fill_from m (S i) n extras).
  - assert (m !! (S i + j) = Some v) as Hm' by (by replace (S i + j) with (i + S j) by lia).
    assert (j < n) as Hj' by lia.
    destruct (m !! i) as [w|]; [|destruct extras as [|e extras]].
    + specialize (IH (S i) extras j Hj' Hm').
      by destruct (fill_from m (S i) n extras).
    + specialize (IH (S i) [] j Hj' Hm').
      by destruct (fill_from m (S i) n []).
    + specialize (IH (S i) extras j Hj' Hm').
      by destruct (fill_from m (S i) n extras).
Qed.

Lemma fill_from_ext m m' i n extras :
  (forall j, i <= j -> m !! j = m' !! j) ->
  fill_from m i n extras = fill_from m' i n extras.
Proof.
  revert i extras. induction n as [|n IH]; intros i extras Hext; [done|].
  cbn [fill_from]. rewrite <- (Hext i) by lia.
  destruct (m !! i); [|destruct extras];
    rewrite (IH (S i)) by (intros j Hj; apply Hext; lia); done.
Qed.

Lemma unplaced_ext m m' i cells :
  (forall j, i <= j -> m !! j = m' !! j) -> unplaced m i cells = unplaced m' i cells.
Proof.
  revert i. induction cells as [|c cells IH]; intros i Hext; [done|].
  cbn [unplaced]. rewrite <- (Hext i) by lia.
  rewrite (IH (S i)) by (intros j Hj; apply Hext; lia). done.
Qed.

(** The cells of the second loop are the assigned values, the queued
    values and [k] fillers; at the free positions stand the queued values
    in their order, then the fillers, and a filler is used only when the
    queue is empty. *)
Lemma fill_from_spec m i n extras :
  (forall j, is_Some (m !! j) -> i <= j < i + n) ->
  exists k,
    (fill_from m i n extras).1 ++ (fill_from m i n extras).2
      ≡ₚ (map_to_list m).*2 ++ extras ++ replicate k ""
    /\ unplaced m i (fill_from m i n extras).1 ++ (fill_from m i n extras).2
       = extras ++ replicate k ""
    /\ (k = 0 \/ (fill_from m i n extras).2 = []).
Proof.
  revert m i extras. induction n as [|n IH]; intros m i extras Hkeys.
  - exists 0. cbn.
    assert (m = ∅) as ->.
    { apply map_empty. intros j. destruct (m !! j) eqn:E; [|done].
      destruct (Hkeys j); [by eexists|lia]. }
    rewrite map_to_list_empty. cbn. rewrite app_nil_r. by repeat split; [|left].
  - cbn [fill_from].
    destruct (m !! i) as [v|] eqn:Hm; [|destruct extras as [|e extras]].
    + rewrite (fill_from_ext m (delete i m) (S i))
        by (intros j Hj; rewrite lookup_delete_ne; [done|lia]).
      destruct (IH (delete i m) (S i) extras) as (k & Hperm & Hfree & Hk).
      { intros j [w Hj]. apply lookup_delete_Some in Hj as [Hne Hj].
        destruct (Hkeys j); [by eexists|lia]. }
      exists k. destruct (fill_from (delete i m) (S i) n extras) as [cs rest].
      cbn [fst snd unplaced] in *. rewrite Hm. split; [|split; [|done]].
      * cbn. rewrite Hperm. rewrite <- (map_to_list_delete m i v Hm). done.
      * rewrite <- Hfree. f_equal. apply unplaced_ext.
        intros j Hj. rewrite lookup_delete_ne; [done|lia].
    + destruct (IH m (S i) []) as (k & Hperm & Hfree & Hk).
      { intros j Hj. destruct (Hkeys j Hj).
        assert (j ≠ i) by (intros ->; destruct Hj; congruence). lia. }
      exists (S k). destruct (fill_from m (S i) n []) as [cs rest].
      cbn [fst snd unplaced] in *. rewrite Hm.
      assert (rest = []) as ->.
      { destruct Hk as [->|]; [|done]. cbn in Hfree.
        by apply app_eq_nil in Hfree as [_ ?]. }
      split; [|split; [|by right]].
      * cbn. rewrite Hperm. cbn. by rewrite <- Permutation_middle.
      * cbn in *. by rewrite Hfree.
    + destruct (IH m (S i) extras) as (k & Hperm & Hfree & Hk).
      { intros j Hj. destruct (Hkeys j Hj).
        assert (j ≠ i) by (intros ->; destruct Hj; congruence). lia. }
      exists k. destruct (fill_from m (S i) n extras) as [cs rest].
      cbn [fst snd unplaced] in *. rewrite Hm. split; [|split; [|done]].
      * cbn. rewrite Hperm. by rewrite <- Permutation_middle.
      * cbn. by rewrite Hfree.
Qed.

Lemma unplaced_app m i cells cells' :
  unplaced m i (cells ++ cells')
  = unplaced m i cells ++ unplaced m (i + length cells) cells'.
Proof.
  revert i. induction cells as [|c cells IH]; intros i.
  - cbn. by rewrite Nat.add_0_r.
  - cbn [app unplaced length]. rewrite IH.
    replace (S i + length cells) with (i + S (length cells)) by lia.
    by destruct (m !! i).
Qed.

Lemma unplaced_free m i cells :
  (forall j, i <= j -> m !! j = None) -> unplaced m i cells = cells.
Proof.
  revert i. induction cells as [|c cells IH]; intros i Hfree; [done|].
  cbn. rewrite Hfree by lia. f_equal. apply IH. intros j Hj. apply Hfree. lia.
Qed.

Lemma max_key_bound m j : is_Some (m !! j) -> j <= max_key m.
Proof.
  intros [v Hj]. unfold max_key. apply max_list_elem_of_le.
  apply list_elem_of_fmap. exists (j, v). split; [done|].
  by apply elem_of_map_to_list.
Qed.

(** What [dict_cells] is in terms of its two loops. *)
Lemma dict_cells_unfold headers updates :
  dict_cells headers updates
  = if bool_decide (placed headers updates = ∅) then queued headers updates
    else
      let r := fill_from (placed headers updates) 0
                 (max_key (placed headers updates) + 1) (queued headers updates) in
      r.1 ++ r.2.
Proof.
  unfold dict_cells, placed, queued.
  destruct (foldl (place headers) (∅, []) updates) as [m extras]. cbn [fst snd].
  case_bool_decide; [done|].
  rewrite foldl_fill. cbn. by destruct (fill_from _ _ _ _).
Qed.

(** The cells are the supplied values and [k] fillers; the assigned
    values stand at their index, the queue and the fillers at the other
    positions. *)
Lemma dict_cells_layout headers updates :
  exists k,
    dict_cells headers updates ≡ₚ values updates ++ replicate k ""
    /\ (forall i v, placed headers updates !! i = Some v ->
          dict_cells headers updates !! i = Some v)
    /\ unplaced (placed headers updates) 0 (dict_cells headers updates)
       = queued headers updates ++ replicate k "".
Proof.
  pose proof (foldl_place_perm headers updates ∅ []) as Hperm.
  cbn zeta in Hperm. rewrite map_to_list_empty in Hperm. cbn [fmap list_fmap app] in Hperm.
  fold (placed headers updates) in Hperm. fold (queued headers updates) in Hperm.
  rewrite dict_cells_unfold. case_bool_decide as Hempty.
  - exists 0. rewrite Hempty in *. rewrite map_to_list_empty in Hperm.
    cbn in *. rewrite !app_nil_r. split; [done|]. split.
    + intros i v Hi. by rewrite lookup_empty in Hi.
    + apply unplaced_free. intros j _. apply lookup_empty.
  - cbn zeta.
    set (m := placed headers updates) in *. set (n := max_key m + 1).
    destruct (fill_from_spec m 0 n (queued headers updates)) as (k & Hp & Hf & _).
    { intros j Hj. apply max_key_bound in Hj. lia. }
    pose proof (fill_from_length m 0 n (queued headers updates)) as Hlen.
    exists k. split; [|split].
    + rewrite Hp. rewrite (assoc_L (++)). by rewrite Hperm.
    + intros i v Hi.
      assert (i < n) as Hin.
      { assert (i <= max_key m) by (apply max_key_bound; by eexists). lia. }
      apply lookup_app_l_Some. by apply fill_from_placed.
    + rewrite unplaced_app, Hlen. cbn [Nat.add].
      rewrite (unplaced_free m n).
      * done.
      * intros j Hj. destruct (m !! j) eqn:E; [|done].
        assert (j <= max_key m) by (apply max_key_bound; by eexists). lia.
Qed.


(** The cells follow the order of the headers, not the order in which
    the values were supplied. *)
Example cells_in_header_order :
  dict_cells [Some "Date"; Some "Amount"]
    [(KStr "Amount", "2.24"); (KStr "Date", "5/1/2014")]
  = ["5/1/2014"; "2.24"].
Proof. vm_compute. reflexivity. Qed.


End DictRows.

(** ** The text of a cell *)

Section CellText.
Context `{Externals}.

Lemma td_cells_elem (sheet_tree row cell : Element) :
  row ∈ iterfind_tag "tr" sheet_tree -> cell ∈ children row -> tag cell = "td" ->
  cell ∈ td_cells sheet_tree.
Proof.
  intros Hrow Hcell Htag. unfold td_cells.
  apply list_elem_of_filter. split; [done|].
  apply list_elem_of_In, in_flat_map. exists row.
  split; by apply list_elem_of_In.
Qed.

Lemma cell_data_texted (cell : Element) :
  (~ has_image cell -> has_text cell) -> cell_data cell ≠ Raise (IndexError 956).
Proof.
  unfold cell_data, has_image, has_text. intros Hcell.
  destruct (iter "img" cell) as [|image images]; [|done].
  destruct (itertext cell) as [|first texts]; [|done].
  exfalso. apply Hcell; [|done]. by intros Hne.
Qed.

Lemma cells_of_texted headers i (row : list Element) cells :
  (forall cell, cell ∈ row -> tag cell = "td" -> ~ has_image cell -> has_text cell) ->
  cells_of headers i row cells ≠ Raise (IndexError 956).
Proof.
  revert i cells. induction row as [|cell row IH]; intros i cells Hrow; [done|].
  cbn [cells_of]. case_bool_decide as Htag; cbn [negb].
  - pose proof (cell_data_texted cell (Hrow cell ltac:(by left) Htag)) as Hdata.
    destruct (cell_data cell) as [data|e]; cbn.
    + destruct (headers !! i); [|done].
      apply IH. intros c Hc. apply Hrow. by right.
    + intros [= ->]. done.
  - apply IH. intros c Hc. apply Hrow. by right.
Qed.

Lemma rows_of_texted headers (rows : list Element) :
  (forall row cell, row ∈ rows -> cell ∈ children row -> tag cell = "td" ->
     ~ has_image cell -> has_text cell) ->
  rows_of headers rows ≠ Raise (IndexError 956).
Proof.
  induction rows as [|row rows IH]; intros Hrows; [done|].
  cbn [rows_of].
  pose proof (cells_of_texted headers 0 (children row) []
                (fun cell Hc => Hrows row cell ltac:(by left) Hc)) as Hcells.
  destruct (cells_of headers 0 (children row) []) as [cells|e]; cbn.
  - assert (rows_of headers rows ≠ Raise (IndexError 956)) as Hrest.
    { apply IH. intros r c Hr. apply Hrows. by right. }
    destruct (rows_of headers rows) as [more|e]; cbn; [done|].
    intros [= ->]. done.
  - intros [= ->]. done.
Qed.

Lemma find_row_texted index value (rows : list Element) :
  (forall row cell, row ∈ rows -> cell ∈ children row -> tag cell = "td" ->
     has_text cell) ->
  find_row index value rows ≠ Raise (IndexError 869).
Proof.
  induction rows as [|row rows IH]; intros Hrows; [done|].
  assert (find_row index value rows ≠ Raise (IndexError 869)) as Hrest.
  { apply IH. intros r c Hr. apply Hrows. by right. }
  cbn [find_row]. destruct (len row <=? index); [done|].
  destruct (children row !! index) as [cell|] eqn:Hcell; [|done].
  case_bool_decide as Htag; cbn [negb]; [|done].
  assert (has_text cell) as Htext.
  { apply (Hrows row); [by left| |done]. by eapply list_elem_of_lookup_2. }
  unfold has_text in Htext.
  destruct (itertext cell) as [|first texts]; [done|].
  by case_bool_decide.
Qed.

(** C10 (as the code has it): in [parse_sheet_contents] the text of a
    cell is read only when the cell holds no image, so when every [td]
    cell without image has a text node the access of line 956 stays in
    range.  [_find_row_tree] reads the text of the cell in the searched
    column whether it holds an image or not: its access of line 869 stays
    in range when every [td] cell has a text node.  A sheet with a [td]
    cell that has neither image nor text makes both raise [IndexError]. *)
Theorem cell_text_access (self : Thread) (sheet_name : option string)
    (sheet_tree : Element) :
  _sheet_name_to_tree self sheet_name = Ok (Some sheet_tree) ->
  ((forall cell, cell ∈ td_cells sheet_tree -> ~ has_image cell -> has_text cell) ->
   parse_sheet_contents self sheet_name ≠ Raise (IndexError 956))
  /\ ((forall cell, cell ∈ td_cells sheet_tree -> has_text cell) ->
      forall header value,
        _find_row_tree (Some sheet_tree) header value ≠ Raise (IndexError 869))
  /\ (exists cell,
        cell ∈ td_cells (table_of hollow) /\ ~ has_image cell /\ ~ has_text cell
        /\ parse_sheet_contents (holding (Assigned (Some hollow))) (Some "Sheet1")
           = Raise (IndexError 956)
        /\ _find_row_tree (Some (table_of hollow)) (KStr "customer") "acme"
           = Raise (IndexError 869)).
Proof.
  intros Htree. split; [|split].
  - intros Hcells. unfold parse_sheet_contents. rewrite Htree.
    unfold mbind at 1. unfold result_bind at 1. unfold mbind at 1. unfold result_bind at 1.
    destruct (_get_sheet_tree_col_names (Some sheet_tree)) as [headers|e] eqn:Hh.
    2:{ cbn in Hh. destruct (iterfind_tag "tr" sheet_tree); by simplify_eq. }
    pose proof (rows_of_texted headers (iterfind_tag "tr" sheet_tree)) as Hrows_of.
    cbn [mbind result_bind].
    destruct (rows_of headers (iterfind_tag "tr" sheet_tree)) as [rows|e]; [done|].
    intros [= ->]. apply Hrows_of; [|done].
    intros row cell Hrow Hcell Htag. apply Hcells. by eapply td_cells_elem.
  - intros Hcells header value. unfold _find_row_tree.
    destruct (_get_sheet_tree_col_names (Some sheet_tree)) as [headers|e] eqn:Hh; cbn.
    + destruct (_get_col_name_index headers header (Some 0)) as [index|]; [|done].
      apply find_row_texted.
      intros row cell Hrow Hcell Htag. apply Hcells. by eapply td_cells_elem.
    + cbn in Hh. destruct (iterfind_tag "tr" sheet_tree); by simplify_eq.
  - exists (el "td" [("id", "r1c1")] None []).
    split; [|split; [|split; [|split]]].
    + vm_compute. do 3 right. left.
    + intros Himg. by apply Himg.
    + intros Htext. by apply Htext.
    + vm_compute. reflexivity.
    + vm_compute. reflexivity.
Qed.

End CellText.

Lemma cell_text_access_witness :
  parse_sheet_contents (H:=scripted []) (holding (Assigned (Some customers)))
    (Some "Sheet1") ≠ Raise (IndexError 956).
Proof.
  apply (proj1 (cell_text_access (H:=scripted []) (holding (Assigned (Some customers)))
                  (Some "Sheet1") (table_of customers)
                  ltac:(vm_compute; reflexivity))).
  intros cell Hin _. apply list_elem_of_In in Hin. vm_compute in Hin.
  unfold has_text.
  repeat (destruct Hin as [<-|Hin]; [vm_compute; discriminate|]).
  destruct Hin.
Defined.

(** C10 (an input against the claim): every [td] cell of the sheet that
    holds no image has a text node, and the search for a row still runs
    out of range, on the cell that holds only an image. *)
Lemma pictured_cell_breaks_row_search :
  (forall cell, cell ∈ td_cells (table_of pictures) -> ~ has_image cell -> has_text cell)
  /\ _find_row_tree (Some (table_of pictures)) (KStr "customer") "acme"
     = Raise (IndexError 869).
Proof.
  split; [|vm_compute; reflexivity].
  intros cell Hin Himg. apply list_elem_of_In in Hin. vm_compute in Hin.
  unfold has_text, has_image in *.
  repeat (destruct Hin as [<-|Hin];
          [first [by (vm_compute; discriminate)
                 |exfalso; apply Himg; vm_compute; discriminate]|]).
  destruct Hin.
Qed.

(** ** Searching a row and adding it *)

Section Upsert.
Context `{Externals}.

#[local] Instance same_objects_refl : Reflexive same_objects.
Proof. by intros s. Qed.
#[local] Instance same_objects_trans : Transitive same_objects.
Proof. unfold same_objects. intros s1 s2 s3 H12 H23. congruence. Qed.

Lemma fetch_same_objects api path post_data args :
  keeps same_objects (_fetch_json api path post_data args).
Proof.
  apply keeps_reads_only; [|apply fetch_reads_only].
  unfold same_objects. by intros s s' _ ->.
Qed.

Lemma thread_html_same_objects fuel : keeps same_objects (_get_thread_html fuel).
Proof.
  apply keeps_reads_only; [|apply thread_html_loop_reads_only].
  unfold same_objects. by intros s s' _ ->.
Qed.

Ltac keeps_objects :=
  repeat first
    [ apply fetch_same_objects
    | apply thread_html_same_objects
    | keeps_step ].

Lemma sheet_edit_same_objects fuel content location format section_id :
  keeps same_objects (sheet_edit_content fuel content location format section_id).
Proof.
  unfold sheet_edit_content, edit_thread, QuipSpreadSheet.reload_content,
    set_content_html, set_content_tree, set_sheets.
  keeps_objects.
Qed.

Lemma sheet_add_row_same_objects fuel row sheet_name row_idx location :
  keeps same_objects (_sheet_add_row fuel row sheet_name row_idx location).
Proof.
  unfold _sheet_add_row.
  repeat first [ apply sheet_edit_same_objects | keeps_step ].
Qed.

Lemma dict_set_get {K V} `{EqDecision K} (k : K) (v : V) (d : list (K * V)) :
  dict_get k (dict_set k v d) = Some v.
Proof.
  induction d as [|[k' v'] d IH]; cbn.
  - by rewrite decide_True.
  - destruct (decide (k' = k)) as [->|Hne]; cbn.
    + by rewrite decide_True.
    + by rewrite decide_False.
Qed.

Lemma dict_set_get_ne {K V} `{EqDecision K} (k h : K) (v : V) (d : list (K * V)) :
  h ≠ k -> dict_get h (dict_set k v d) = dict_get h d.
Proof.
  intros Hne. induction d as [|[k' v'] d IH]; cbn.
  - by rewrite decide_False.
  - destruct (decide (k' = k)) as [->|Hk]; cbn.
    + by rewrite !decide_False.
    + destruct (decide (k' = h)); [done|]. apply IH.
Qed.

Lemma dict_set_elem {K V} `{EqDecision K} (k : K) (v : V) (d : list (K * V)) :
  (k, v) ∈ dict_set k v d.
Proof.
  induction d as [|[k' v'] d IH]; cbn; [by left|].
  destruct (decide (k' = k)) as [->|Hne]; [by left|by right].
Qed.

Lemma dict_set_elem_ne {K V} `{EqDecision K} (k h : K) (v w : V) (d : list (K * V)) :
  h ≠ k -> (h, w) ∈ d -> (h, w) ∈ dict_set k v d.
Proof.
  intros Hne. induction d as [|[k' v'] d IH]; cbn; [by intros ?%elem_of_nil|].
  intros [Heq|Hin]%elem_of_cons.
  - injection Heq as <- <-. rewrite decide_False by done. by left.
  - destruct (decide (k' = k)); right; [done|by apply IH].
Qed.

(** With a default the resolution of a column always gives an index. *)
Lemma col_index_default header_items header (d : nat) :
  is_Some (_get_col_name_index header_items header (Some d)).
Proof.
  unfold _get_col_name_index.
  destruct (key_truthy header); [|by eexists].
  case_bool_decide as Hex.
  { apply list_elem_of_lookup in Hex as [i Hi]. clear -Hi.
    revert i Hi. induction header_items as [|h hs IH]; intros i Hi; [done|].
    cbn. destruct (decide (h = Some (str header))); [by eexists|].
    destruct i as [|i]; [by simplify_eq/=|].
    destruct (IH i Hi) as [j ->]. by eexists. }
  case_bool_decide as Hlow.
  { apply list_elem_of_lookup in Hlow as [i Hi]. clear -Hi.
    revert i Hi. induction (lower_headers header_items) as [|h hs IH]; intros i Hi; [done|].
    cbn. destruct (decide (h = lower (str header))); [by eexists|].
    destruct i as [|i]; [by simplify_eq/=|].
    destruct (IH i Hi) as [j ->]. by eexists. }
  destruct (isdigit (str header)); [by eexists|].
  destruct (upper (str header)) as [|c [|]]; try by eexists.
  destruct (_ && _); by eexists.
Qed.

(** The search returns no row exactly when every cell it compares has a
    text and none of the texts is the value, whatever the case. *)
Lemma find_row_none index value (rows : list Element) :
  find_row index value rows = Ok None
  <-> forall row cell, row ∈ rows -> children row !! index = Some cell ->
        tag cell = "td" ->
        exists first, head (itertext cell) = Some first /\ lower first ≠ lower value.
Proof.
  induction rows as [|row rows IH].
  - split; [|done]. intros _ row cell Hin. by apply elem_of_nil in Hin.
  - assert ((forall r c, r ∈ row :: rows -> children r !! index = Some c ->
               tag c = "td" ->
               exists first, head (itertext c) = Some first /\ lower first ≠ lower value)
            <-> (forall c, children row !! index = Some c -> tag c = "td" ->
                   exists first, head (itertext c) = Some first
                                 /\ lower first ≠ lower value)
                /\ find_row index value rows = Ok None) as ->.
    { rewrite IH. split.
      - intros Hall. split; [intros c; apply Hall; by left|].
        intros r c Hr. apply Hall. by right.
      - intros [Hrow Hrows] r c [->|Hr]%elem_of_cons; [apply Hrow|by apply Hrows]. }
    cbn [find_row]. destruct (len row <=? index) eqn:Hlen.
    + apply Nat.leb_le in Hlen. split; [|by intros [_ ?]].
      intros Hrest. split; [|done]. intros c Hc.
      apply lookup_lt_Some in Hc. unfold len in Hlen. lia.
    + apply Nat.leb_gt in Hlen.
      destruct (lookup_lt_is_Some_2 (children row) index Hlen) as [cell Hcell].
      rewrite Hcell. case_bool_decide as Htag; cbn [negb].
      * destruct (itertext cell) as [|first texts] eqn:Htext.
        { split; [done|]. intros [Hrow _].
          destruct (Hrow cell) as (f & Hf & _); [done|done|].
          by rewrite Htext in Hf. }
        case_bool_decide as Hmatch.
        { split; [done|]. intros [Hrow _].
          destruct (Hrow cell) as (f & Hf & Hne); [done|done|].
          rewrite Htext in Hf. by simplify_eq/=. }
        split; [|by intros [_ ?]].
        intros Hrest. split; [|done]. intros c Hc Ht. simplify_eq.
        exists first. by rewrite Htext.
      * split; [|by intros [_ ?]].
        intros Hrest. split; [|done]. intros c Hc Ht. by simplify_eq.
Qed.

(** A row that the search returns has cells, so it counts as found. *)
Lemma find_row_truthy index value (rows : list Element) row :
  find_row index value rows = Ok (Some row) -> etree.truthy row = true.
Proof.
  induction rows as [|r rows IH]; [done|]. cbn [find_row].
  destruct (len r <=? index) eqn:Hlen; [done|].
  apply Nat.leb_gt in Hlen.
  destruct (children r !! index) as [cell|]; [|done].
  destruct (negb _); [done|].
  destruct (itertext cell) as [|first texts]; [done|].
  case_bool_decide; [|done].
  intros [= <-]. unfold etree.truthy, len in *.
  destruct (children r); [cbn in Hlen; lia|done].
Qed.

(** What [sheet_search_update_cells] does when the search finds no row. *)
Lemma search_without_row fuel (s : state) sheet_name search_dct updates_dct
    header value rest sheet_tree :
  objects s !!! search_dct = (header, value) :: rest ->
  _sheet_name_to_tree (self s) sheet_name = Ok (Some sheet_tree) ->
  _find_row_tree (Some sheet_tree) header value = Ok None ->
  sheet_search_update_cells fuel sheet_name search_dct updates_dct s
  = (status ← _sheet_add_row fuel (RowDict updates_dct) sheet_name None None;
     mret (Some status))
      {| world := world s;
         objects := <[updates_dct := dict_set header value (objects s !!! updates_dct)]>
                      (objects s);
         self := self s |}.
Proof.
  intros Hsearch Htree Hfind. unfold sheet_search_update_cells.
  rewrite bind_run. cbn [get_object]. rewrite Hsearch.
  rewrite bind_run. cbn [get_self].
  rewrite bind_run. cbn [lift]. rewrite Htree.
  assert (exists headers, _get_sheet_tree_col_names (Some sheet_tree) = Ok headers)
    as [headers Hheaders].
  { unfold _find_row_tree in Hfind.
    destruct (_get_sheet_tree_col_names (Some sheet_tree)); [by eexists|done]. }
  rewrite bind_run. cbn [lift]. rewrite Hheaders.
  rewrite bind_run. cbn [lift]. rewrite Hfind.
  cbv zeta. rewrite bind_run. cbn [get_object].
  rewrite bind_run. unfold set_object. reflexivity.
Qed.

(** C9: when the search finds no row, the dictionary of updates that the
    caller passed holds, once the call is over, the searched value under
    the search key; the other dictionaries of the caller are untouched.
    This is so whether the new row was then added or the attempt raised. *)
Theorem missing_row_changes_callers_updates fuel (s s' : state) r sheet_name
    search_dct updates_dct header value rest sheet_tree :
  objects s !!! search_dct = (header, value) :: rest ->
  _sheet_name_to_tree (self s) sheet_name = Ok (Some sheet_tree) ->
  _find_row_tree (Some sheet_tree) header value = Ok None ->
  sheet_search_update_cells fuel sheet_name search_dct updates_dct s = Some (s', r) ->
  objects s'
  = <[updates_dct := dict_set header value (objects s !!! updates_dct)]> (objects s)
  /\ dict_get header (objects s' !!! updates_dct) = Some value
  /\ (forall h, h ≠ header ->
        dict_get h (objects s' !!! updates_dct) = dict_get h (objects s !!! updates_dct)).
Proof.
  intros Hsearch Htree Hfind Hrun.
  rewrite (search_without_row fuel s sheet_name search_dct updates_dct header value
             rest sheet_tree Hsearch Htree Hfind) in Hrun.
  assert (keeps same_objects
            (status ← _sheet_add_row fuel (RowDict updates_dct) sheet_name None None;
             mret (Some status))) as Hkeeps.
  { apply keeps_bind; [apply sheet_add_row_same_objects|intros ?; apply keeps_ret]. }
  apply Hkeeps in Hrun. unfold same_objects in Hrun. cbn in Hrun.
  rewrite Hrun. rewrite lookup_total_insert_eq.
  split; [done|]. split; [apply dict_set_get|].
  intros h Hne. by apply dict_set_get_ne.
Qed.


End Upsert.

Lemma missing_row_changes_callers_updates_witness :
  exists s' r,
    sheet_search_update_cells 1 (Some "Sheet1") 0 1 acme_search = Some (s', r)
    /\ objects s' !!! 1 = [(KStr "Billed", "6/24/2015"); (KStr "customer", "Acme")].
Proof.
  destruct (sheet_search_update_cells 1 (Some "Sheet1") 0 1 acme_search)
    as [[s' r]|] eqn:Hrun; [|vm_compute in Hrun; discriminate].
  exists s', r. split; [done|].
  destruct (missing_row_changes_callers_updates 1 acme_search s' r (Some "Sheet1") 0 1
              (KStr "customer") "Acme" [] (table_of customers)
              ltac:(vm_compute; reflexivity) ltac:(vm_compute; reflexivity)
              ltac:(vm_compute; reflexivity) Hrun) as [-> _].
  vm_compute. reflexivity.
Defined.


(** ** What a request carries *)

Section Fields.
Context `{Externals}.

Lemma encode_encoded (kv : string * json) :
  encode kv = match encoded kv.2 with
              | Some v => Ok (kv.1, v)
              | None => Raise (AttributeError 114)
              end.
Proof. destruct kv as [k [|[]| | | |]]; reflexivity. Qed.

Lemma mapM_encode_lookup (k : string) (l : list (string * json)) l' :
  mapM encode l = Ok l' ->
  NoDup l.*1 ->
  dict_get k l' = dict_get k l ≫= encoded.
Proof.
  revert l'. induction l as [|[k0 v0] l IH]; intros l' Hm Hnd.
  - by injection Hm as <-.
  - rewrite mapM_encode_cons, encode_encoded in Hm. cbn [fst snd] in Hm.
    destruct (encoded v0) as [s0|] eqn:He; [|done].
    destruct (mapM encode l) as [l1|] eqn:Hl; [|done].
    injection Hm as <-. apply NoDup_cons in Hnd as [Hk0 Hnd].
    cbn [dict_get]. destruct (decide (k0 = k)) as [->|Hne]; [cbn; by rewrite He|].
    by apply IH.
Qed.

Lemma dict_get_filter (k : string) (l : list (string * json)) :
  NoDup l.*1 ->
  dict_get k (List.filter kept l)
  = dict_get k l ≫= fun v => if kept (k, v) then Some v else None.
Proof.
  induction l as [|[k0 v0] l IH]; intros Hnd; [done|].
  apply NoDup_cons in Hnd as [Hk0 Hnd]. cbn [List.filter dict_get].
  destruct (decide (k0 = k)) as [->|Hne].
  - destruct (kept (k, v0)) eqn:Hkept; cbn.
    + by rewrite decide_True, Hkept.
    + rewrite Hkept. rewrite IH by done.
      destruct (dict_get k l) as [v|] eqn:Hget; [|done].
      exfalso. apply Hk0. clear -Hget.
      induction l as [|[k1 v1] l IH]; [done|]. cbn in *.
      destruct (decide (k1 = k)) as [->|]; [by left|right; by apply IH].
  - destruct (kept (k0, v0)); cbn; [rewrite decide_False by done|]; by apply IH.
Qed.

Lemma filter_kept_keys (l : list (string * json)) :
  NoDup l.*1 -> NoDup (List.filter kept l).*1.
Proof.
  induction l as [|[k0 v0] l IH]; intros Hnd; [done|].
  apply NoDup_cons in Hnd as [Hk0 Hnd]. cbn [List.filter].
  destruct (kept (k0, v0)); [|by apply IH].
  cbn. apply NoDup_cons. split; [|by apply IH].
  intros Hin. apply Hk0. apply list_elem_of_fmap in Hin as ([k1 v1] & -> & Hin).
  apply list_elem_of_fmap. exists (k1, v1). split; [done|].
  apply list_elem_of_In, filter_In in Hin as [Hin _]. by apply list_elem_of_In.
Qed.

Lemma clean_lookup (k : string) (l : list (string * json)) l' :
  _clean l = Ok l' ->
  NoDup l.*1 ->
  dict_get k l' = dict_get k l ≫= fun v => if kept (k, v) then encoded v else None.
Proof.
  intros Hc Hnd. unfold _clean in Hc.
  rewrite (mapM_encode_lookup k _ _ Hc) by by apply filter_kept_keys.
  rewrite dict_get_filter by done.
  destruct (dict_get k l) as [v|]; [|done]. cbn. by destruct (kept (k, v)).
Qed.

Lemma clean_raises (l : list (string * json)) e :
  _clean l = Raise e -> e = AttributeError 114 /\ Exists unencodable l.
Proof.
  unfold _clean. induction l as [|kv l IH]; [done|]. cbn [List.filter].
  destruct (kept kv) eqn:Hkept.
  - rewrite mapM_encode_cons, encode_encoded.
    destruct (encoded kv.2) as [v|] eqn:He.
    + destruct (mapM encode (List.filter kept l)) as [l1|e1]; [done|].
      intros [= <-]. destruct (IH eq_refl) as [-> Hex]. split; [done|by right].
    + intros [= <-]. split; [done|]. by left.
  - intros He. destruct (IH He) as [-> Hex]. split; [done|by right].
Qed.

(** [request] fails only where [encode] does. *)
Lemma request_raises (t : Thread) api path (post_data args : list (string * json)) e :
  request t api path (Some post_data) args = Raise e ->
  e = AttributeError 114 /\ Exists unencodable (args ++ post_data).
Proof.
  unfold request. destruct (_clean args) as [q|e0] eqn:Hq; cbn.
  - destruct post_data as [|kv pd] eqn:Hpd; [done|].
    rewrite <- Hpd in *. clear Hpd kv pd.
    unfold _clean at 1. rewrite filter_kept_idemp. fold (_clean post_data).
    destruct (_clean post_data) as [d|e1] eqn:Hd; [done|].
    cbn. intros [= <-]. destruct (clean_raises _ _ Hd) as [-> Hex].
    split; [done|]. apply Exists_app. by right.
  - intros [= <-]. destruct (clean_raises _ _ Hq) as [-> Hex].
    split; [done|]. apply Exists_app. by left.
Qed.

(** The form fields of a request, key by key. *)
Lemma request_field (t : Thread) api path (post_data args : list (string * json)) req k :
  NoDup post_data.*1 ->
  request t api path (Some post_data) args = Ok req ->
  dict_get k (default [] (data req))
  = dict_get k post_data ≫= fun v => if kept (k, v) then encoded v else None.
Proof.
  intros Hnd. unfold request.
  destruct (_clean args) as [q|]; [|done]. cbn.
  destruct post_data as [|kv pd] eqn:Hpd; [by intros [= <-]|].
  rewrite <- Hpd in *. clear Hpd kv pd.
  unfold _clean at 1. rewrite filter_kept_idemp. fold (_clean post_data).
  destruct (_clean post_data) as [d|] eqn:Hd; [|done].
  cbn. intros [= <-]. cbn. by apply clean_lookup.
Qed.

(** X1: a field of the post data is transmitted exactly when its value is
    true or an [int]: numbers and booleans as their text (so [0] goes out
    as "0" and [False] as "False"), strings as they are; [None], the empty
    string and the empty containers are left out.  Building the request
    fails only with the [AttributeError] of line 114, and only when a list
    or a dictionary that is not empty is among the values. *)
Theorem post_fields_transmitted (t : Thread) api path
    (post_data args : list (string * json)) :
  NoDup post_data.*1 ->
  (forall req, request t api path (Some post_data) args = Ok req ->
     forall k,
       dict_get k (default [] (data req))
       = dict_get k post_data ≫= fun v => if kept (k, v) then encoded v else None)
  /\ (forall e, request t api path (Some post_data) args = Raise e ->
        e = AttributeError 114 /\ Exists unencodable (args ++ post_data)).
Proof.
  intros Hnd. split.
  - intros req Hreq k. by apply (request_field t api path post_data args).
  - intros e. apply request_raises.
Qed.

End Fields.

Lemma post_fields_transmitted_witness :
  exists req : Request,
    request (H:=scripted []) (holding Unassigned) 1 "threads/edit-document"
      (Some (edit_thread_args (holding (H:=scripted []) Unassigned) (JStr "x")
               (JInt 0) (JStr "") None)) [] = Ok req
    /\ dict_get "location" (default [] (data req)) = Some "0"
    /\ dict_get "format" (default [] (data req)) = None.
Proof.
  eexists. split; [vm_compute; reflexivity|].
  destruct (post_fields_transmitted (H:=scripted []) (holding Unassigned) 1
              "threads/edit-document"
              (edit_thread_args (holding (H:=scripted []) Unassigned) (JStr "x")
                 (JInt 0) (JStr "") None) [] ltac:(compute_done)) as [Hok _].
  split; rewrite (Hok _ ltac:(vm_compute; reflexivity)); vm_compute; reflexivity.
Defined.

(** ** Attempts of a request *)

Section Retries.
Context `{Externals}.

(** X2: [_fetch_json] asks the service at most three times: the answer
    to the first attempt that does not time out is its result, whatever it
    is, and no further attempt is made; after three timeouts it raises
    [TimeoutError]. *)
Theorem fetch_tries_three_times api path post_data args (s : state) req w1 w2 w3 r1 r2 r3 :
  request (self s) api path post_data args = Ok req ->
  urlopen (world s) req = (w1, r1) ->
  urlopen w1 req = (w2, r2) ->
  urlopen w2 req = (w3, r3) ->
  _fetch_json api path post_data args s
  = if timed_out r1 then
      if timed_out r2 then Some (moved_to s w3, outcome r3)
      else Some (moved_to s w2, outcome r2)
    else Some (moved_to s w1, outcome r1).
Proof.
  intros Hreq H1 H2 H3. unfold _fetch_json. cbn [retry].
  unfold _fetch_json_once at 1. rewrite Hreq, H1.
  destruct r1 as [| |c1 [m1|]| |]; try reflexivity. cbn [timed_out].
  unfold _fetch_json_once at 1. cbn [self world]. rewrite Hreq, H2.
  destruct r2 as [| |c2 [m2|]| |]; try reflexivity. cbn [timed_out].
  unfold _fetch_json_once at 1. cbn [self world]. rewrite Hreq, H3.
  destruct r3 as [| |c3 [m3|]| |]; reflexivity.
Qed.

End Retries.

Lemma fetch_tries_three_times_witness :
  _fetch_json (H:=scripted []) 2 "threads/T1" None []
    (against [] [TimedOut; Replied 200 JNull; Unreachable] ∅ (holding Unassigned))
  = Some (against [] [Unreachable] ∅ (holding Unassigned), Ok (200%Z, JNull)).
Proof.
  eapply (fetch_tries_three_times (H:=scripted []) 2 "threads/T1" None []
           (against [] [TimedOut; Replied 200 JNull; Unreachable] ∅ (holding Unassigned))
           _ [Replied 200 JNull; Unreachable] [Unreachable] []
           TimedOut (Replied 200 JNull) Unreachable); reflexivity.
Defined.

(** ** A cursor that never ends *)

Section Endless.
Context `{Externals}.

Lemma asks_again_not_empty cursor : asks_again cursor -> is_empty_str cursor = false.
Proof. intros [->|(c & -> & Hc)]; [done|]. by destruct c. Qed.

Lemma request_cursor (t : Thread) api path cursor :
  asks_again cursor ->
  exists req, request t api path None [("cursor", cursor)] = Ok req.
Proof.
  intros [->|(c & -> & Hc)]; [by eexists|].
  destruct c as [|a c]; [done|]. by eexists.
Qed.

Lemma thread_html_loop_never_ends (Inv : World -> Prop) n html_content cursor (s : state) :
  never_ends Inv -> Inv (world s) -> asks_again cursor ->
  _get_thread_html_loop n html_content cursor s = None.
Proof.
  intros Hserv. revert html_content cursor s.
  induction n as [|n IH]; intros html_content cursor s Hinv Hcur;
    cbn [_get_thread_html_loop]; rewrite (asks_again_not_empty _ Hcur); [done|].
  rewrite bind_run. cbn [get_self]. rewrite bind_run.
  destruct (request_cursor (self s) 2
              ("threads/" +:+ format (id_ (self s)) +:+ "/html") cursor Hcur)
    as [req Hreq].
  destruct (Hserv (world s) req Hinv)
    as (w' & status & body & fragment & md & next & Hopen & Hinv' & Hhtml & Hmd & Hnext & Hagain).
  assert (_fetch_json 2 ("threads/" +:+ format (id_ (self s)) +:+ "/html") None
            [("cursor", cursor)] s = Some (moved_to s w', Ok (status, body))) as ->.
  { unfold _fetch_json. cbn [retry]. unfold _fetch_json_once. by rewrite Hreq, Hopen. }
  rewrite bind_run. cbn [lift]. rewrite Hhtml.
  rewrite bind_run. cbn [lift Json.concat].
  rewrite bind_run. cbn [lift]. rewrite Hmd.
  rewrite bind_run. cbn [lift]. rewrite Hnext.
  by apply IH.
Qed.

(** X3: a service that answers every page with a cursor other than the
    empty string, or with none, keeps [_get_thread_html] asking: whatever
    the bound on the number of requests, the run comes to no result. *)
Theorem thread_html_never_returns (Inv : World -> Prop) (fuel : nat) (s : state) :
  never_ends Inv -> Inv (world s) ->
  _get_thread_html fuel s = None.
Proof.
  intros Hserv Hinv. unfold _get_thread_html.
  apply (thread_html_loop_never_ends Inv); [done|done|by left].
Qed.

End Endless.

Lemma thread_html_never_returns_witness :
  _get_thread_html (H:=endless) 1000
    {| world := tt : World (Externals:=endless); objects := ∅; self := blank |} = None.
Proof.
  apply (thread_html_never_returns (H:=endless) (fun _ => True) 1000); [|exact I].
  intros [] req _.
  exists tt, 200%Z, (JDict [("html", JStr "<p></p>"); ("response_metadata", JDict [])]),
    "<p></p>", (JDict []), JNull.
  repeat split; try reflexivity. by left.
Defined.

(** ** The folders of a thread *)

Section Folders.
Context `{Externals}.

Lemma folder_ids_loop_stores n folder_ids next_cursor (s s' : state) l :
  _get_folder_ids_loop n folder_ids next_cursor s = Some (s', Ok l) ->
  Quip.folder_ids (self s') = Assigned (match l with [] => None | _ => Some l end).
Proof.
  revert folder_ids next_cursor s.
  induction n as [|n IH]; intros folder_ids next_cursor s;
    cbn [_get_folder_ids_loop].
  - destruct (is_empty_str next_cursor); [by intros [= <- <-]|done].
  - destruct (is_empty_str next_cursor); [by intros [= <- <-]|].
    rewrite bind_run. cbn [get_self]. rewrite bind_run.
    destruct (_fetch_json _ _ _ _ s) as [[s1 [[status body]|e]]|]; [| |done]; [|done].
    rewrite bind_run. cbn [lift].
    destruct (Json.get 356 body "folders") as [folders|]; [|done].
    rewrite bind_run. cbn [lift].
    destruct (folder_id_list folders) as [more|]; [|done].
    rewrite bind_run. cbn [lift].
    destruct (Json.getitem 358 body "response_metadata") as [md|]; [|done].
    rewrite bind_run. cbn [lift].
    destruct (Json.get 358 md "next_cursor") as [next|]; [|done].
    apply IH.
Qed.

(** X4: [_get_folder_ids] stores in [folder_ids] the list it returns, or
    [None] when that list is empty; [QuipThread.__init__] then stores the
    returned list itself, so after construction [folder_ids] is a list,
    the empty one for a thread that is in no folder. *)
Theorem folder_ids_after_init (fuel : nat) :
  (forall (s s' : state) l,
     _get_folder_ids fuel s = Some (s', Ok l) ->
     Quip.folder_ids (self s') = Assigned (match l with [] => None | _ => Some l end))
  /\ (forall client access_token base_url thread_id format title content member_ids
        doc_type (s s' : state),
        QuipThread.__init__ fuel client access_token base_url thread_id format title
          content member_ids doc_type s = Some (s', Ok tt) ->
        exists s2 s3 l,
          _get_folder_ids fuel s2 = Some (s3, Ok l)
          /\ self s' = with_folder_ids (Some l) (self s3)
          /\ Quip.folder_ids (self s') = Assigned (Some l)).
Proof.
  split.
  - intros s s' l. apply folder_ids_loop_stores.
  - intros client access_token base_url thread_id format title content member_ids
      doc_type s s'. unfold QuipThread.__init__.
    rewrite bind_run.
    destruct (load _ _ _ _ _ _ _ _ _ s) as [[s1 [[]|e]]|]; [| |done]; [|done].
    rewrite bind_run.
    destruct (_get_thread_html fuel s1) as [[s2 [html|e]]|]; [| |done]; [|done].
    rewrite bind_run. unfold set_content_html at 1. rewrite bind_run.
    cbn [get_self set_self]. rewrite bind_run.
    set (s2' := put s2 (with_content_html html (self s2))).
    assert (exists s2'', (match parse html with
                          | Ok tree => set_content_tree (Some tree)
                          | Raise _ => mret tt
                          end) s2' = Some (s2'', Ok tt)) as [s2'' ->].
    { destruct (parse html); by eexists. }
    rewrite bind_run. fold (_get_folder_ids fuel).
    destruct (_get_folder_ids fuel s2'') as [[s3 [l|e]]|] eqn:Hf; [| |done]; [|done].
    intros [= <-]. exists s2'', s3, l. done.
Qed.

End Folders.

Lemma folder_ids_after_init_witness :
  _get_folder_ids (H:=scripted []) 1
    (against []
       [Replied 200 (JDict [("folders", JList []);
                            ("response_metadata", JDict [("next_cursor", JStr "")])])]
       ∅ (holding Unassigned))
  = Some (against [] [] ∅ (with_folder_ids None (holding Unassigned)), Ok [])
  /\ Quip.folder_ids (with_folder_ids (H:=scripted []) None (holding Unassigned))
     = Assigned None.
Proof.
  split; [vm_compute; reflexivity|].
  apply (proj1 (folder_ids_after_init (H:=scripted []) 1)
           (against []
              [Replied 200 (JDict [("folders", JList []);
                                   ("response_metadata",
                                    JDict [("next_cursor", JStr "")])])]
              ∅ (holding Unassigned))
           (against [] [] ∅ (with_folder_ids None (holding Unassigned))) []).
  vm_compute. reflexivity.
Defined.

(** ** Edits of a range *)

Section Ranges.
Context `{Externals}.

Lemma raise_reads_only {A} e : reads_only (raise (A:=A) e).
Proof. by intros s s' r [= <- <-]. Qed.

Lemma edit_range_reads_only content location format document_range :
  reads_only (edit_range content location format document_range).
Proof. intros s s' r. rewrite edit_range_sends. apply fetch_reads_only. Qed.

(** X5: given content and a header, the edits of a range are the request
    of [edit_range] itself, with the location of the method; they hand its
    reply back and never assign the markup, the tree or any other
    attribute of the thread, whatever the reply holds. *)
Theorem range_edits_leave_the_thread (content format : json) (header : string) :
  is_none content = false ->
  (forall s : state,
     content_add_after_range content format (Some header) s
       = edit_range content (JInt AFTER_RANGE) format (Some header) s
     /\ content_add_before_range content format (Some header) s
        = edit_range content (JInt BEFORE_RANGE) format (Some header) s
     /\ content_replace_range content format (Some header) s
        = edit_range content (JInt REPLACE_RANGE) format (Some header) s
     /\ content_delete_range (Some header) s
        = edit_range (JStr " ") (JInt DELETE_RANGE) (JStr "markdown") (Some header) s)
  /\ reads_only (content_add_after_range content format (Some header))
  /\ reads_only (content_add_before_range content format (Some header))
  /\ reads_only (content_replace_range content format (Some header))
  /\ reads_only (content_delete_range (Some header)).
Proof.
  intros Hcontent.
  unfold content_add_after_range, content_add_before_range, content_replace_range,
    content_delete_range.
  rewrite Hcontent. cbn [orb]. rewrite bool_decide_eq_false_2 by done.
  repeat split; try reflexivity; try apply edit_range_reads_only;
    by eapply edit_range_reads_only.
Qed.

End Ranges.

Lemma range_edits_leave_the_thread_witness :
  content_replace_range (H:=scripted [(blank_page, blank_page_tree)])
    (JStr "bread") (JStr "markdown") (Some "Shopping")
    (against [(blank_page, blank_page_tree)]
       [Replied 200 (JDict [("html", JStr blank_page)])] ∅
       (holding (Assigned (Some two_items))))
  = Some (against [(blank_page, blank_page_tree)] [] ∅
            (holding (Assigned (Some two_items))),
          Ok (200%Z, JDict [("html", JStr blank_page)])).
Proof.
  destruct (range_edits_leave_the_thread (H:=scripted [(blank_page, blank_page_tree)])
              (JStr "bread") (JStr "markdown") "Shopping" eq_refl) as [Heq _].
  destruct (Heq (against [(blank_page, blank_page_tree)]
       [Replied 200 (JDict [("html", JStr blank_page)])] ∅
       (holding (Assigned (Some two_items))))) as (_ & _ & -> & _).
  vm_compute. reflexivity.
Defined.

(** ** Positions in a list *)

Section Lists.
Context `{Externals}.

Lemma item_id_line line line' (items : list Element) idx r :
  item_id line items idx = Ok r <-> item_id line' items idx = Ok r.
Proof.
  unfold item_id. destruct items as [|i items]; [done|].
  destruct (Py.getitem _ _) as [item|]; [|done].
  by destruct (attrib item !! "id").
Qed.

Lemma getitem_negative {A} (l : list A) (i : nat) :
  0 < i <= length l ->
  Py.getitem l (- Z.of_nat i) = Py.getitem l (Z.of_nat (length l - i)).
Proof.
  intros Hi. unfold Py.getitem.
  replace (0 <=? - Z.of_nat i)%Z with false by (symmetry; apply Z.leb_gt; lia).
  replace (- Z.of_nat (length l) <=? - Z.of_nat i)%Z with true
    by (symmetry; apply Z.leb_le; lia).
  replace (0 <=? Z.of_nat (length l - i))%Z with true
    by (symmetry; apply Z.leb_le; lia).
  f_equal. lia.
Qed.

(** X6: the positions of the items of a list follow Python: a negative
    position [-i] is the position [N - i] of a list of [N] items, so the
    last item is position [-1] and position [N - 1]; the first item is
    position [0].  The lookups of the first and of the last item return an
    anchor exactly when the lookup by that position does. *)
Theorem list_positions_agree (self : Thread) (list_section_id : string)
    (items : list Element) :
  _get_list_item_section_ids self list_section_id = Ok items ->
  (forall i : nat, 0 < i <= length items ->
     _get_nth_list_item_section_id self list_section_id (- Z.of_nat i)
     = _get_nth_list_item_section_id self list_section_id (Z.of_nat (length items - i)))
  /\ (forall anchor,
        _get_first_list_item_section_id self list_section_id = Ok anchor
        <-> _get_nth_list_item_section_id self list_section_id 0 = Ok anchor)
  /\ (forall anchor,
        _get_last_list_item_section_id self list_section_id = Ok anchor
        <-> _get_nth_list_item_section_id self list_section_id (-1) = Ok anchor)
  /\ (items ≠ [] ->
      _get_nth_list_item_section_id self list_section_id (-1)
      = _get_nth_list_item_section_id self list_section_id (Z.of_nat (length items) - 1)).
Proof.
  intros Hitems.
  unfold _get_first_list_item_section_id, _get_last_list_item_section_id,
    _get_nth_list_item_section_id.
  rewrite Hitems. cbn [mbind result_bind].
  split; [|split; [|split]].
  - intros i Hi. unfold item_id. destruct items as [|item items]; [done|].
    by rewrite getitem_negative.
  - intros anchor. apply item_id_line.
  - intros anchor. apply item_id_line.
  - intros Hne. unfold item_id. destruct items as [|item items]; [done|].
    change (-1)%Z with (- Z.of_nat 1)%Z.
    rewrite getitem_negative by (cbn [length]; lia).
    replace (Z.of_nat (length (item :: items)) - 1)%Z
      with (Z.of_nat (length (item :: items) - 1)) by (cbn [length]; lia).
    done.
Qed.

(** X7: on a list that has no items the edits placed by the list or by
    one of its items are not refused: they are the edit without anchor,
    and its request carries no [section_id]. *)
Theorem edit_beside_empty_list (fuel : nat) (s : state) (l : string)
    (list_tree : Element) (content format : json) :
  _get_section_elementTree (self s) l = Ok (Some list_tree) ->
  iter "li" list_tree = [] ->
  is_none content = false ->
  content_add_after_list fuel content format (Some l) s
    = doc_edit_content fuel content (JInt AFTER_SECTION) format None s
  /\ content_add_before_list fuel content format (Some l) s
     = doc_edit_content fuel content (JInt BEFORE_SECTION) format None s
  /\ (forall idx,
        content_insert_after_list_item fuel content format (Some l) (Some idx) s
          = doc_edit_content fuel content (JInt AFTER_SECTION) format None s
        /\ content_replace_list_item fuel content format (Some l) (Some idx) s
           = doc_edit_content fuel content (JInt REPLACE_SECTION) format None s)
  /\ (forall location req,
        request (self s) 1 "threads/edit-document"
          (Some (edit_thread_args (self s) content location format None)) [] = Ok req ->
        dict_get "section_id" (default [] (data req)) = None).
Proof.
  intros Htree Hitems Hcontent.
  assert (forall line idx,
            (items ← _get_list_item_section_ids (self s) l; item_id line items idx)
            = Ok None) as Hnone.
  { intros line idx. unfold _get_list_item_section_ids. rewrite Htree.
    cbn [mbind result_bind]. by rewrite Hitems. }
  unfold content_add_after_list, content_add_before_list,
    content_insert_after_list_item, content_replace_list_item.
  rewrite Hcontent.
  split; [|split; [|split]].
  - rewrite bind_run. cbn [get_self]. rewrite bind_run. cbn [lift].
    unfold _get_last_list_item_section_id. by rewrite Hnone.
  - rewrite bind_run. cbn [get_self]. rewrite bind_run. cbn [lift].
    unfold _get_first_list_item_section_id. by rewrite Hnone.
  - intros idx. split; rewrite bind_run; cbn [get_self]; rewrite bind_run; cbn [lift];
      unfold _get_nth_list_item_section_id; by rewrite Hnone.
  - intros location req Hreq.
    apply (request_last_field (self s) 1 _
             [("thread_id", id_ (self s)); ("content", content); ("location", location);
              ("format", format)] "section_id" JNull [] req Hreq).
    cbn. compute_done.
Qed.

End Lists.

Lemma list_positions_agree_witness :
  _get_nth_list_item_section_id (H:=scripted [])
    (holding (Assigned (Some two_items))) "L" (-2)
  = _get_nth_list_item_section_id (H:=scripted [])
      (holding (Assigned (Some two_items))) "L" 0.
Proof.
  apply (proj1 (list_positions_agree (H:=scripted [])
                  (holding (Assigned (Some two_items))) "L"
                  (iter "li" (el "ul" [("id", "L")] None [
                     el "li" [("id", "a")] (Some "milk") [];
                     el "li" [("id", "b")] (Some "eggs") [] ]))
                  ltac:(vm_compute; reflexivity)) 2).
  vm_compute. lia.
Defined.

Lemma edit_beside_empty_list_witness :
  content_add_after_list (H:=scripted [(blank_page, blank_page_tree)]) 1
    (JStr "bread") (JStr "markdown") (Some "L")
    (against [(blank_page, blank_page_tree)]
       [Replied 200 (JDict [("html", JStr blank_page)])] ∅
       (holding (Assigned (Some no_items))))
  = doc_edit_content (H:=scripted [(blank_page, blank_page_tree)]) 1
      (JStr "bread") (JInt AFTER_SECTION) (JStr "markdown") None
      (against [(blank_page, blank_page_tree)]
         [Replied 200 (JDict [("html", JStr blank_page)])] ∅
         (holding (Assigned (Some no_items)))).
Proof.
  destruct (edit_beside_empty_list (H:=scripted [(blank_page, blank_page_tree)]) 1
              (against [(blank_page, blank_page_tree)]
                 [Replied 200 (JDict [("html", JStr blank_page)])] ∅
                 (holding (Assigned (Some no_items))))
              "L" (el "ul" [("id", "L")] None []) (JStr "bread") (JStr "markdown"))
    as [Hafter _]; [vm_compute; reflexivity..|].
  exact Hafter.
Defined.

(** ** The markup of a row *)

Section Rendering.

Lemma concat_cons (x : string) (l : list string) :
  String.concat "" (x :: l) = x +:+ String.concat "" l.
Proof. destruct l; [by rewrite append_nil_r|done]. Qed.

Lemma td_split (a b : string) : td (a +:+ "</td><td>" +:+ b) = td a +:+ td b.
Proof. unfold td. by rewrite !append_assoc. Qed.

(** X8: [_list_to_html] writes the cells as they are, without escaping:
    a cell whose text holds the markup that closes a cell and opens the
    next gives the markup of two cells. *)
Theorem row_markup_is_not_escaped (a b : string) (before after : list string) :
  _list_to_html [before ++ (a +:+ "</td><td>" +:+ b) :: after]
  = _list_to_html [before ++ a :: b :: after].
Proof.
  unfold _list_to_html. cbn [fmap list_fmap]. rewrite !concat_cons. f_equal.
  unfold tr. do 2 f_equal.
  induction before as [|c before IH].
  - cbn [app fmap list_fmap]. rewrite !concat_cons, td_split. by rewrite append_assoc.
  - cbn [app fmap list_fmap]. rewrite !concat_cons. f_equal. apply IH.
Qed.

End Rendering.

(** ** Keys of columns *)

Section ColumnKeys.

Implicit Types (header_items : list (option string)) (default : option nat).

Lemma index_first {A} `{EqDecision A} (x : A) (pre post : list A) :
  x ∉ pre -> index x (pre ++ x :: post) = Some (length pre).
Proof.
  induction pre as [|y pre IH]; intros Hx; cbn.
  - by rewrite decide_True.
  - apply not_elem_of_cons in Hx as [Hne Hx].
    rewrite decide_False by done. by rewrite IH.
Qed.

(** X9: a header cell without text is compared as the text "None": a key
    that reads "none" in whatever case, and that is the text of no header,
    resolves to the first such cell when no header before it reads
    "none". *)
Theorem textless_header_answers_to_none header_items pre post (k : string) default :
  header_items = pre ++ None :: post ->
  lower k = "none" ->
  Some k ∉ header_items ->
  (forall h, h ∈ pre -> lower (str_of_opt h) ≠ "none") ->
  _get_col_name_index header_items (KStr k) default = Some (length pre).
Proof.
  intros -> Hk Hex Hpre.
  assert (lower_headers (pre ++ None :: post)
          = lower_headers pre ++ "none" :: lower_headers post) as Hlow.
  { unfold lower_headers. by rewrite fmap_app. }
  rewrite col_caseless; [| by destruct k | done |].
  - rewrite Hk, Hlow. rewrite index_first.
    + unfold lower_headers. by rewrite length_fmap.
    + intros Hin. apply list_elem_of_fmap in Hin as (h & Hh & Hin).
      by apply (Hpre h).
  - rewrite Hk, Hlow. apply elem_of_app. right. by left.
Qed.

Lemma textless_header_answers_to_none_witness :
  _get_col_name_index [Some "#"; None; Some "Billed"] (KStr "None") (Some 0) = Some 1.
Proof.
  apply (textless_header_answers_to_none [Some "#"; None; Some "Billed"]
           [Some "#"] [Some "Billed"] "None" (Some 0)).
  - reflexivity.
  - reflexivity.
  - compute_done.
  - intros h Hh. apply list_elem_of_In in Hh. destruct Hh as [<-|[]]. vm_compute. discriminate.
Defined.

(** *** Numbers as keys *)

Lemma int_acc_of_uint (d : Decimal.uint) (acc : nat) :
  int_acc acc (NilEmpty.string_of_uint d) = Nat.of_uint_acc d acc.
Proof.
  revert acc. induction d; intros acc; cbn [NilEmpty.string_of_uint Nat.of_uint_acc];
    [done|..]; cbn [int_acc]; rewrite IHd; f_equal; rewrite Nat.tail_mul_spec;
    vm_compute (ord _ - ord _); lia.
Qed.

Lemma str_all_of_uint (d : Decimal.uint) :
  str_all char_isdigit (NilEmpty.string_of_uint d) = true.
Proof. induction d; cbn; [done|..]; exact IHd. Qed.

Lemma of_lu_N (d : Decimal.uint) :
  N.of_nat (DecimalNat.Unsigned.of_lu d) = DecimalPos.Unsigned.of_lu d.
Proof.
  induction d; cbn [DecimalNat.Unsigned.of_lu DecimalPos.Unsigned.of_lu]; [done|..];
    rewrite <- IHd; lia.
Qed.

Lemma of_uint_pos (p : positive) : Nat.of_uint (Pos.to_uint p) = Pos.to_nat p.
Proof.
  apply Nat2N.inj. rewrite DecimalNat.Unsigned.of_uint_alt, of_lu_N.
  rewrite <- DecimalPos.Unsigned.of_uint_alt, DecimalPos.Unsigned.of_to.
  by rewrite positive_nat_N.
Qed.

Lemma str_of_int_pos (p : positive) :
  str_of_int (Z.pos p) = NilEmpty.string_of_uint (Pos.to_uint p).
Proof.
  unfold str_of_int. cbn [Z.to_int NilZero.string_of_int].
  unfold NilZero.string_of_uint.
  pose proof (DecimalPos.Unsigned.to_uint_nonnil p) as Hnil.
  by destruct (Pos.to_uint p).
Qed.

(** [int(str(n)) == n] and [str(n).isdigit()] for a positive [n]. *)
Lemma int_str (n : nat) :
  0 < n -> isdigit (str_of_int (Z.of_nat n)) = true /\ int (str_of_int (Z.of_nat n)) = n.
Proof.
  intros Hn. destruct n as [|n]; [lia|].
  assert (Z.of_nat (S n) = Z.pos (Pos.of_succ_nat n)) as -> by lia.
  rewrite str_of_int_pos. split.
  - unfold isdigit. rewrite str_all_of_uint, andb_true_r.
    pose proof (DecimalPos.Unsigned.to_uint_nonnil (Pos.of_succ_nat n)) as Hnil.
    by destruct (Pos.to_uint (Pos.of_succ_nat n)).
  - unfold int. rewrite int_acc_of_uint. fold (Nat.of_uint (Pos.to_uint (Pos.of_succ_nat n))).
    rewrite of_uint_pos. lia.
Qed.

(** X10: a positive number [n], given as an [int] or as its decimal
    text, that is the text of no header resolves to the index [n] itself,
    whatever the number of headers. *)
Theorem numeric_key_is_its_index header_items (n : nat) default :
  0 < n ->
  Some (str_of_int (Z.of_nat n)) ∉ header_items ->
  str_of_int (Z.of_nat n) ∉ lower_headers header_items ->
  _get_col_name_index header_items (KInt (Z.of_nat n)) default = Some n
  /\ _get_col_name_index header_items (KStr (str_of_int (Z.of_nat n))) default = Some n.
Proof.
  intros Hn Hex Hlow. destruct (int_str n Hn) as [Hdigit Hint].
  assert (lower (str_of_int (Z.of_nat n)) = str_of_int (Z.of_nat n)) as Hlower.
  { destruct n as [|n]; [lia|].
    assert (Z.of_nat (S n) = Z.pos (Pos.of_succ_nat n)) as -> by lia.
    rewrite str_of_int_pos. generalize (Pos.to_uint (Pos.of_succ_nat n)).
    intros d. induction d; cbn; [done|..]; by rewrite IHd. }
  assert (_get_col_name_index header_items (KStr (str_of_int (Z.of_nat n))) default
          = Some n) as Hstr.
  { rewrite col_numeric; [by rewrite Hint|done| |done]. by rewrite Hlower. }
  split; [|done].
  unfold _get_col_name_index in *. cbn [key_truthy str] in *.
  replace (negb (Z.of_nat n =? 0)%Z) with true
    by (symmetry; apply negb_true_iff, Z.eqb_neq; lia).
  replace (str_truthy (str_of_int (Z.of_nat n))) with true in Hstr; [done|].
  unfold isdigit in Hdigit. by apply andb_true_iff in Hdigit as [-> _].
Qed.

Lemma numeric_key_is_its_index_witness :
  _get_col_name_index [Some "Date"; Some "Amount"] (KInt 7) None = Some 7.
Proof.
  apply (proj1 (numeric_key_is_its_index [Some "Date"; Some "Amount"] 7 None
                  ltac:(lia) ltac:(compute_done) ltac:(compute_done))).
Defined.

End ColumnKeys.

(** ** The row that a search finds *)

Section RowSearch.
Context `{Externals}.

Lemma find_row_app index value (pre rows : list Element) :
  find_row index value pre = Ok None ->
  find_row index value (pre ++ rows) = find_row index value rows.
Proof.
  induction pre as [|row pre IH]; [done|]. cbn [find_row app].
  destruct (len row <=? index); [done|].
  destruct (children row !! index) as [cell|]; [|done].
  destruct (negb _); [done|].
  destruct (itertext cell) as [|first texts]; [done|].
  by case_bool_decide.
Qed.

Lemma find_row_matches index value row (rows : list Element) :
  matches index value row -> find_row index value (row :: rows) = Ok (Some row).
Proof.
  intros (cell & first & texts & Hcell & Htag & Htext & Hlow). cbn [find_row].
  replace (len row <=? index) with false
    by (symmetry; apply Nat.leb_gt; by apply lookup_lt_Some in Hcell).
  rewrite Hcell, bool_decide_eq_true_2 by done. cbn [negb].
  rewrite Htext. by rewrite bool_decide_eq_true_2.
Qed.

Lemma find_row_first index value (rows : list Element) row :
  find_row index value rows = Ok (Some row)
  <-> exists pre post,
        rows = pre ++ row :: post
        /\ find_row index value pre = Ok None
        /\ matches index value row.
Proof.
  split.
  - induction rows as [|r rows IH]; [done|]. cbn [find_row].
    assert (find_row index value rows = Ok (Some row) ->
            find_row index value [r] = Ok None ->
            exists pre post, r :: rows = pre ++ row :: post
              /\ find_row index value pre = Ok None /\ matches index value row) as Hskip.
    { intros Hrest Hr. destruct (IH Hrest) as (pre & post & -> & Hpre & Hm).
      exists (r :: pre), post. split; [done|]. split; [|done].
      change (r :: pre) with ([r] ++ pre). by rewrite find_row_app. }
    cbn [find_row] in Hskip.
    destruct (len r <=? index) eqn:Hlen; [by intros ?; apply Hskip|].
    destruct (children r !! index) as [cell|] eqn:Hcell; [|done].
    case_bool_decide as Htag; cbn [negb] in *; [|by intros ?; apply Hskip].
    destruct (itertext cell) as [|first texts] eqn:Htext; [done|].
    case_bool_decide as Hlow; [|by intros ?; apply Hskip].
    intros [= <-]. exists [], rows. split; [done|]. split; [done|].
    by exists cell, first, texts.
  - intros (pre & post & -> & Hpre & Hm).
    rewrite find_row_app by done. by apply find_row_matches.
Qed.

(** X11: [_find_row_tree] returns a row exactly when that row is the
    first row of the sheet, the header row included, whose cell in the
    searched column is a [td] with the searched value as its first text,
    whatever the case, and every [td] cell of that column in the rows
    before has a first text, which differs. *)
Theorem row_search_returns_first_match (sheet_tree : Element) (header : key)
    (value : string) (row : Element) :
  _find_row_tree (Some sheet_tree) header value = Ok (Some row)
  <-> exists headers index pre post,
        _get_sheet_tree_col_names (Some sheet_tree) = Ok headers
        /\ _get_col_name_index headers header (Some 0) = Some index
        /\ iterfind_tag "tr" sheet_tree = pre ++ row :: post
        /\ matches index value row
        /\ (forall r cell, r ∈ pre -> children r !! index = Some cell ->
              tag cell = "td" ->
              exists first, head (itertext cell) = Some first
                            /\ lower first ≠ lower value).
Proof.
  unfold _find_row_tree.
  destruct (_get_sheet_tree_col_names (Some sheet_tree)) as [headers|e] eqn:Hh;
    cbn [mbind result_bind].
  - destruct (col_index_default headers header 0) as [index Hindex]. rewrite Hindex.
    rewrite find_row_first. split.
    + intros (pre & post & Hrows & Hpre & Hm). exists headers, index, pre, post.
      repeat split; try done. by apply find_row_none.
    + intros (headers' & index' & pre & post & [= <-] & Hi & Hrows & Hm & Hpre).
      rewrite Hindex in Hi. injection Hi as <-. exists pre, post.
      repeat split; try done. by apply find_row_none.
  - split; [done|]. by intros (? & ? & ? & ? & ? & _).
Qed.

End RowSearch.

(** The header row is searched like any other row. *)
Example header_row_is_found :
  _find_row_tree (Some (table_of customers)) (KStr "customer") "Customer"
  = Ok (head (iterfind_tag "tr" (table_of customers))).
Proof. vm_compute. reflexivity. Qed.

Section FoundRow.
Context `{Externals}.

#[local] Existing Instance same_objects_refl.
#[local] Existing Instance same_objects_trans.

Lemma update_cells_same_objects fuel headers section_ids updates response :
  keeps same_objects (update_cells fuel headers section_ids updates response).
Proof.
  revert response. induction updates as [|[head val] updates IH]; intros response;
    cbn [update_cells]; [apply keeps_ret|].
  destruct (_get_col_name_index headers head (Some 0)) as [[|index]|]; [apply IH| |apply IH].
  destruct (section_ids !! S index) as [[|c id]|]; [apply IH| |apply IH].
  apply keeps_bind; [apply sheet_edit_same_objects|intros status; apply IH].
Qed.

Lemma update_cells_skipped fuel headers section_ids updates response (s : state) :
  Forall (fun update => skipped headers section_ids update.1) updates ->
  update_cells fuel headers section_ids updates response s = Some (s, Ok response).
Proof.
  induction updates as [|[head val] updates IH]; intros Hall; [done|].
  apply Forall_cons in Hall as [Hskip Hall]. cbn [update_cells].
  unfold skipped in Hskip. cbn [fst] in Hskip.
  destruct (_get_col_name_index headers head (Some 0)) as [[|index]|]; [by apply IH| |by apply IH].
  destruct (Hskip (S index) eq_refl) as [?|Hid]; [done|].
  destruct (section_ids !! S index) as [[|c id]|]; [by apply IH|done|by apply IH].
Qed.


End FoundRow.


(** ** Parsed sheets *)

Section ParsedSheets.
Context `{Externals}.

Lemma dict_set_keys {K V} `{EqDecision K} (k : K) (v : V) (d : list (K * V)) :
  keys (dict_set k v d) = if bool_decide (k ∈ keys d) then keys d else keys d ++ [k].
Proof.
  unfold keys. induction d as [|[k' v'] d IH]; [done|]. cbn.
  destruct (decide (k' = k)) as [->|Hne].
  - rewrite bool_decide_eq_true_2; [done|by left].
  - cbn. rewrite IH. case_bool_decide as Hin.
    + rewrite bool_decide_eq_true_2; [done|by right].
    + rewrite bool_decide_eq_false_2; [done|].
      intros [?|?]%elem_of_cons; by simplify_eq.
Qed.

Lemma dict_set_NoDup {K V} `{EqDecision K} (k : K) (v : V) (d : list (K * V)) :
  NoDup (keys d) -> NoDup (keys (dict_set k v d)).
Proof.
  intros Hnd. rewrite dict_set_keys. case_bool_decide as Hin; [done|].
  apply NoDup_app. split; [done|]. split; [|apply NoDup_singleton].
  intros x Hx ->%list_elem_of_singleton. done.
Qed.

Lemma dict_set_nonempty {K V} `{EqDecision K} (k : K) (v : V) (d : list (K * V)) :
  dict_set k v d ≠ [].
Proof. destruct d as [|[k' v'] d]; [done|]. cbn. by destruct (decide (k' = k)). Qed.

Lemma cells_of_keys headers i (row : list Element) cells cells' :
  cells_of headers i row cells = Ok cells' ->
  NoDup (keys cells) -> keys cells ⊆ headers ->
  NoDup (keys cells') /\ keys cells' ⊆ headers.
Proof.
  revert i cells. induction row as [|cell row IH]; intros i cells.
  - by intros [= <-].
  - cbn [cells_of]. destruct (negb _); [apply IH|].
    destruct (cell_data cell) as [data|]; [|done]. cbn [mbind result_bind].
    destruct (headers !! i) as [header|] eqn:Hi; [|done].
    intros Hrest Hnd Hsub. apply (IH _ _ Hrest); [by apply dict_set_NoDup|].
    rewrite dict_set_keys. case_bool_decide; [done|].
    intros x [?| ->%list_elem_of_singleton]%elem_of_app; [by apply Hsub|].
    by eapply list_elem_of_lookup_2.
Qed.

Lemma rows_of_rows headers (rows : list Element) parsed :
  rows_of headers rows = Ok parsed ->
  (row_id <$> parsed) `sublist_of` ((fun row => attrib row !! "id") <$> rows)
  /\ Forall (fun row => row_cells row ≠ []
                        /\ NoDup (keys (row_cells row))
                        /\ keys (row_cells row) ⊆ headers) parsed.
Proof.
  revert parsed. induction rows as [|row rows IH]; intros parsed.
  - intros [= <-]. by split.
  - cbn [rows_of].
    destruct (cells_of headers 0 (children row) []) as [cells|] eqn:Hcells; [|done].
    cbn [mbind result_bind].
    destruct (rows_of headers rows) as [more|]; [|done]. cbn [mbind result_bind].
    destruct (IH more eq_refl) as [Hsub Hall].
    apply cells_of_keys in Hcells as [Hnd Hk]; [|apply NoDup_nil_2|by intros x ?%elem_of_nil].
    intros [= <-]. destruct cells as [|c cells].
    + split; [by apply sublist_cons|done].
    + split; [cbn; by apply sublist_skip|]. by apply Forall_cons.
Qed.

(** X13: a sheet that [parse_sheet_contents] returns has the anchor of
    the table and the texts of its first row as headers; its rows are rows
    of the table in their order, each with at least one cell, and the
    cells of a row are filed under distinct headers of the sheet. *)
Theorem parsed_sheet_is_well_formed (self : Thread) (sheet_name : option string)
    (sheet_tree : Element) (sheet : Sheet) :
  _sheet_name_to_tree self sheet_name = Ok (Some sheet_tree) ->
  parse_sheet_contents self sheet_name = Ok sheet ->
  sheet_id sheet = attrib sheet_tree !! "id"
  /\ _get_sheet_tree_col_names (Some sheet_tree) = Ok (sheet_headers sheet)
  /\ (row_id <$> sheet_rows sheet)
       `sublist_of` ((fun row => attrib row !! "id") <$> iterfind_tag "tr" sheet_tree)
  /\ Forall (fun row => row_cells row ≠ []
                        /\ NoDup (keys (row_cells row))
                        /\ keys (row_cells row) ⊆ sheet_headers sheet)
            (sheet_rows sheet).
Proof.
  intros Htree. unfold parse_sheet_contents. rewrite Htree.
  cbn [mbind result_bind].
  destruct (_get_sheet_tree_col_names (Some sheet_tree)) as [headers|]; [|done].
  cbn [mbind result_bind].
  destruct (rows_of headers (iterfind_tag "tr" sheet_tree)) as [rows|] eqn:Hrows; [|done].
  cbn [mbind result_bind]. intros [= <-]. cbn.
  split; [done|]. split; [done|]. by apply rows_of_rows.
Qed.

End ParsedSheets.

Lemma parsed_sheet_is_well_formed_witness :
  exists sheet,
    parse_sheet_contents (H:=scripted []) (holding (Assigned (Some customers)))
      (Some "Sheet1") = Ok sheet
    /\ (row_id <$> sheet_rows sheet)
         `sublist_of` ((fun row => attrib row !! "id")
                         <$> iterfind_tag "tr" (table_of customers))
    /\ Forall (fun row => row_cells row ≠ []
                          /\ NoDup (keys (row_cells row))
                          /\ keys (row_cells row) ⊆ sheet_headers sheet)
              (sheet_rows sheet).
Proof.
  eexists. split; [vm_compute; reflexivity|].
  exact (proj2 (proj2 (parsed_sheet_is_well_formed (H:=scripted [])
                         (holding (Assigned (Some customers))) (Some "Sheet1")
                         (table_of customers) _
                         ltac:(vm_compute; reflexivity) ltac:(vm_compute; reflexivity)))).
Defined.

Section Colours.

Lemma index_sharp (before after : string) :
  contains_char "#" before = false ->
  String.index 0 "#" (before +:+ String "#" after) = Some (String.length before).
Proof.
  induction before as [|c before IH]; intros Hc; [by destruct after|].
  cbn in Hc. apply orb_false_iff in Hc as [Hc Hrest].
  rewrite append_cons. cbn [String.index String.prefix String.length].
  destruct (ascii_dec "#" c) as [<-|_]; [by rewrite Ascii.eqb_refl in Hc|].
  by rewrite (IH Hrest).
Qed.

Lemma substring_skip (before after : string) n :
  substring (String.length before) n (before +:+ after) = substring 0 n after.
Proof. induction before as [|c before IH]; [done|]. rewrite append_cons. apply IH. Qed.

(** X14: the colour of a cell whose style declares a background colour is
    the six characters after the first [#] of the style, wherever the
    declaration stands. *)
Theorem colour_follows_first_sharp (before after : string) :
  contains_char "#" before = false ->
  contains "background-color:#" (before +:+ String "#" after) = true ->
  color (Some (before +:+ String "#" after)) = Some (substring 0 6 after).
Proof.
  intros Hbefore Hdecl. unfold color.
  assert (str_truthy (before +:+ String "#" after) = true) as -> by by destruct before.
  rewrite Hdecl. cbn [andb]. rewrite index_sharp by done. cbn [mbind option_bind].
  f_equal. replace (String.length before + 1) with (String.length (before +:+ "#")).
  - rewrite <- (substring_skip (before +:+ "#") after).
    by rewrite append_assoc.
  - rewrite append_length. done.
Qed.

End Colours.

Lemma colour_follows_first_sharp_witness :
  color (Some "color:#FF0000;background-color:#00FF00") = Some "FF0000".
Proof.
  apply (colour_follows_first_sharp "color:" "FF0000;background-color:#00FF00");
    reflexivity.
Defined.

(** ** Rows added at a position *)

Section RowPositions.
Context `{Externals}.

(** X15: in a sheet that has rows, adding a row at a position outside
    the rows raises the [IndexError] of line 772 before any request is
    made; so does [sheet_row_prepend] on a sheet that has one row only,
    since it places the row before the second one. *)
Theorem row_position_out_of_range (fuel : nat) (s : state) (row : row_update)
    (sheet_name : option string) (sheet_tree : Element) :
  _sheet_name_to_tree (self s) sheet_name = Ok (Some sheet_tree) ->
  iter "tr" sheet_tree ≠ [] ->
  (forall idx location,
     (idx < - Z.of_nat (length (iter "tr" sheet_tree))
      \/ Z.of_nat (length (iter "tr" sheet_tree)) <= idx)%Z ->
     _sheet_add_row fuel row sheet_name (Some idx) location s
       = Some (s, Raise (IndexError 772))
     /\ sheet_row_insert_before fuel row sheet_name (Some idx) s
        = Some (s, Raise (IndexError 772))
     /\ sheet_row_insert_after fuel row sheet_name (Some idx) s
        = Some (s, Raise (IndexError 772)))
  /\ (length (iter "tr" sheet_tree) = 1 ->
      sheet_row_prepend fuel row sheet_name s = Some (s, Raise (IndexError 772))).
Proof.
  intros Htree Hrows.
  assert (forall idx location,
            (idx < - Z.of_nat (length (iter "tr" sheet_tree))
             \/ Z.of_nat (length (iter "tr" sheet_tree)) <= idx)%Z ->
            _sheet_add_row fuel row sheet_name (Some idx) location s
            = Some (s, Raise (IndexError 772))) as Hadd.
  { intros idx location Hidx. unfold _sheet_add_row.
    rewrite bind_run. cbn [get_self]. rewrite bind_run. cbn [lift]. rewrite Htree.
    rewrite bind_run. cbn [lift]. unfold _get_nth_row_section_id, item_id.
    destruct (iter "tr" sheet_tree) as [|r rows]; [done|].
    by rewrite getitem_out_of_range. }
  split.
  - intros idx location Hidx. unfold sheet_row_insert_before, sheet_row_insert_after.
    by rewrite !Hadd.
  - intros Hone. unfold sheet_row_prepend, _sheet_add_row.
    rewrite bind_run. cbn [get_self]. rewrite bind_run. cbn [lift]. rewrite Htree.
    rewrite bind_run. cbn [lift]. rewrite bool_decide_eq_true_2 by done.
    unfold _get_nth_row_section_id, item_id.
    destruct (iter "tr" sheet_tree) as [|r rows]; [done|].
    rewrite getitem_out_of_range; [done|]. rewrite Hone. right. lia.
Qed.

End RowPositions.

Lemma row_position_out_of_range_witness :
  sheet_row_insert_after (H:=scripted []) 1 (RowList ["2"; "Acme"]) (Some "Sheet1")
    (Some 2%Z) (against [] [] ∅ (holding (Assigned (Some customers))))
  = Some (against [] [] ∅ (holding (Assigned (Some customers))), Raise (IndexError 772)).
Proof.
  destruct (row_position_out_of_range (H:=scripted []) 1
              (against [] [] ∅ (holding (Assigned (Some customers))))
              (RowList ["2"; "Acme"]) (Some "Sheet1") (table_of customers)
              ltac:(vm_compute; reflexivity) ltac:(vm_compute; discriminate))
    as [Hout _].
  destruct (Hout 2%Z None ltac:(vm_compute; right; discriminate)) as (_ & _ & Hafter).
  exact Hafter.
Defined.

Section AddedRows.
Context `{Externals}.


End AddedRows.


(** ** What an edit leaves behind *)

Section Refresh.
Context `{Externals}.

Lemma set_tree_run (markup : json) (s : state) :
  match parse markup with
  | Ok tree => set_content_tree (Some tree)
  | Raise _ => set_content_tree None
  end s = Some (put s (with_content_tree (tree_of markup) (self s)), Ok tt).
Proof. unfold tree_of. by destruct (parse markup). Qed.

Lemma doc_reload_markup fuel (markup : json) md (s : state) :
  Json.truthy markup = true -> markdownify markup = Ok md ->
  QuipDocument.reload_content fuel markup s = Some (put s (refreshed markup md (self s)), Ok tt).
Proof.
  intros Hm Hmd. unfold QuipDocument.reload_content. rewrite Hm.
  rewrite bind_run. unfold set_content_html. rewrite bind_run.
  cbn [get_self set_self]. rewrite bind_run. cbn [get_self self put].
  cbn [with_content_html content_html]. rewrite bind_run, set_tree_run.
  rewrite bind_run. cbn [get_self]. rewrite bind_run.
  cbn [lift content_html with_content_html with_content_tree self put].
  rewrite Hmd. reflexivity.
Qed.

(** X17: the request of an edit leaves the thread object as it is.  When
    the reply is not a dictionary, [doc_edit_content] and
    [sheet_edit_content] return the status and change nothing.  When the
    reply carries markup, [doc_edit_content] stores that markup, its tree
    ([None] when it does not parse) and its Markdown, without a further
    request, and keeps the other attributes. *)
Theorem edit_reply_refreshes_thread (fuel : nat) (content location format : json)
    (section_id : option string) (s s1 : state) (status : Z) (body : json) :
  edit_thread content location format section_id s = Some (s1, Ok (status, body)) ->
  self s1 = self s
  /\ objects s1 = objects s
  /\ (isinstance_dict body = false ->
      doc_edit_content fuel content location format section_id s = Some (s1, Ok status)
      /\ sheet_edit_content fuel content location format section_id s
         = Some (s1, Ok status))
  /\ (forall d markup md,
        body = JDict d -> dict_get "html" d = Some markup ->
        Json.truthy markup = true -> markdownify markup = Ok md ->
        doc_edit_content fuel content location format section_id s
        = Some (put s1 (refreshed markup md (self s)), Ok status)).
Proof.
  intros Hedit.
  pose proof (edit_thread_reads_only _ _ _ _ _ _ _ Hedit) as [Hself Hobjects].
  split; [done|]. split; [done|]. split.
  - intros Hbody. unfold doc_edit_content, sheet_edit_content.
    rewrite !(bind_ok _ _ _ _ _ Hedit). by rewrite Hbody.
  - intros d markup md -> Hhtml Hm Hmd. unfold doc_edit_content.
    rewrite (bind_ok _ _ _ _ _ Hedit). cbn [isinstance_dict].
    rewrite bind_run, bind_run. cbn [lift Json.get]. rewrite Hhtml.
    cbn [default from_option]. unfold id.
    rewrite (doc_reload_markup fuel markup md s1 Hm Hmd). by rewrite Hself.
Qed.

End Refresh.

Lemma edit_reply_refreshes_thread_witness :
  doc_edit_content (H:=scripted []) 1 (JStr "bread") (JInt REPLACE_SECTION)
    (JStr "markdown") (Some "a")
    (against [] [Replied 200 (JList [])] ∅ (holding (Assigned (Some two_items))))
  = Some (against [] [] ∅ (holding (Assigned (Some two_items))), Ok 200%Z).
Proof.
  destruct (edit_reply_refreshes_thread (H:=scripted []) 1 (JStr "bread")
              (JInt REPLACE_SECTION) (JStr "markdown") (Some "a")
              (against [] [Replied 200 (JList [])] ∅ (holding (Assigned (Some two_items))))
              (against [] [] ∅ (holding (Assigned (Some two_items)))) 200 (JList [])
              ltac:(vm_compute; reflexivity)) as (_ & _ & Hstale & _).
  exact (proj1 (Hstale eq_refl)).
Defined.

Section SheetReload.
Context `{Externals}.

Lemma sheet_reload_first_steps fuel (html : json) (s s1 : state) :
  (if Json.truthy html then set_content_html html
   else h ← _get_thread_html fuel; set_content_html h) s = Some (s1, Ok tt) ->
  exists markup,
    self s1 = with_content_html markup (self s)
    /\ objects s1 = objects s
    /\ (Json.truthy html = true -> markup = html /\ world s1 = world s).
Proof.
  destruct (Json.truthy html).
  - unfold set_content_html. rewrite bind_run. cbn [get_self set_self].
    intros [= <-]. by exists html.
  - rewrite bind_run.
    destruct (_get_thread_html fuel s) as [[s0 [h|e]]|] eqn:Hh; [| |done]; [|done].
    apply thread_html_loop_reads_only in Hh as [Hs Ho].
    unfold set_content_html. rewrite bind_run. cbn [get_self set_self].
    intros [= <-]. exists h. cbn. by rewrite Hs, Ho.
Qed.

(** X18: after a reload of a spreadsheet, [sheet_names] holds the names
    of the sheets as they were before the reload, while
    [content_sheet_dataframes] holds the sheets read from the new
    markup. *)
Theorem sheet_reload_keeps_old_names (fuel : nat) (html : json) (s s' : state) :
  QuipSpreadSheet.reload_content fuel html s = Some (s', Ok tt) ->
  exists old dataframes,
    content_sheet_dataframes (self s) = Some old
    /\ sheet_names (self s') = Some (keys old)
    /\ _get_sheets_as_dataframes (self s') = Ok dataframes
    /\ content_sheet_dataframes (self s') = Some dataframes.
Proof.
  unfold QuipSpreadSheet.reload_content. rewrite bind_run.
  destruct ((if Json.truthy html then set_content_html html
             else h ← _get_thread_html fuel; set_content_html h) s)
    as [[s1 [[]|e]]|] eqn:Hfirst; [| |done]; [|done].
  apply sheet_reload_first_steps in Hfirst as (markup & Hself & _ & _).
  rewrite bind_run. cbn [get_self]. rewrite bind_run, set_tree_run.
  rewrite bind_run. cbn [get_self]. rewrite bind_run. cbn [lift self put].
  rewrite Hself.
  cbn [content_sheet_dataframes with_content_tree with_content_html content_html].
  destruct (content_sheet_dataframes (self s)) as [old|]; [|done].
  rewrite bind_run. unfold set_sheets at 1. rewrite bind_run. cbn [get_self set_self].
  rewrite bind_run. cbn [get_self]. rewrite bind_run. cbn [lift self put].
  match goal with |- context [_get_sheets_as_dataframes ?t] =>
    destruct (_get_sheets_as_dataframes t) as [dataframes|] eqn:Hdf; [|done] end.
  rewrite bind_run. unfold set_sheets at 1. rewrite bind_run. cbn [get_self set_self].
  rewrite bind_run. cbn [get_self]. rewrite bind_run. cbn [lift self put].
  match goal with |- context [_get_sheets_as_json ?t] =>
    destruct (_get_sheets_as_json t) as [sheets|] eqn:Hjs; [|done] end.
  unfold set_sheets. rewrite bind_run. cbn [get_self set_self].
  intros [= <-]. exists old, dataframes. split; [done|]. split; [done|]. split; [|done].
  exact Hdf.
Qed.


End SheetReload.


Lemma sheet_reload_keeps_old_names_witness :
  exists s',
    QuipSpreadSheet.reload_content (H:=scripted []) 1 (JStr blank_page)
      (against [] [] ∅
         (with_sheets (H:=scripted []) (Some []) (Some [("Sheet1", tt)]) (Some [])
            (holding (Assigned (Some customers)))))
    = Some (s', Ok tt)
    /\ sheet_names (self s') = Some ["Sheet1"]
    /\ content_sheet_dataframes (self s') = Some [].
Proof.
  destruct (QuipSpreadSheet.reload_content (H:=scripted []) 1 (JStr blank_page)
      (against [] [] ∅
         (with_sheets (H:=scripted []) (Some []) (Some [("Sheet1", tt)]) (Some [])
            (holding (Assigned (Some customers))))))
    as [[s' [[]|e]]|] eqn:Hrun; [|vm_compute in Hrun; discriminate..].
  exists s'. split; [done|].
  destruct (sheet_reload_keeps_old_names (H:=scripted []) _ _ _ _ Hrun)
    as (old & dataframes & Hold & Hnames & Hdf & Hdfs).
  cbn in Hold. injection Hold as <-. split; [exact Hnames|].
  clear -Hrun. vm_compute in Hrun. injection Hrun as <-. reflexivity.
Defined.

(** ** Cells by address *)

Section Addresses.
Context `{Externals}.

Lemma split_no_sep (sep : ascii) (s : string) :
  contains_char sep s = false -> split sep s = [s].
Proof.
  induction s as [|c s IH]; [done|]. cbn. intros Hc.
  apply orb_false_iff in Hc as [-> Hs]. by rewrite IH.
Qed.

Lemma split_pair (sep : ascii) (a b : string) :
  contains_char sep a = false ->
  split sep (a +:+ String sep b) = a :: split sep b.
Proof.
  induction a as [|c a IH]; intros Hc.
  - rewrite append_nil_l. cbn [split]. by rewrite Ascii.eqb_refl.
  - cbn in Hc. apply orb_false_iff in Hc as [Hc Ha].
    rewrite append_cons. cbn [split]. rewrite Hc. by rewrite IH.
Qed.

(** X20: [sheet_update_cells] reads an address "column:row" against the
    parsed sheets: the row is counted from 1 among the parsed rows of the
    named sheet, the row number 0 names the last row, and the column must
    be the text of a header as it stands.  It replaces the cell so named;
    a column that is the text of no header of the row raises [KeyError], a
    row outside the sheet [IndexError] and a missing sheet name
    [KeyError], each before any request. *)
Theorem cell_address_resolution (fuel : nat) (s : state) (name col row : string)
    (n : Z) (update_val : json) sheets sheet :
  contains_char ":" col = false ->
  contains_char ":" row = false ->
  int_of_str row = Some n ->
  content_sheet_json (self s) = Some sheets ->
  dict_get name sheets = Some sheet ->
  let address := col +:+ String ":" row in
  (forall r cell,
     Py.getitem (sheet_rows sheet) (n - 1) = Some r ->
     dict_get (Some col) (row_cells r) = Some cell ->
     sheet_update_cells fuel (Some name) (Some address) update_val s
     = sheet_edit_content fuel update_val (JInt REPLACE_SECTION) (JStr "markdown")
         (cell_id cell) s)
  /\ (forall r, n = 0%Z -> last (sheet_rows sheet) = Some r ->
        Py.getitem (sheet_rows sheet) (n - 1) = Some r)
  /\ (forall r,
        Py.getitem (sheet_rows sheet) (n - 1) = Some r ->
        dict_get (Some col) (row_cells r) = None ->
        sheet_update_cells fuel (Some name) (Some address) update_val s
        = Some (s, Raise (KeyError 914)))
  /\ ((n - 1 < - Z.of_nat (length (sheet_rows sheet))
       \/ Z.of_nat (length (sheet_rows sheet)) <= n - 1)%Z ->
      sheet_update_cells fuel (Some name) (Some address) update_val s
      = Some (s, Raise (IndexError 914)))
  /\ sheet_update_cells fuel None (Some address) update_val s
     = Some (s, Raise (KeyError 914)).
Proof.
  intros Hcol Hrow Hint Hsheets Hsheet address.
  assert (split ":" address = [col; row]) as Hsplit.
  { unfold address. rewrite split_pair by done. by rewrite split_no_sep. }
  unfold sheet_update_cells. rewrite Hsplit, Hint.
  split; [|split; [|split; [|split]]].
  - intros r cell Hr Hcell. rewrite bind_run. cbn [get_self]. rewrite bind_run.
    cbn [lift]. unfold addressed_cell. rewrite Hsheets. cbn [mbind result_bind option_bind].
    rewrite Hsheet. cbn [mbind result_bind]. rewrite Hr. cbn [mbind result_bind].
    by rewrite Hcell.
  - intros r -> Hlast. change (0 - 1)%Z with (-1)%Z. unfold Py.getitem.
    replace (0 <=? -1)%Z with false by done.
    destruct (sheet_rows sheet) as [|r0 rows] eqn:Hrows; [done|].
    replace (- Z.of_nat (length (r0 :: rows)) <=? -1)%Z with true
      by (symmetry; apply Z.leb_le; cbn [length]; lia).
    rewrite last_lookup in Hlast. rewrite <- Hlast. f_equal. cbn [length Nat.pred]. lia.
  - intros r Hr Hcell. rewrite bind_run. cbn [get_self]. rewrite bind_run.
    cbn [lift]. unfold addressed_cell. rewrite Hsheets. cbn [mbind result_bind option_bind].
    rewrite Hsheet. cbn [mbind result_bind]. rewrite Hr. cbn [mbind result_bind].
    by rewrite Hcell.
  - intros Hout. rewrite bind_run. cbn [get_self]. rewrite bind_run.
    cbn [lift]. unfold addressed_cell. rewrite Hsheets. cbn [mbind result_bind option_bind].
    rewrite Hsheet. cbn [mbind result_bind]. by rewrite getitem_out_of_range.
  - rewrite bind_run. cbn [get_self]. rewrite bind_run.
    cbn [lift]. unfold addressed_cell. by rewrite Hsheets.
Qed.

End Addresses.

Example customers_sheet_parsed :
  parse_sheet_contents (H:=scripted []) (holding (Assigned (Some customers)))
    (Some "Sheet1") = Ok customers_sheet.
Proof. vm_compute. reflexivity. Qed.

Lemma cell_address_resolution_witness :
  sheet_update_cells (H:=scripted []) 1 (Some "Sheet1") (Some "customer:0") (JStr "Acme")
    (against [] [] ∅ loaded)
  = sheet_edit_content (H:=scripted []) 1 (JStr "Acme") (JInt REPLACE_SECTION)
      (JStr "markdown") (Some "r1c1") (against [] [] ∅ loaded).
Proof.
  destruct (cell_address_resolution (H:=scripted []) 1 (against [] [] ∅ loaded)
              "Sheet1" "customer" "0" 0 (JStr "Acme") [("Sheet1", customers_sheet)]
              customers_sheet eq_refl eq_refl eq_refl eq_refl eq_refl)
    as [Hcell _].
  exact (Hcell _ (plain "r1c1" "Bolt") eq_refl eq_refl).
Defined.

(** ** Copies *)

Section Copies.
Context `{Externals}.

(** X21: the request of [_copy] never carries the title that the caller
    asks for: it carries a title only when none is asked, namely the title
    of the thread followed by " (Copy)".  It always carries
    [copy_annotations], as "True" or "False". *)
Theorem copy_never_sends_the_title (t : Thread) (folder_ids member_ids : list string)
    (title : option string) (copy_annotations : bool) args req :
  copy_args t folder_ids member_ids title copy_annotations = Ok args ->
  request t 1 "threads/copy-document" (Some args) [] = Ok req ->
  dict_get "title" (default [] (data req))
    = match title, Quip.title t with
      | Some (String _ _), _ => None
      | _, JStr own => Some (own +:+ " (Copy)")
      | _, _ => None
      end
  /\ dict_get "copy_annotations" (default [] (data req))
     = Some (if copy_annotations then "True" else "False")
  /\ dict_get "thread_id" (default [] (data req))
     = (if kept ("thread_id", id_ t) then encoded (id_ t) else None).
Proof.
  intros Hargs Hreq.
  assert (NoDup args.*1
          /\ dict_get "title" args
             = match title, Quip.title t with
               | Some (String _ _), _ => None
               | _, JStr own => Some (JStr (own +:+ " (Copy)"))
               | _, _ => None
               end
          /\ dict_get "copy_annotations" args = Some (JBool copy_annotations)
          /\ dict_get "thread_id" args = Some (id_ t)) as (Hnd & Htitle & Hca & Hid).
  { unfold copy_args in Hargs.
    destruct folder_ids as [|f fs], member_ids as [|m ms], title as [[|c ti]|],
      (Quip.title t) as [| | |own| |];
      cbn in Hargs; try done; injection Hargs as <-;
      (split; [cbn; compute_done|done]). }
  rewrite !(request_field t 1 _ args [] req _ Hnd Hreq), Htitle, Hca, Hid.
  split; [|split; [by destruct copy_annotations|done]].
  destruct title as [[|c ti]|], (Quip.title t) as [| | |own| |]; try done;
    cbn; unfold kept; cbn; by destruct own.
Qed.

End Copies.

Lemma copy_never_sends_the_title_witness :
  exists req : Request,
    (args ← copy_args (H:=scripted []) (holding Unassigned) [] [] (Some "Plan") false;
     request (H:=scripted []) (holding Unassigned) 1 "threads/copy-document"
       (Some args) []) = Ok req
    /\ dict_get "title" (default [] (data req)) = None
    /\ dict_get "copy_annotations" (default [] (data req)) = Some "False".
Proof.
  eexists. split; [vm_compute; reflexivity|].
  destruct (copy_never_sends_the_title (H:=scripted []) (holding Unassigned) [] []
              (Some "Plan") false _ _ eq_refl ltac:(vm_compute; reflexivity))
    as (Htitle & Hca & _).
  split; [exact Htitle|exact Hca].
Defined.
